(** * Students CRUD application (app.py): model and verified properties

    The program is a text menu over four operations on one table of a
    relational store.  The model below follows app.py function by function.
    What app.py takes from outside the repository is modelled as follows.

    - Text.  A Python [str] is a [string]; each [ascii] is a code point
      below 256.  In that range the decimal digits are exactly '0'..'9',
      and the white space of [str.strip] and [int] is listed in [isspace].
      Text with a code point of 256 or above, where Python knows further
      digits and further white space, is not covered.
    - [int(text)] and [datetime.strptime(text, "%Y-%m-%d")] follow the
      CPython routines they call ([PyLong_FromString], [_strptime] with
      the patterns of [TimeRE]).  The digit limit of [int] is a parameter.
    - The store (psycopg2 and the database behind it) is a table of rows
      with a key sequence and a transaction view per connection.  The
      columns are those of the statements; [email] is unique and
      [student_id] is the key, drawn from the sequence.  How the store
      reads the text of a date is a parameter.
    - Failures of the store follow a script: each call that talks to the
      server (connect, execute, commit, and the commit or rollback that
      psycopg2 runs when the [with] block of a connection is left) takes
      the next entry and raises the [psycopg2.Error] found there, if any;
      the store also raises [UniqueViolation] by itself.  An error raised
      on leaving the [with] block replaces the error that left the block.
      The script is free to hold an error also for the end of a block in
      which no statement ran, where psycopg2 has nothing to send; what is
      proved for every script holds for the scripts without such entries.
    - [cur.execute] adapts its parameters before it sends the statement:
      psycopg2 refuses a text that holds the NUL character with a
      [ValueError], which is no [psycopg2.Error].  Opening a cursor and
      reading the rows an [execute] has fetched do not fail.
    - The terminal is the list of the lines still to be read; [input] at
      the end of that list raises [EOFError].
    - Everything observable (printed lines, prompts, calls to the store)
      is appended to a trace. *)

From Stdlib Require Import String Ascii ZArith List Bool Lia Arith.
From Stdlib Require Import DecimalString Sorted Permutation.
From Stdlib Require DecimalPos DecimalFacts.
Import ListNotations.

Local Open Scope Z_scope.

(** ** Characters and text *)

Module PyStr.

Definition text := list ascii.

Definition code (c : ascii) : Z := Z.of_N (N_of_ascii c).

Definition in_range (lo hi : Z) (c : ascii) : bool :=
  (lo <=? code c) && (code c <=? hi).

Definition is_char (x c : ascii) : bool := Ascii.eqb x c.

(** [\d] of the [re] module and the digits of [int], below code point 256. *)
Definition is_digit (c : ascii) : bool := in_range 48 57 c.

Definition digit_value (c : ascii) : Z := code c - 48.

(** [str.isspace] on one character: the ASCII table of white space
    (tab to carriage return, the four separators 0x1C..0x1F, the blank)
    and, above 127, NEL (0x85) and the no-break space (0xA0). *)
Definition isspace (c : ascii) : bool :=
  in_range 9 13 c || in_range 28 31 c || in_range 32 32 c
  || in_range 133 133 c || in_range 160 160 c.

(** [Py_ISSPACE] of the C layer: tab to carriage return, and the blank. *)
Definition Py_ISSPACE (c : ascii) : bool :=
  in_range 9 13 c || in_range 32 32 c.

Fixpoint lstrip (s : text) : text :=
  match s with
  | [] => []
  | c :: r => if isspace c then lstrip r else s
  end.

Definition rstrip (s : text) : text := rev (lstrip (rev s)).

(** [s.strip()] *)
Definition strip_text (s : text) : text := rstrip (lstrip s).

Definition strip (s : string) : string :=
  string_of_list_ascii (strip_text (list_ascii_of_string s)).

(** Whether the text holds the NUL character (code point 0). *)
Definition has_nul (s : string) : bool :=
  existsb (fun c => code c =? 0) (list_ascii_of_string s).

(** *** [int(text)]

    [PyLong_FromUnicodeObject]: the text is first rewritten to ASCII
    ([_PyUnicode_TransformDecimalAndSpaceToASCII]), then read by
    [PyLong_FromString] in base 10; every failure is a [ValueError]. *)

Fixpoint transform_to_ascii (s : text) : text :=
  match s with
  | [] => []
  | c :: r =>
      if code c <? 127 then c :: transform_to_ascii r
      else if isspace c then " "%char :: transform_to_ascii r
      else ["?"%char]
  end.

Definition to_ascii (s : text) : text :=
  if forallb (fun c => code c <? 128) s then s else transform_to_ascii s.

Fixpoint skip_spaces (s : text) : text :=
  match s with
  | [] => []
  | c :: r => if Py_ISSPACE c then skip_spaces r else s
  end.

(** The scan over digits and underscores.  [prev] tells whether the
    previous character was an underscore; the result is the scanned part
    and what follows it, or [None] for a doubled or trailing underscore. *)
Fixpoint scan_digits (s : text) (prev : bool) : option (text * text) :=
  match s with
  | c :: r =>
      if is_digit c then
        match scan_digits r false with
        | Some (d, rest) => Some (c :: d, rest)
        | None => None
        end
      else if is_char "_" c then
        if prev then None
        else match scan_digits r true with
             | Some (d, rest) => Some (c :: d, rest)
             | None => None
             end
      else if prev then None else Some ([], s)
  | [] => if prev then None else Some ([], s)
  end.

(** Value of a run of digits and underscores, most significant first. *)
Definition digits_value (d : text) : Z :=
  fold_left (fun acc c => if is_digit c then 10 * acc + digit_value c else acc) d 0.

Definition count_digits (d : text) : nat := length (filter is_digit d).

Section IntLimit.

(** [sys.get_int_max_str_digits()]: 0 switches the limit off; 4300 is the
    default of the interpreters that have the limit. *)
Variable max_str_digits : nat.

Definition exceeds_limit (digits : nat) : bool :=
  (640 <? digits)%nat && (0 <? max_str_digits)%nat && (max_str_digits <? digits)%nat.

(** The optional sign. *)
Definition split_sign (s : text) : bool * text :=
  match s with
  | c :: r => if is_char "+" c then (false, r)
              else if is_char "-" c then (true, r)
              else (false, s)
  | [] => (false, s)
  end.

(** The digits after the sign: no leading underscore, at least one
    character scanned, only white space after it, and not more digits
    than the limit allows. *)
Definition read_magnitude (body : text) : option Z :=
  match body with
  | c :: _ =>
      if is_char "_" c then None else
      match scan_digits body false with
      | None => None
      | Some ([], _) => None
      | Some (d, rest) =>
          match skip_spaces rest with
          | _ :: _ => None
          | [] => if exceeds_limit (count_digits d) then None
                  else Some (digits_value d)
          end
      end
  | [] => None
  end.

Definition read_signed (s : text) : option Z :=
  let (neg, body) := split_sign s in
  match read_magnitude body with
  | Some m => Some (if neg : bool then - m else m)
  | None => None
  end.

Definition int_of_text (s : text) : option Z :=
  read_signed (skip_spaces (to_ascii s)).

(** [int(s)]: [Some n] is the integer, [None] is [ValueError]. *)
Definition py_int (s : string) : option Z :=
  int_of_text (list_ascii_of_string s).

End IntLimit.

(** [str(n)] for an integer. *)
Definition str_of_int (n : Z) : string := NilZero.string_of_int (Z.to_int n).

End PyStr.

Import PyStr.

(** ** The [re] fragment used by [_strptime]

    A backtracking matcher with ordered alternatives and named groups,
    written with a continuation that receives the matched text, what is
    left of the input and the groups captured so far. *)

Module Re.

Inductive regex : Type :=
| Cls (p : ascii -> bool)
| Cat (r1 r2 : regex)
| Alt (r1 r2 : regex)
| Grp (name : string) (r : regex).

Definition groups := list (string * text).

Fixpoint run {A : Type} (r : regex) (s : text) (g : groups)
    (k : text -> text -> groups -> option A) : option A :=
  match r with
  | Cls p =>
      match s with
      | c :: t => if p c then k [c] t g else None
      | [] => None
      end
  | Cat r1 r2 =>
      run r1 s g (fun m1 s1 g1 =>
        run r2 s1 g1 (fun m2 s2 g2 => k (m1 ++ m2) s2 g2))
  | Alt r1 r2 =>
      match run r1 s g k with
      | Some x => Some x
      | None => run r2 s g k
      end
  | Grp name r0 =>
      run r0 s g (fun m s1 g1 => k m s1 ((name, m) :: g1))
  end.

(** [pattern.match(s)]: the first match from the start of [s], as the
    position where it ends (given by the rest of the input) and its groups. *)
Definition rmatch (r : regex) (s : text) : option (text * groups) :=
  run r s [] (fun _ rest g => Some (rest, g)).

Fixpoint group (name : string) (g : groups) : option text :=
  match g with
  | [] => None
  | (n, m) :: g' => if String.eqb n name then Some m else group name g'
  end.

End Re.

(** ** [datetime.strptime(text, "%Y-%m-%d")] *)

Module PyTime.

Import Re.

Record date : Type := mkDate { year : Z; month : Z; day : Z }.

(** A character class [[lo-hi]], a literal character, and [\d]. *)
Definition rng (lo hi : ascii) : regex := Cls (in_range (code lo) (code hi)).
Definition ch (x : ascii) : regex := rng x x.
Definition d : regex := Cls is_digit.

(** The directives of [TimeRE]:
    [%Y] is [(?P<Y>\d\d\d\d)],
    [%m] is [(?P<m>1[0-2]|0[1-9]|[1-9])],
    [%d] is [(?P<d>3[0-1]|[1-2]\d|0[1-9]|[1-9]| [1-9])]. *)
Definition re_Y : regex := Grp "Y" (Cat d (Cat d (Cat d d))).
Definition re_m : regex :=
  Grp "m" (Alt (Cat (ch "1") (rng "0" "2"))
          (Alt (Cat (ch "0") (rng "1" "9"))
               (rng "1" "9"))).
Definition re_d : regex :=
  Grp "d" (Alt (Cat (ch "3") (rng "0" "1"))
          (Alt (Cat (rng "1" "2") d)
          (Alt (Cat (ch "0") (rng "1" "9"))
          (Alt (rng "1" "9")
               (Cat (ch " ") (rng "1" "9")))))).

(** The compiled format ["%Y-%m-%d"]. *)
Definition format_regex : regex :=
  Cat re_Y (Cat (ch "-") (Cat re_m (Cat (ch "-") re_d))).

(** [datetime._is_leap], [_DAYS_IN_MONTH], [_days_in_month]. *)
Definition _is_leap (y : Z) : bool :=
  (y mod 4 =? 0) && (negb (y mod 100 =? 0) || (y mod 400 =? 0)).

Definition _DAYS_IN_MONTH : list Z :=
  [-1; 31; 28; 31; 30; 31; 30; 31; 31; 30; 31; 30; 31].

Definition _days_in_month (y m : Z) : Z :=
  if (m =? 2) && _is_leap y then 29 else nth (Z.to_nat m) _DAYS_IN_MONTH (-1).

(** [_check_date_fields]: the constructor of a date raises [ValueError]
    outside 1..9999 for the year, 1..12 for the month, and the length of
    the month for the day. *)
Definition check_date_fields (y m dd : Z) : option date :=
  if negb ((1 <=? y) && (y <=? 9999)) then None
  else if negb ((1 <=? m) && (m <=? 12)) then None
  else if negb ((1 <=? dd) && (dd <=? _days_in_month y m)) then None
  else Some (mkDate y m dd).

Section Strptime.

Variable max_str_digits : nat.

(** [_strptime] for this format: match from the start, refuse text left
    over, convert the groups with [int], build the date.  [None] stands
    for the [ValueError] raised on any of these. *)
Definition strptime_text (s : text) : option date :=
  match rmatch format_regex s with
  | None => None
  | Some (_ :: _, _) => None
  | Some ([], g) =>
      match group "Y" g, group "m" g, group "d" g with
      | Some ty, Some tm, Some td =>
          match int_of_text max_str_digits ty, int_of_text max_str_digits tm,
                int_of_text max_str_digits td with
          | Some y, Some m, Some dd => check_date_fields y m dd
          | _, _, _ => None
          end
      | _, _, _ => None
      end
  end.

Definition strptime (s : string) : option date :=
  strptime_text (list_ascii_of_string s).

End Strptime.

(** [str(date)]: ISO form, the year on four digits, month and day on two. *)
Definition pad (width : nat) (s : string) : string :=
  string_of_list_ascii (repeat "0"%char (width - String.length s)) ++ s.

Definition str_of_date (x : date) : string :=
  (pad 4 (str_of_int (year x)) ++ "-" ++ pad 2 (str_of_int (month x)) ++ "-"
   ++ pad 2 (str_of_int (day x)))%string.

End PyTime.

Import PyTime.

(** ** The store: the [students] table behind psycopg2 *)

Module Store.

Record Student : Type := mkStudent {
  student_id : Z;
  first_name : string;
  last_name : string;
  email : string;
  enrollment_date : date
}.

(** The committed table and the sequence that generates [student_id]. *)
Record Database : Type := mkDatabase {
  rows : list Student;
  next_id : Z
}.

(** The four statements of app.py with their parameters. *)
Inductive sql : Type :=
| SelectAll
| InsertStudent (first last mail date_str : string)
| UpdateEmail (new_email : string) (sid : Z)
| DeleteStudent (sid : Z).

(** Whether a text parameter of the statement holds the NUL character:
    psycopg2 cannot adapt such a parameter. *)
Definition holds_nul (q : sql) : bool :=
  match q with
  | SelectAll => false
  | InsertStudent first last mail date_str =>
      has_nul first || has_nul last || has_nul mail || has_nul date_str
  | UpdateEmail new_email _ => has_nul new_email
  | DeleteStudent _ => false
  end.

(** A [psycopg2.Error]: [errors.UniqueViolation] or any other subclass,
    with its [pgerror] attribute and its [str()]. *)
Inductive pg_class : Type := UniqueViolation | OtherError.

Record pg_exc : Type := mkPgExc {
  pg_kind : pg_class;
  pgerror : option string;
  pg_str : string
}.

Inductive pyval : Type :=
| PInt (n : Z)
| PStr (s : string)
| PDate (x : date).

(** What a cursor holds after [execute]. *)
Record cursor : Type := mkCursor {
  rowcount : Z;
  results : list (list pyval)
}.

Definition set_email (e : string) (r : Student) : Student :=
  mkStudent (student_id r) (first_name r) (last_name r) e (enrollment_date r).

Definition has_id (n : Z) (r : Student) : bool := student_id r =? n.
Definition has_email (e : string) (r : Student) : bool := String.eqb (email r) e.

Fixpoint insert_by_id (r : Student) (l : list Student) : list Student :=
  match l with
  | [] => [r]
  | x :: l' => if student_id r <? student_id x then r :: l
               else x :: insert_by_id r l'
  end.

(** [ORDER BY student_id] *)
Definition order_by_id (l : list Student) : list Student :=
  fold_right insert_by_id [] l.

Definition tuple_of (r : Student) : list pyval :=
  [PInt (student_id r); PStr (first_name r); PStr (last_name r);
   PStr (email r); PDate (enrollment_date r)].

Definition unique_violation : pg_exc :=
  mkPgExc UniqueViolation
    (Some "ERROR:  duplicate key value violates unique constraint"%string)
    "duplicate key value violates unique constraint".

Definition invalid_date : pg_exc :=
  mkPgExc OtherError
    (Some "ERROR:  invalid input syntax for type date"%string)
    "invalid input syntax for type date".

Definition no_connection : pg_exc :=
  mkPgExc OtherError None "connection already closed".

Section Statements.

(** How the store reads the text of a date; [None] is a refusal. *)
Variable date_in : string -> option date.

(** One statement on the view [v] of the open transaction, with the
    sequence at [seq]: an error, or the cursor and the new view; and the
    sequence afterwards (a value drawn from it is never given back).
    [email] is unique and [student_id] is the key. *)
Definition run_sql (q : sql) (v : list Student) (seq : Z)
    : (pg_exc + cursor * list Student) * Z :=
  match q with
  | SelectAll =>
      let out := order_by_id v in
      (inr (mkCursor (Z.of_nat (length out)) (map tuple_of out), v), seq)
  | InsertStudent first last mail date_str =>
      match date_in date_str with
      | None => (inl invalid_date, seq)
      | Some dt =>
          if existsb (has_id seq) v || existsb (has_email mail) v
          then (inl unique_violation, seq + 1)
          else (inr (mkCursor 1 [[PInt seq]],
                     v ++ [mkStudent seq first last mail dt]), seq + 1)
      end
  | UpdateEmail new_email sid =>
      let hit := filter (has_id sid) v in
      let others := filter (fun r => negb (has_id sid r)) v in
      if negb (length hit =? 0)%nat
         && (existsb (has_email new_email) others || (1 <? length hit)%nat)
      then (inl unique_violation, seq)
      else (inr (mkCursor (Z.of_nat (length hit)) [],
                 map (fun r => if has_id sid r then set_email new_email r else r) v),
            seq)
  | DeleteStudent sid =>
      let hit := filter (has_id sid) v in
      (inr (mkCursor (Z.of_nat (length hit)) [],
            filter (fun r => negb (has_id sid r)) v), seq)
  end.

End Statements.

End Store.

Import Store.

(** ** The process: state, exceptions, and the primitives app.py calls *)

Inductive store_call : Type :=
| Connect
| Execute (q : sql)
| Commit
| Release (clean : bool).

(** What the process does that can be observed, oldest first. *)
Inductive event : Type :=
| Out (line : string)
| Prompt (msg : string)
| Call (c : store_call).

Inductive exn : Type :=
| ValueError
| TypeError
| IndexError
| EOFError
| PgError (e : pg_exc).

Inductive outcome (A : Type) : Type :=
| Return (a : A)
| Raise (e : exn).
Arguments Return {A} a.
Arguments Raise {A} e.

Record World : Type := mkWorld {
  store : Database;
  session : option (list Student);
  faults : list (option pg_exc);
  stdin : list string;
  trace : list event
}.

Definition Py (A : Type) : Type := World -> outcome A * World.

Definition ret {A : Type} (a : A) : Py A := fun w => (Return a, w).

Definition raise {A : Type} (e : exn) : Py A := fun w => (Raise e, w).

Definition bind {A B : Type} (m : Py A) (f : A -> Py B) : Py B :=
  fun w =>
    match m w with
    | (Return a, w1) => f a w1
    | (Raise e, w1) => (Raise e, w1)
    end.

Declare Scope py_scope.
Delimit Scope py_scope with py.
Notation "x <- m ;; k" := (bind m (fun x => k))
  (at level 100, m at next level, right associativity) : py_scope.
Notation "m ;; k" := (bind m (fun _ => k))
  (at level 100, right associativity) : py_scope.
Local Open Scope py_scope.

(** [try: m except ...]: [h e] is the body of the first clause that
    matches [e], or [None] when no clause does and [e] goes on. *)
Definition try_except {A : Type} (m : Py A) (h : exn -> option (Py A)) : Py A :=
  fun w =>
    match m w with
    | (Return a, w1) => (Return a, w1)
    | (Raise e, w1) =>
        match h e with
        | Some k => k w1
        | None => (Raise e, w1)
        end
    end.

Definition except_ValueError {A : Type} (k : Py A) (e : exn) : option (Py A) :=
  match e with ValueError => Some k | _ => None end.

Definition except_UniqueViolation {A : Type} (k : Py A) (e : exn) : option (Py A) :=
  match e with
  | PgError x => match pg_kind x with UniqueViolation => Some k | OtherError => None end
  | _ => None
  end.

Definition except_psycopg2_Error {A : Type} (k : pg_exc -> Py A) (e : exn)
    : option (Py A) :=
  match e with PgError x => Some (k x) | _ => None end.

(** Clauses in the order they are written. *)
Definition or_except {A : Type} (h1 h2 : exn -> option (Py A)) (e : exn)
    : option (Py A) :=
  match h1 e with Some k => Some k | None => h2 e end.

Definition emit (ev : event) (w : World) : World :=
  mkWorld (store w) (session w) (faults w) (stdin w) (trace w ++ [ev]).

Definition print (line : string) : Py unit := fun w => (Return tt, emit (Out line) w).

(** [input(msg)]: the next line of the terminal, [EOFError] at its end. *)
Definition input (msg : string) : Py string :=
  fun w =>
    let w1 := emit (Prompt msg) w in
    match stdin w1 with
    | [] => (Raise EOFError, w1)
    | l :: r => (Return l, mkWorld (store w1) (session w1) (faults w1) r (trace w1))
    end.

(** A call that reaches the server takes the next entry of the script. *)
Definition next_fault (w : World) : option pg_exc * World :=
  match faults w with
  | [] => (None, w)
  | f :: r => (f, mkWorld (store w) (session w) r (stdin w) (trace w))
  end.

Definition server_call (c : store_call) : Py unit :=
  fun w =>
    match next_fault (emit (Call c) w) with
    | (Some e, w1) => (Raise (PgError e), w1)
    | (None, w1) => (Return tt, w1)
    end.

(** [connect_db()]: a new connection; its transaction starts from the
    committed table. *)
Definition connect_db : Py unit :=
  server_call Connect ;;
  fun w => (Return tt,
            mkWorld (store w) (Some (rows (store w))) (faults w) (stdin w) (trace w)).

(** [conn.commit()] *)
Definition commit : Py unit :=
  server_call Commit ;;
  fun w =>
    match session w with
    | Some v => (Return tt, mkWorld (mkDatabase v (next_id (store w))) (session w)
                               (faults w) (stdin w) (trace w))
    | None => (Raise (PgError no_connection), w)
    end.

(** Leaving [with connect_db() as conn]: psycopg2 commits the transaction
    when the block ends normally and rolls it back when it ends with an
    exception.  This is a call to the server like the others: when it
    fails, nothing is committed and its error is raised.  The connection
    is then dropped. *)
Definition leave_connection (clean : bool) : Py unit :=
  fun w =>
    match server_call (Release clean) w with
    | (Raise e, w1) =>
        (Raise e, mkWorld (store w1) None (faults w1) (stdin w1) (trace w1))
    | (Return _, w1) =>
        let db := match clean, session w1 with
                  | true, Some v => mkDatabase v (next_id (store w1))
                  | _, _ => store w1
                  end in
        (Return tt, mkWorld db None (faults w1) (stdin w1) (trace w1))
    end.

(** [with connect_db() as conn: body].  An error raised on leaving the
    block takes the place of the result, or of the error, of the body. *)
Definition with_connection {A : Type} (body : Py A) : Py A :=
  fun w =>
    match connect_db w with
    | (Raise e, w1) => (Raise e, w1)
    | (Return _, w1) =>
        match body w1 with
        | (Return a, w2) =>
            match leave_connection true w2 with
            | (Return _, w3) => (Return a, w3)
            | (Raise e, w3) => (Raise e, w3)
            end
        | (Raise e, w2) =>
            match leave_connection false w2 with
            | (Return _, w3) => (Raise e, w3)
            | (Raise e', w3) => (Raise e', w3)
            end
        end
    end.

(** [with conn.cursor() as cur]: a client-side cursor, opened and closed
    without a call to the server. *)
Definition with_cursor {A : Type} (body : Py A) : Py A := body.

(** [cur.fetchall()] and [cur.fetchone()] read what [execute] left. *)
Definition fetchall (cur : cursor) : list (list pyval) := results cur.

Definition fetchone (cur : cursor) : option (list pyval) :=
  match results cur with
  | [] => None
  | t :: _ => Some t
  end.

(** [row[0]]: a [TypeError] when [row] is [None], an [IndexError] on an
    empty tuple. *)
Definition item0 (row : option (list pyval)) : Py pyval :=
  match row with
  | Some (x :: _) => ret x
  | Some [] => raise IndexError
  | None => raise TypeError
  end.

Definition py_str (x : pyval) : string :=
  match x with
  | PInt n => str_of_int n
  | PStr s => s
  | PDate dt => str_of_date dt
  end.

(** [e.pgerror or e] inside an f-string. *)
Definition diagnostic (e : pg_exc) : string :=
  match pgerror e with
  | Some s => if String.eqb s EmptyString then pg_str e else s
  | None => pg_str e
  end.

Definition nl : string := String "010"%char EmptyString.

(** ** The operations of app.py *)

Section App.

(** The digit limit of [int] and the store's reading of a date text. *)
Variable max_str_digits : nat.
Variable date_in : string -> option date.

Local Open Scope string_scope.

(** [cur.execute(statement, parameters)].  The parameters are adapted
    first: a text that holds NUL is refused with a [ValueError] and nothing
    is sent.  Otherwise the statement goes to the server. *)
Definition execute (q : sql) : Py cursor :=
  if holds_nul q then raise ValueError else
  server_call (Execute q) ;;
  fun w =>
    match session w with
    | None => (Raise (PgError no_connection), w)
    | Some v =>
        match run_sql date_in q v (next_id (store w)) with
        | (inl e, seq) =>
            (Raise (PgError e),
             mkWorld (mkDatabase (rows (store w)) seq) (session w)
                     (faults w) (stdin w) (trace w))
        | (inr (cur, v'), seq) =>
            (Return cur,
             mkWorld (mkDatabase (rows (store w)) seq) (Some v')
                     (faults w) (stdin w) (trace w))
        end
    end.

Definition py_strptime (s : string) : Py date :=
  match strptime max_str_digits s with
  | Some x => ret x
  | None => raise ValueError
  end.

Definition int (s : string) : Py Z :=
  match py_int max_str_digits s with
  | Some n => ret n
  | None => raise ValueError
  end.

Fixpoint for_each {A : Type} (f : A -> Py unit) (l : list A) : Py unit :=
  match l with
  | [] => ret tt
  | x :: r => f x ;; for_each f r
  end.

(** The body of [for sid, first, last, email, enroll_date in rows]. *)
Definition print_row (t : list pyval) : Py unit :=
  match t with
  | [sid; first; last; mail; enroll_date] =>
      print (py_str sid ++ " | " ++ py_str first ++ " | " ++ py_str last
             ++ " | " ++ py_str mail ++ " | " ++ py_str enroll_date)
  | _ => raise ValueError
  end.

Definition dashes (n : nat) : string := string_of_list_ascii (repeat "-"%char n).

Definition msg_fetch_failed (e : pg_exc) : string :=
  nl ++ "[ERROR] Failed to fetch students: " ++ diagnostic e ++ nl.

Definition getAllStudents : Py unit :=
  try_except
    (with_connection (with_cursor (
       cur <- execute SelectAll ;;
       let found := fetchall cur in
       match found with
       | [] => print (nl ++ "No students found." ++ nl)
       | _ :: _ =>
           print (nl ++ "All Students:") ;;
           print "ID | First Name | Last Name | Email | Enrollment Date" ;;
           print (dashes 70) ;;
           for_each print_row found ;;
           print EmptyString
       end)))
    (except_psycopg2_Error (fun e => print (msg_fetch_failed e))).

Definition msg_invalid_date : string :=
  nl ++ "[ERROR] Invalid date format. Use YYYY-MM-DD (e.g., 2023-09-01)." ++ nl.

Definition msg_duplicate_email : string :=
  nl ++ "[ERROR] That email is already in use. Please use a different email." ++ nl.

Definition msg_add_failed (e : pg_exc) : string :=
  nl ++ "[ERROR] Failed to add student: " ++ diagnostic e ++ nl.

Definition msg_added (new_id : pyval) : string :=
  nl ++ "Student added with ID " ++ py_str new_id ++ "." ++ nl.

(** The statements inside the second [try] of [addStudent]. *)
Definition addStudent_store (first last mail date_str : string) : Py unit :=
  with_connection (with_cursor (
    cur <- execute (InsertStudent first last mail date_str) ;;
    new_id <- item0 (fetchone cur) ;;
    commit ;;
    print (msg_added new_id))).

Definition addStudent (first last mail date_str : string) : Py unit :=
  valid <- try_except (py_strptime date_str ;; ret true)
             (except_ValueError (print msg_invalid_date ;; ret false)) ;;
  if valid : bool then
    try_except (addStudent_store first last mail date_str)
      (or_except (except_UniqueViolation (print msg_duplicate_email))
                 (except_psycopg2_Error (fun e => print (msg_add_failed e))))
  else ret tt.

Definition msg_invalid_id : string :=
  nl ++ "[ERROR] Invalid student ID. Please enter a number." ++ nl.

Definition msg_not_found : string := nl ++ "No student found with that ID." ++ nl.

Definition msg_updated : string := nl ++ "Email updated successfully." ++ nl.

Definition msg_update_failed (e : pg_exc) : string :=
  nl ++ "[ERROR] Failed to update email: " ++ diagnostic e ++ nl.

(** The statements inside the second [try] of [updateStudentEmail]. *)
Definition updateStudentEmail_store (sid : Z) (new_email : string) : Py unit :=
  with_connection (with_cursor (
    cur <- execute (UpdateEmail new_email sid) ;;
    if (rowcount cur =? 0)%Z then print msg_not_found
    else (commit ;; print msg_updated))).

Definition updateStudentEmail (student_id new_email : string) : Py unit :=
  parsed <- try_except (sid <- int student_id ;; ret (Some sid))
              (except_ValueError (print msg_invalid_id ;; ret None)) ;;
  match parsed with
  | Some sid =>
      try_except (updateStudentEmail_store sid new_email)
        (or_except (except_UniqueViolation (print msg_duplicate_email))
                   (except_psycopg2_Error (fun e => print (msg_update_failed e))))
  | None => ret tt
  end.

Definition msg_deleted : string := nl ++ "Student deleted successfully." ++ nl.

Definition msg_delete_failed (e : pg_exc) : string :=
  nl ++ "[ERROR] Failed to delete student: " ++ diagnostic e ++ nl.

(** The statements inside the second [try] of [deleteStudent]. *)
Definition deleteStudent_store (sid : Z) : Py unit :=
  with_connection (with_cursor (
    cur <- execute (DeleteStudent sid) ;;
    if (rowcount cur =? 0)%Z then print msg_not_found
    else (commit ;; print msg_deleted))).

Definition deleteStudent (student_id : string) : Py unit :=
  parsed <- try_except (sid <- int student_id ;; ret (Some sid))
              (except_ValueError (print msg_invalid_id ;; ret None)) ;;
  match parsed with
  | Some sid =>
      try_except (deleteStudent_store sid)
        (except_psycopg2_Error (fun e => print (msg_delete_failed e)))
  | None => ret tt
  end.

(** ** The menu *)

Inductive control : Type := Continue | Break.

Definition msg_goodbye : string := nl ++ "Goodbye.".

Definition msg_invalid_option : string := nl ++ "Invalid option. Please try again." ++ nl.

Definition print_menu : Py unit :=
  print "--- Students CRUD Menu ---" ;;
  print "1. View all students" ;;
  print "2. Add a student" ;;
  print "3. Update student email" ;;
  print "4. Delete a student" ;;
  print "0. Exit".

(** [input(msg).strip()] *)
Definition input_strip (msg : string) : Py string :=
  line <- input msg ;; ret (strip line).

(** The branch of the [if] chain taken for [choice]. *)
Definition dispatch (choice : string) : Py control :=
  if String.eqb choice "1" then
    getAllStudents ;; ret Continue
  else if String.eqb choice "2" then
    first <- input_strip "First name: " ;;
    last <- input_strip "Last name: " ;;
    mail <- input_strip "Email: " ;;
    date_str <- input_strip "Enrollment date (YYYY-MM-DD): " ;;
    addStudent first last mail date_str ;; ret Continue
  else if String.eqb choice "3" then
    sid <- input_strip "Student ID: " ;;
    new_email <- input_strip "New email: " ;;
    updateStudentEmail sid new_email ;; ret Continue
  else if String.eqb choice "4" then
    sid <- input_strip "Student ID to delete: " ;;
    deleteStudent sid ;; ret Continue
  else if String.eqb choice "0" then
    print msg_goodbye ;; ret Break
  else
    print msg_invalid_option ;; ret Continue.

(** One turn of [while True]. *)
Definition menu_turn : Py control :=
  print_menu ;;
  choice <- input_strip "Choose an option: " ;;
  dispatch choice.

(** [while True]: [fuel] bounds the number of turns; [None] means the
    bound was reached before the loop ended. *)
Fixpoint menu_loop (fuel : nat) (w : World) : option (outcome unit * World) :=
  match fuel with
  | O => None
  | S n =>
      match menu_turn w with
      | (Return Continue, w1) => menu_loop n w1
      | (Return Break, w1) => Some (Return tt, w1)
      | (Raise e, w1) => Some (Raise e, w1)
      end
  end.

(** [menu()]: every turn reads a line, so one turn more than the lines
    waiting on the terminal is enough. *)
Definition menu (w : World) : option (outcome unit * World) :=
  menu_loop (S (length (stdin w))) w.

Definition msg_no_connection (e : pg_exc) : string :=
  "[ERROR] Could not connect to database with current DB_CONFIG:" ++ nl ++ diagnostic e.

(** The block under [if __name__ == "__main__"]. *)
Definition main (w : World) : option (outcome unit * World) :=
  match try_except (with_connection (ret tt) ;; ret true)
          (except_psycopg2_Error (fun e => print (msg_no_connection e) ;; ret false)) w with
  | (Return true, w1) => menu w1
  | (Return false, w1) => Some (Return tt, w1)
  | (Raise e, w1) => Some (Raise e, w1)
  end.

End App.

(** ** Vocabulary of the specification *)

Module Spec.

(** The next [k] calls to the server meet no fault. *)
Fixpoint calm (k : nat) (script : list (option pg_exc)) : bool :=
  match k, script with
  | O, _ => true
  | S _, [] => true
  | S k', None :: r => calm k' r
  | S _, Some _ :: _ => false
  end.

(** An unsigned decimal digit string and the number it writes. *)
Definition unsigned_decimal (s : text) : Prop :=
  s <> [] /\ forallb is_digit s = true.

Definition decimal_value (s : text) : Z :=
  fold_left (fun acc c => 10 * acc + digit_value c) s 0.

(** The events with which [w'] extends [w]. *)
Definition extends (w w' : World) (added : list event) : Prop :=
  trace w' = trace w ++ added.

(** [m] leaves the terminal input alone, returns a value that satisfies
    [Q], and raises nothing but store errors and, only when [nul] is
    [true], the [ValueError] of a parameter that holds NUL. *)
Definition sound {A : Type} (nul : bool) (m : Py A) (Q : A -> Prop) : Prop :=
  forall w,
    stdin (snd (m w)) = stdin w
    /\ match fst (m w) with
       | Return a => Q a
       | Raise (PgError _) => True
       | Raise ValueError => nul = true
       | Raise _ => False
       end.

(** [m] leaves the terminal input alone and always returns. *)
Definition total {A : Type} (m : Py A) : Prop :=
  forall w, exists a w', m w = (Return a, w') /\ stdin w' = stdin w.

(** [m] leaves the terminal input alone and returns, or raises
    [ValueError]. *)
Definition guarded {A : Type} (m : Py A) : Prop :=
  forall w,
    stdin (snd (m w)) = stdin w
    /\ match fst (m w) with
       | Return _ => True
       | Raise e => e = ValueError
       end.

(** [m] may read the terminal; it raises only at the end of the input, or
    with a [ValueError]. *)
Definition reader {A : Type} (m : Py A) : Prop :=
  forall w,
    match m w with
    | (Return _, w') => (length (stdin w') <= length (stdin w))%nat
    | (Raise e, w') => (e = EOFError /\ stdin w' = []) \/ e = ValueError
    end.

(** What [execute] leaves in the cursor: rows of five columns for the
    select, the new key alone for the insert. *)
Definition cursor_shape (q : sql) (cur : cursor) : Prop :=
  match q with
  | SelectAll => exists l, results cur = map tuple_of l
  | InsertStudent _ _ _ _ => exists n, results cur = [[PInt n]]
  | _ => True
  end.

End Spec.

Import Spec.

(** ** Calendar and date shapes of the specification *)

Module DateSpec.

(** The Gregorian rule: every fourth year, except the centuries that are
    not multiples of 400. *)
Definition leap_year (y : Z) : bool :=
  (y mod 400 =? 0) || ((y mod 4 =? 0) && negb (y mod 100 =? 0)).

Definition month_length (y m : Z) : Z :=
  if (m =? 4) || (m =? 6) || (m =? 9) || (m =? 11) then 30
  else if m =? 2 then (if leap_year y then 29 else 28)
  else 31.

(** A date of the calendar, in the years 1 to 9999. *)
Definition real_date (y m dd : Z) : Prop :=
  1 <= y <= 9999 /\ 1 <= m <= 12 /\ 1 <= dd <= month_length y m.

Definition digits (s : text) : Prop := forallb is_digit s = true.

(** The number a field writes; a blank before the digit does not count. *)
Definition field_value (s : text) : Z := decimal_value (filter is_digit s).

(** [s] is [y], a dash, [m], a dash, [dd]. *)
Definition written (s y m dd : text) : Prop :=
  s = y ++ "-"%char :: m ++ "-"%char :: dd.

(** The shape YYYY-MM-DD, strictly: four, two and two digits. *)
Definition strict_fields (y m dd : text) : Prop :=
  length y = 4%nat /\ length m = 2%nat /\ length dd = 2%nat
  /\ digits y /\ digits m /\ digits dd.

Definition strict_date (s : text) : Prop :=
  exists y m dd,
    written s y m dd /\ strict_fields y m dd
    /\ real_date (field_value y) (field_value m) (field_value dd).

(** One or two digits. *)
Definition short_number (s : text) : Prop :=
  digits s /\ (length s = 1%nat \/ length s = 2%nat).

(** The shape the code accepts: a year of four digits, a month of one or
    two digits, a day of one or two digits or a blank and one digit. *)
Definition lenient_fields (y m dd : text) : Prop :=
  length y = 4%nat /\ digits y /\ short_number m
  /\ (short_number dd \/ exists c, dd = [" "%char; c] /\ is_digit c = true).

Definition lenient_date (s : text) (dt : date) : Prop :=
  exists y m dd,
    written s y m dd /\ lenient_fields y m dd
    /\ real_date (field_value y) (field_value m) (field_value dd)
    /\ dt = mkDate (field_value y) (field_value m) (field_value dd).

End DateSpec.
Import DateSpec.

(** ** The menu as the specification describes it *)

Module MenuSpec.

Inductive menu_state : Type := AwaitingChoice | Exited.

(** The state the table of transitions gives after [choice]. *)
Definition next_state (choice : string) : menu_state :=
  if String.eqb choice "0" then Exited else AwaitingChoice.

(** The state in which a turn of the loop leaves the menu. *)
Definition state_after (c : control) : menu_state :=
  match c with Continue => AwaitingChoice | Break => Exited end.

Definition menu_lines : list event :=
  [Out "--- Students CRUD Menu ---"; Out "1. View all students";
   Out "2. Add a student"; Out "3. Update student email";
   Out "4. Delete a student"; Out "0. Exit"].

(** The process once the menu is printed, [prompts] are shown and answered,
    and [rest] is what remains of the terminal input. *)
Definition prompted (w : World) (prompts : list string) (rest : list string) : World :=
  mkWorld (store w) (session w) (faults w) rest
          (trace w ++ menu_lines ++ map Prompt prompts).

End MenuSpec.
Import MenuSpec.

(** ** A small table and process for the worked examples *)

Module Sample.

Local Open Scope string_scope.

(** The default digit limit, and a store that reads the date texts that
    pass the validation as PostgreSQL reads them: to the date [strptime]
    gives, except that a text with a blank in it is refused. *)
Definition limit : nat := 4300.
Definition store_date (s : string) : option date :=
  if existsb (Ascii.eqb " "%char) (list_ascii_of_string s) then None
  else strptime limit s.

Definition ada : Student := mkStudent 1 "Ada" "Lovelace" "ada@x.com" (mkDate 1843 12 10).
Definition alan : Student := mkStudent 2 "Alan" "Turing" "alan@x.com" (mkDate 1912 6 23).

Definition table : Database := mkDatabase [ada; alan] 3.

(** The process before an operation: no connection, [script] for the
    store, [lines] waiting on the terminal. *)
Definition at_rest (lines : list string) (script : list (option pg_exc)) : World :=
  mkWorld table None script lines [].

Definition quiet : World := at_rest [] [].

Definition refused : pg_exc := mkPgExc OtherError None "connection refused".

(** A name and an email with the NUL character in them. *)
Definition nul_name : string := "Hop" ++ String "000"%char "per".
Definition nul_email : string := "a" ++ String "000"%char "b@x.com".

(** The lines printed so far. *)
Definition printed (w : World) : list string :=
  flat_map (fun ev => match ev with Out line => [line] | _ => [] end) (trace w).

Definition shows (line : string) (w : World) : bool :=
  existsb (String.eqb line) (printed w).

(** An empty table and the session of section 8 of the specification:
    create, list, update, list, delete, list, exit. *)
Definition session_lines : list string :=
  ["2"; "Ada"; "Lovelace"; "ada@x.com"; "1843-12-10"; "1";
   "3"; "1"; "ada2@x.com"; "1"; "4"; "1"; "1"; "0"].

Definition fresh : World := mkWorld (mkDatabase [] 1) None [] session_lines [].

End Sample.

(** ** Vocabulary for the further properties *)

Module Behaviour.

Local Open Scope string_scope.

(** The table as the schema keeps it: keys and emails without repetition,
    every key already drawn from the sequence. *)
Definition well_formed (db : Database) : Prop :=
  NoDup (map student_id (rows db)) /\ NoDup (map email (rows db))
  /\ Forall (fun r => student_id r < next_id db) (rows db).

(** The line [getAllStudents] prints for a row. *)
Definition row_line (r : Student) : string :=
  str_of_int (student_id r) ++ " | " ++ first_name r ++ " | " ++ last_name r
  ++ " | " ++ email r ++ " | " ++ str_of_date (enrollment_date r).

(** What [getAllStudents] prints for the rows the select returned. *)
Definition listing (found : list Student) : list event :=
  match found with
  | [] => [Out (nl ++ "No students found." ++ nl)]
  | _ :: _ =>
      ([Out (nl ++ "All Students:");
        Out "ID | First Name | Last Name | Email | Enrollment Date";
        Out (dashes 70)]
       ++ map (fun r => Out (row_line r)) found ++ [Out EmptyString])%list
  end.

(** The calls to the store among some events, in order. *)
Definition store_calls (evs : list event) : list store_call :=
  flat_map (fun ev => match ev with Call c => [c] | _ => [] end) evs.

(** The line an [except] chain with a [UniqueViolation] clause prints for
    a store error, [generic] being the line of the last clause. *)
Definition error_line (generic : pg_exc -> string) (e : pg_exc) : string :=
  match pg_kind e with
  | UniqueViolation => msg_duplicate_email
  | OtherError => generic e
  end.

(** The calls an operation with statement [q] may make: none, a refused
    connection, a connection left at once because a parameter could not be
    adapted, or one connection with its statement, at most one commit after
    it, and the end of the block. *)
Definition protocol (q : sql) : list (list store_call) :=
  [[]; [Connect]; [Connect; Release false];
   [Connect; Execute q; Release false]; [Connect; Execute q; Release true];
   [Connect; Execute q; Commit; Release false];
   [Connect; Execute q; Commit; Release true]].

(** What may follow the end of the [with] block in the trace: nothing, or
    the line [line y] for the error [y] that the end of the block raised. *)
Definition exit_report (line : pg_exc -> string) (tail : list event) : Prop :=
  tail = [] \/ exists y, tail = [Out (line y)].

(** [m] keeps the table well formed. *)
Definition keeps_well_formed {A : Type} (m : Py A) : Prop :=
  forall w, well_formed (store w) -> well_formed (store (snd (m w))).

(** Rows in ascending order of their key. *)
Definition by_id (a b : Student) : Prop := student_id a <= student_id b.

End Behaviour.
Import Behaviour.

(** ** Tactics: running the operations by cases *)

Ltac unfold_py :=
  cbv beta iota zeta delta
    [addStudent addStudent_store updateStudentEmail updateStudentEmail_store
     deleteStudent deleteStudent_store
     with_connection with_cursor connect_db execute commit server_call
     next_fault emit bind ret raise try_except print or_except
     except_UniqueViolation except_psycopg2_Error except_ValueError
     leave_connection item0 fetchone fetchall int py_strptime holds_nul
     store session faults stdin trace rows next_id pg_kind].

Ltac break_match :=
  match goal with
  | |- context [match ?x with _ => _ end] =>
      lazymatch x with
      | context [match _ with _ => _ end] => fail
      | _ => destruct x eqn:?
      end
  end.

Ltac run_py := unfold_py; repeat (break_match; unfold_py).

(** The scripts that leave the next calls alone, one by one. *)
Ltac calm_cases Hc :=
  lazymatch type of Hc with
  | calm (S ?k) ?l = true =>
      is_var l;
      let l' := fresh "fl" in
      destruct l as [|[?|] l'];
      [clear Hc | discriminate Hc | change (calm k l' = true) in Hc; calm_cases Hc]
  | _ => clear Hc
  end.

(** The events added to the trace, read off a run. *)
Ltac give_trace :=
  unfold extends; cbn [trace]; rewrite <- ?app_assoc; cbn [app]; reflexivity.

Ltac added_events Hext :=
  unfold extends in Hext; cbn [trace] in Hext; rewrite <- ?app_assoc in Hext;
  apply app_inv_head in Hext; cbn [app] in Hext; subst.

(** Two printed lines that differ at their second character. *)
Ltac other_line H :=
  injection H as H; apply (f_equal (String.get 1)) in H; discriminate H.

Ltac close_run :=
  eexists; split; [reflexivity|]; split; [give_trace | reflexivity].

Ltac show_trace := do 2 eexists; split; [reflexivity | give_trace].

Ltac not_printed H :=
  cbn [In] in H;
  repeat (destruct H as [H|H]; [try discriminate H; try other_line H|]);
  try contradiction.

(** * Properties *)

(** ** Text *)

Lemma in_range_iff lo hi c : in_range lo hi c = true <-> lo <= code c <= hi.
Proof. unfold in_range. rewrite andb_true_iff, !Z.leb_le. tauto. Qed.

Lemma is_char_iff x c : is_char x c = true <-> c = x.
Proof. unfold is_char. rewrite Ascii.eqb_eq. split; congruence. Qed.

Lemma code_bounds c : 0 <= code c < 256.
Proof.
  unfold code. pose proof (N_ascii_bounded c) as H. lia.
Qed.

Lemma code_inj a b : code a = code b -> a = b.
Proof.
  unfold code. intros H. apply N2Z.inj in H.
  rewrite <- (ascii_N_embedding a), <- (ascii_N_embedding b). now rewrite H.
Qed.

Lemma digit_not_space c : is_digit c = true -> Py_ISSPACE c = false.
Proof.
  unfold is_digit, Py_ISSPACE. rewrite in_range_iff. intros H.
  apply orb_false_iff; split; apply not_true_is_false; rewrite in_range_iff; lia.
Qed.

Lemma digit_not_char x c :
  is_digit c = true -> is_digit x = false -> is_char x c = false.
Proof.
  intros H Hx. apply not_true_is_false. rewrite is_char_iff. intros ->. congruence.
Qed.

Lemma skip_spaces_incl s c : In c (skip_spaces s) -> In c s.
Proof.
  induction s as [|a s IH]; simpl; [tauto|].
  destruct (Py_ISSPACE a); simpl; tauto.
Qed.

Lemma transform_digit s c :
  In c (transform_to_ascii s) -> is_digit c = true -> In c s.
Proof.
  induction s as [|a s IH]; simpl; [tauto|]. intros Hin Hd.
  destruct (code a <? 127).
  - destruct Hin as [->|Hin]; auto.
  - destruct (isspace a).
    + destruct Hin as [<-|Hin]; [discriminate Hd | auto].
    + destruct Hin as [<-|[]]. discriminate Hd.
Qed.

Lemma to_ascii_digit s c : In c (to_ascii s) -> is_digit c = true -> In c s.
Proof.
  unfold to_ascii. destruct (forallb _ s); auto using transform_digit.
Qed.

Lemma scan_digits_head c r prev d rest :
  scan_digits (c :: r) prev = Some (d, rest) -> d <> [] ->
  is_char "_" c = false -> is_digit c = true.
Proof.
  simpl. intros H Hd Hu. destruct (is_digit c); [reflexivity|].
  rewrite Hu in H. destruct prev; [discriminate|].
  injection H as <- _. congruence.
Qed.

Lemma split_sign_incl s c : In c (snd (split_sign s)) -> In c s.
Proof.
  destruct s as [|a r]; cbn [split_sign]; [auto|].
  destruct (is_char "+" a); [cbn; auto|].
  destruct (is_char "-" a); cbn; auto.
Qed.

Lemma read_magnitude_head lim body m :
  read_magnitude lim body = Some m ->
  exists c r, body = c :: r /\ is_digit c = true.
Proof.
  unfold read_magnitude. destruct body as [|c r]; [discriminate|].
  destruct (is_char "_" c) eqn:Hu; [discriminate|].
  destruct (scan_digits (c :: r) false) as [[d rest]|] eqn:Hs; [|discriminate].
  destruct d as [|x d]; [discriminate|]. intros _.
  exists c, r. split; [reflexivity|].
  eapply scan_digits_head; eauto. discriminate.
Qed.

(** A text that [int] accepts holds a decimal digit. *)
Lemma int_of_text_has_digit lim s n :
  int_of_text lim s = Some n -> exists c, In c s /\ is_digit c = true.
Proof.
  unfold int_of_text, read_signed.
  destruct (split_sign (skip_spaces (to_ascii s))) as [neg body] eqn:Hsp.
  destruct (read_magnitude lim body) as [m|] eqn:Hm; [|discriminate].
  intros _. destruct (read_magnitude_head _ _ _ Hm) as (c & r & -> & Hd).
  exists c. split; [|exact Hd].
  apply to_ascii_digit; [|exact Hd]. apply skip_spaces_incl, split_sign_incl.
  rewrite Hsp. now left.
Qed.

Lemma forallb_digit_ascii s :
  forallb is_digit s = true -> forallb (fun c => code c <? 128) s = true.
Proof.
  rewrite !forallb_forall. intros H c Hc. specialize (H c Hc).
  apply in_range_iff in H. apply Z.ltb_lt. lia.
Qed.

Lemma scan_digits_all s :
  forallb is_digit s = true -> scan_digits s false = Some (s, []).
Proof.
  induction s as [|c s IH]; simpl; [reflexivity|].
  rewrite andb_true_iff. intros [Hc Hs]. now rewrite Hc, IH.
Qed.

Lemma filter_all_true {A : Type} (p : A -> bool) l :
  forallb p l = true -> filter p l = l.
Proof.
  induction l as [|a l IH]; simpl; [reflexivity|].
  rewrite andb_true_iff. intros [-> H]. now rewrite IH.
Qed.

Lemma digits_value_decimal_from s acc :
  forallb is_digit s = true ->
  fold_left (fun a c => if is_digit c then 10 * a + digit_value c else a) s acc
  = fold_left (fun a c => 10 * a + digit_value c) s acc.
Proof.
  revert acc. induction s as [|c s IH]; simpl; [reflexivity|]. intros acc.
  rewrite andb_true_iff. intros [-> H]. now apply IH.
Qed.

Lemma digits_value_decimal s :
  forallb is_digit s = true -> digits_value s = decimal_value s.
Proof. apply digits_value_decimal_from. Qed.

Lemma length_list_ascii_of_string s :
  length (list_ascii_of_string s) = String.length s.
Proof. induction s as [|c s IH]; simpl; congruence. Qed.

(** [int] reads an unsigned digit string as the number it writes, unless
    the string is longer than the digit limit. *)
Lemma int_of_text_unsigned lim s :
  unsigned_decimal s -> exceeds_limit lim (length s) = false ->
  int_of_text lim s = Some (decimal_value s).
Proof.
  intros [Hne Hd] Hlim. unfold int_of_text, to_ascii.
  rewrite (forallb_digit_ascii _ Hd).
  destruct s as [|c r]; [congruence|].
  pose proof Hd as Hd'. simpl in Hd'. apply andb_true_iff in Hd' as [Hc Hr].
  assert (Hsk : skip_spaces (c :: r) = c :: r)
    by (simpl; now rewrite (digit_not_space _ Hc)).
  rewrite Hsk. unfold read_signed, split_sign.
  rewrite (digit_not_char "+" c Hc eq_refl), (digit_not_char "-" c Hc eq_refl).
  unfold read_magnitude.
  rewrite (digit_not_char "_" c Hc eq_refl), (scan_digits_all _ Hd).
  cbn [skip_spaces]. unfold count_digits. rewrite (filter_all_true _ _ Hd), Hlim.
  now rewrite (digits_value_decimal _ Hd).
Qed.

(** ** [strip] *)

Lemma lstrip_split s :
  exists a, s = a ++ lstrip s /\ forallb isspace a = true
            /\ (forall c t, lstrip s = c :: t -> isspace c = false).
Proof.
  induction s as [|x s (a & Ha & Hsp & Hhd)]; cbn [lstrip].
  - exists []. repeat split; auto. discriminate.
  - destruct (isspace x) eqn:E.
    + exists (x :: a). cbn [app forallb]. rewrite E, Hsp. repeat split; auto.
      now rewrite <- Ha.
    + exists []. repeat split; auto. intros c t H. injection H as <- _. exact E.
Qed.

Lemma rstrip_split s :
  exists b, s = rstrip s ++ b /\ forallb isspace b = true
            /\ (forall t c, rstrip s = t ++ [c] -> isspace c = false).
Proof.
  unfold rstrip. destruct (lstrip_split (rev s)) as (a & Ha & Hsp & Hhd).
  exists (rev a). repeat split.
  - rewrite <- rev_app_distr, <- Ha. now rewrite rev_involutive.
  - rewrite forallb_forall in *. intros x Hx. apply Hsp. now apply in_rev.
  - intros t c H. apply (f_equal (@rev ascii)) in H.
    rewrite rev_involutive, rev_app_distr in H. cbn in H. eauto.
Qed.

(** [strip] removes white space at both ends, and nothing else. *)
Lemma strip_text_spec s :
  exists a b,
    s = a ++ strip_text s ++ b
    /\ forallb isspace a = true /\ forallb isspace b = true
    /\ (forall c t, strip_text s = c :: t -> isspace c = false)
    /\ (forall t c, strip_text s = t ++ [c] -> isspace c = false).
Proof.
  unfold strip_text. destruct (lstrip_split s) as (a & Ha & Hsa & Hhd).
  destruct (rstrip_split (lstrip s)) as (b & Hb & Hsb & Htl).
  exists a, b. repeat split; auto.
  - now rewrite <- Hb.
  - intros c t H. rewrite H in Hb. cbn in Hb. eauto.
Qed.

Lemma strip_spec (line : string) :
  exists a b,
    list_ascii_of_string line = a ++ list_ascii_of_string (strip line) ++ b
    /\ forallb isspace a = true /\ forallb isspace b = true
    /\ (forall c t, list_ascii_of_string (strip line) = c :: t -> isspace c = false)
    /\ (forall t c, list_ascii_of_string (strip line) = t ++ [c] -> isspace c = false).
Proof.
  unfold strip. rewrite list_ascii_of_string_of_list_ascii. apply strip_text_spec.
Qed.

(** ** Dates: [strptime] against the calendar *)

Import Re.

Lemma days_in_month_length y m :
  1 <= m <= 12 -> _days_in_month y m = month_length y m.
Proof.
  intros Hm. unfold _days_in_month, month_length, _is_leap, leap_year.
  assert (Hc : m = 1 \/ m = 2 \/ m = 3 \/ m = 4 \/ m = 5 \/ m = 6 \/ m = 7
               \/ m = 8 \/ m = 9 \/ m = 10 \/ m = 11 \/ m = 12) by lia.
  repeat (destruct Hc as [->|Hc]); try subst m; try reflexivity.
  cbn [Z.eqb Pos.eqb andb orb].
  assert (Hdiv : y mod 400 = 0 -> y mod 100 = 0 /\ y mod 4 = 0).
  { intros H. split; Z.to_euclidean_division_equations; lia. }
  destruct (Z.eqb_spec (y mod 400) 0) as [E|E].
  - destruct (Hdiv E) as [-> ->]. reflexivity.
  - destruct (y mod 4 =? 0), (y mod 100 =? 0); reflexivity.
Qed.

Lemma check_date_fields_real y m dd dt :
  check_date_fields y m dd = Some dt <-> real_date y m dd /\ dt = mkDate y m dd.
Proof.
  unfold check_date_fields, real_date.
  destruct ((1 <=? y) && (y <=? 9999)) eqn:Hy; cbn [negb].
  - destruct ((1 <=? m) && (m <=? 12)) eqn:Hm; cbn [negb].
    + apply andb_true_iff in Hy as [Hy1 Hy2], Hm as [Hm1 Hm2].
      apply Z.leb_le in Hy1, Hy2, Hm1, Hm2.
      rewrite (days_in_month_length y m) by lia.
      destruct ((1 <=? dd) && (dd <=? month_length y m)) eqn:Hd; cbn [negb].
      * apply andb_true_iff in Hd as [Hd1 Hd2]. apply Z.leb_le in Hd1, Hd2.
        split; [intros H; injection H as <-; auto | intros [_ ->]; reflexivity].
      * split; [discriminate|]. intros [(_ & _ & Hd1 & Hd2) _].
        apply andb_false_iff in Hd as [Hd|Hd]; apply Z.leb_gt in Hd; lia.
    + split; [discriminate|]. intros [(_ & [Hm1 Hm2] & _) _].
      apply andb_false_iff in Hm as [Hm|Hm]; apply Z.leb_gt in Hm; lia.
  - split; [discriminate|]. intros [([Hy1 Hy2] & _) _].
    apply andb_false_iff in Hy as [Hy|Hy]; apply Z.leb_gt in Hy; lia.
Qed.

Section RegexProps.
Context {A : Type}.
Implicit Types (k : text -> text -> groups -> option A).

Lemma run_cls p s g k x :
  run (Cls p) s g k = Some x ->
  exists c t, s = c :: t /\ p c = true /\ k [c] t g = Some x.
Proof.
  cbn [run]. destruct s as [|c t]; [discriminate|].
  destruct (p c) eqn:E; [|discriminate]. eauto.
Qed.

Lemma run_alt r1 r2 s g k x :
  run (Alt r1 r2) s g k = Some x ->
  run r1 s g k = Some x \/ run r2 s g k = Some x.
Proof. cbn [run]. destruct (run r1 s g k); auto. Qed.

Lemma run_cat r1 r2 s g k x :
  run (Cat r1 r2) s g k = Some x ->
  run r1 s g (fun m1 s1 g1 =>
    run r2 s1 g1 (fun m2 s2 g2 => k (m1 ++ m2) s2 g2)) = Some x.
Proof. exact (fun H => H). Qed.

Lemma run_grp name r s g k x :
  run (Grp name r) s g k = Some x ->
  run r s g (fun m s1 g1 => k m s1 ((name, m) :: g1)) = Some x.
Proof. exact (fun H => H). Qed.
End RegexProps.

Ltac invert_run H :=
  repeat first
    [ apply run_cat in H
    | apply run_grp in H
    | apply run_alt in H; destruct H as [H|H]
    | let c := fresh "c" in let t := fresh "t" in let Hc := fresh "Hc" in
      apply run_cls in H; destruct H as (c & t & -> & Hc & H); cbv beta in H ].

Lemma range_char x c : in_range (code x) (code x) c = true -> c = x.
Proof. rewrite in_range_iff. intros H. apply code_inj. lia. Qed.

Lemma range_digit lo hi c :
  in_range (code lo) (code hi) c = true ->
  is_digit lo = true -> is_digit hi = true -> is_digit c = true.
Proof. unfold is_digit. rewrite !in_range_iff. lia. Qed.

Lemma in_range_true lo hi c : lo <= code c <= hi -> in_range lo hi c = true.
Proof. apply in_range_iff. Qed.

Lemma in_range_false lo hi c : code c < lo \/ hi < code c -> in_range lo hi c = false.
Proof.
  intros H. apply not_true_is_false. rewrite in_range_iff. lia.
Qed.

Ltac use_literals :=
  repeat match goal with
         | H : in_range (code ?x) (code ?x) ?c = true |- _ =>
             apply range_char in H; subst c
         | H : in_range (code _) (code _) _ = true |- _ =>
             apply range_digit in H; [|reflexivity|reflexivity]
         end.

Ltac use_digits :=
  repeat match goal with
         | H : is_digit ?c = true |- context [is_digit ?c] => rewrite H
         end.

(** A match of the format splits the text into the three fields. *)
Lemma rmatch_shape s g :
  rmatch format_regex s = Some ([], g) ->
  exists y m dd,
    g = [("d"%string, dd); ("m"%string, m); ("Y"%string, y)]
    /\ written s y m dd /\ lenient_fields y m dd.
Proof.
  unfold rmatch, format_regex, re_Y, re_m, re_d, PyTime.d, ch, rng. intros H.
  invert_run H; cbn [app] in H; injection H as -> <-; use_literals.
  all: do 3 eexists; split; [reflexivity|].
  all: unfold written, lenient_fields, short_number, digits.
  all: split; [cbn [app]; reflexivity|]; cbn [forallb length]; use_digits.
  all: cbn; repeat split; eauto.
Qed.

Lemma in_range_false_iff lo hi c :
  in_range lo hi c = false <-> code c < lo \/ hi < code c.
Proof.
  split; [|apply in_range_false]. intros H.
  destruct (Z_lt_dec (code c) lo); auto. destruct (Z_lt_dec hi (code c)); auto.
  rewrite in_range_true in H by lia. discriminate.
Qed.

Ltac norm_codes :=
  repeat match goal with
         | |- context [code (Ascii ?a ?b ?c ?d ?e ?f ?g ?h)] =>
             let v := eval vm_compute in (code (Ascii a b c d e f g h)) in
             change (code (Ascii a b c d e f g h)) with v
         end.

(** Settle one character test of the goal: by arithmetic on the code of
    the character when that decides it, by cases otherwise. *)
Ltac decide_range :=
  match goal with
  | |- context [in_range ?lo ?hi ?c] =>
      first
        [ is_var c;
          first [ rewrite (in_range_true lo hi c) by lia
                | rewrite (in_range_false lo hi c) by lia
                | let E := fresh "E" in
                  destruct (in_range lo hi c) eqn:E;
                  [apply in_range_iff in E | apply in_range_false_iff in E] ]
        | let v := eval vm_compute in (in_range lo hi c) in
          change (in_range lo hi c) with v ]
  end.

Lemma field_value_digits s : digits s -> field_value s = decimal_value s.
Proof. intros H. unfold field_value. now rewrite filter_all_true. Qed.

Lemma digits_cons c s : digits (c :: s) <-> is_digit c = true /\ digits s.
Proof. unfold digits. cbn [forallb]. apply andb_true_iff. Qed.

(** The text of a well-written date is matched whole, field by field. *)
Lemma rmatch_written y m dd :
  lenient_fields y m dd ->
  1 <= field_value m <= 12 -> 1 <= field_value dd <= 31 ->
  rmatch format_regex (y ++ "-"%char :: m ++ "-"%char :: dd)
  = Some ([], [("d"%string, dd); ("m"%string, m); ("Y"%string, y)]).
Proof.
  intros (Hly & Hy & [Hm Hlm] & Hd) Hvm Hvd.
  destruct y as [|y1 [|y2 [|y3 [|y4 [|]]]]]; try discriminate Hly.
  apply digits_cons in Hy as [Hy1 Hy]. apply digits_cons in Hy as [Hy2 Hy].
  apply digits_cons in Hy as [Hy3 Hy]. apply digits_cons in Hy as [Hy4 _].
  rewrite (field_value_digits _ Hm) in Hvm.
  assert (Hdv : (digits dd /\ (length dd = 1%nat \/ length dd = 2%nat)
                 /\ 1 <= decimal_value dd <= 31)
                \/ exists c, dd = [" "%char; c] /\ is_digit c = true
                             /\ 1 <= digit_value c).
  { destruct Hd as [[Hd Hl]|(c & -> & Hc)].
    - left. rewrite (field_value_digits _ Hd) in Hvd. auto.
    - right. exists c. repeat split; auto. unfold field_value in Hvd.
      cbn [filter] in Hvd. rewrite Hc in Hvd.
      change (is_digit " "%char) with false in Hvd. cbn in Hvd. lia. }
  clear Hd Hvd.
  unfold rmatch, format_regex, re_Y, re_m, re_d, PyTime.d, ch, rng, is_digit in *.
  assert (Hmc : (exists c, m = [c]) \/ exists c1 c2, m = [c1; c2]).
  { destruct Hlm as [H|H]; destruct m as [|c1 [|c2 [|]]]; try discriminate H; eauto. }
  assert (Hdc : (exists c, dd = [c] /\ in_range 48 57 c = true /\ 1 <= decimal_value dd)
                \/ (exists c1 c2, dd = [c1; c2] /\ in_range 48 57 c1 = true
                      /\ in_range 48 57 c2 = true /\ 1 <= decimal_value dd <= 31)
                \/ (exists c, dd = [" "%char; c] /\ in_range 48 57 c = true
                      /\ 1 <= digit_value c)).
  { destruct Hdv as [(Hd & Hl & Hv)|(c & -> & Hc & Hv)]; [|eauto 8].
    destruct Hl as [H|H]; destruct dd as [|c1 [|c2 [|]]]; try discriminate H.
    - apply digits_cons in Hd as [Hc1 _]. left. exists c1. repeat split; auto. lia.
    - apply digits_cons in Hd as [Hc1 Hd]. apply digits_cons in Hd as [Hc2 _].
      right. left. exists c1, c2. auto. }
  clear Hdv.
  destruct Hmc as [[c ->]|(c1 & c2 & ->)];
    [apply digits_cons in Hm as [Hm1 _]
    | apply digits_cons in Hm as [Hm1 Hm]; apply digits_cons in Hm as [Hm2 _]];
    (destruct Hdc as [(d1 & -> & Hd1 & Hv)|[(d1 & d2 & -> & Hd1 & Hd2 & Hv)|(d1 & -> & Hd1 & Hv)]]).
  all: unfold is_digit in *.
  all: repeat match goal with
         | H : in_range _ _ _ = true |- _ => apply in_range_iff in H
         end.
  all: cbn [decimal_value fold_left] in *; unfold digit_value in *.
  all: cbn [app run]; norm_codes.
  all: repeat (decide_range; cbv beta iota); try lia; try reflexivity.
Qed.

Lemma exceeds_limit_short lim n : (n <= 640)%nat -> exceeds_limit lim n = false.
Proof.
  intros H. unfold exceeds_limit.
  replace (640 <? n)%nat with false; [reflexivity|].
  symmetry. apply Nat.ltb_ge. exact H.
Qed.

Lemma int_of_field lim t :
  digits t -> t <> [] -> (length t <= 4)%nat ->
  int_of_text lim t = Some (field_value t).
Proof.
  intros Hd Hne Hl. rewrite (field_value_digits _ Hd).
  apply int_of_text_unsigned; [split; assumption|].
  apply exceeds_limit_short. lia.
Qed.

Lemma int_of_blank_digit lim c :
  is_digit c = true ->
  int_of_text lim [" "%char; c] = Some (field_value [" "%char; c]).
Proof.
  intros Hc.
  assert (E : int_of_text lim [" "%char; c] = int_of_text lim [c]).
  { unfold int_of_text, to_ascii. cbn [forallb].
    pose proof Hc as Hr. apply in_range_iff in Hr.
    replace (code c <? 128) with true by (symmetry; apply Z.ltb_lt; lia).
    reflexivity. }
  rewrite E, (int_of_field lim [c]); [| now apply digits_cons | discriminate | cbn; lia].
  unfold field_value. cbn [filter]. now rewrite Hc.
Qed.

Lemma int_of_fields lim y m dd :
  lenient_fields y m dd ->
  int_of_text lim y = Some (field_value y)
  /\ int_of_text lim m = Some (field_value m)
  /\ int_of_text lim dd = Some (field_value dd).
Proof.
  intros (Hly & Hy & [Hm Hlm] & Hd). repeat split.
  - apply int_of_field; auto; [destruct y; [discriminate | discriminate] | lia].
  - apply int_of_field; auto; [destruct m; [destruct Hlm; discriminate | discriminate] | lia].
  - destruct Hd as [[Hd Hl]|(c & -> & Hc)].
    + apply int_of_field; auto; [destruct dd; [destruct Hl; discriminate | discriminate] | lia].
    + now apply int_of_blank_digit.
Qed.

Lemma month_length_bound y m : month_length y m <= 31.
Proof.
  unfold month_length. destruct (_ || _); [lia|].
  destruct (m =? 2); [destruct (leap_year y)|]; lia.
Qed.

(** [strptime] accepts exactly the well-written real dates. *)
Lemma strptime_text_spec lim s dt :
  strptime_text lim s = Some dt <-> lenient_date s dt.
Proof.
  unfold strptime_text, lenient_date. split.
  - destruct (rmatch format_regex s) as [[[|] g]|] eqn:Hm; try discriminate.
    apply rmatch_shape in Hm as (y & m & dd & -> & Hw & Hl).
    destruct (int_of_fields lim y m dd Hl) as (Ey & Em & Ed).
    cbn [group String.eqb Ascii.eqb Bool.eqb]. rewrite Ey, Em, Ed.
    intros H. apply check_date_fields_real in H as [Hr ->].
    exists y, m, dd. auto.
  - intros (y & m & dd & -> & Hl & Hr & ->).
    pose proof Hr as (_ & Hvm & Hvd).
    pose proof (month_length_bound (field_value y) (field_value m)).
    rewrite (rmatch_written y m dd Hl) by lia.
    destruct (int_of_fields lim y m dd Hl) as (Ey & Em & Ed).
    cbn [group String.eqb Ascii.eqb Bool.eqb]. rewrite Ey, Em, Ed.
    apply check_date_fields_real. auto.
Qed.

Lemma strict_is_lenient y m dd : strict_fields y m dd -> lenient_fields y m dd.
Proof.
  intros (Hy & Hm & Hd & Dy & Dm & Dd). unfold lenient_fields, short_number. auto 8.
Qed.

Lemma app_same_length {A : Type} (a a' b b' : list A) :
  length a = length a' -> a ++ b = a' ++ b' -> a = a' /\ b = b'.
Proof.
  revert a'. induction a as [|x a IH]; intros [|x' a'] Hl H; try discriminate Hl.
  - auto.
  - cbn in H. injection H as -> H. injection Hl as Hl.
    destruct (IH a' Hl H) as [-> ->]. auto.
Qed.

Lemma split_at_dash m m' r r' :
  digits m -> digits m' ->
  m ++ "-"%char :: r = m' ++ "-"%char :: r' -> m = m' /\ r = r'.
Proof.
  revert m'. induction m as [|c m IH]; intros [|c' m'] Hm Hm' H; cbn in H.
  - injection H as ->. auto.
  - injection H as <- _. apply digits_cons in Hm' as [Hc _]. discriminate Hc.
  - injection H as -> _. apply digits_cons in Hm as [Hc _]. discriminate Hc.
  - injection H as -> H. apply digits_cons in Hm as [_ Hm].
    apply digits_cons in Hm' as [_ Hm']. destruct (IH m' Hm Hm' H) as [-> ->]. auto.
Qed.

Lemma written_unique s y m dd y' m' dd' :
  written s y m dd -> written s y' m' dd' ->
  length y = length y' -> digits m -> digits m' ->
  y = y' /\ m = m' /\ dd = dd'.
Proof.
  unfold written. intros -> H Hl Hm Hm'.
  apply app_same_length in H as [-> H]; [|exact Hl]. injection H as H.
  apply split_at_dash in H as [-> ->]; auto.
Qed.

(** On a text of the strict shape, acceptance is the reality of the date. *)
Lemma strptime_text_strict lim s y m dd :
  written s y m dd -> strict_fields y m dd ->
  (strptime_text lim s <> None
   <-> real_date (field_value y) (field_value m) (field_value dd)).
Proof.
  intros Hw Hs. pose proof (strict_is_lenient _ _ _ Hs) as Hl. split.
  - destruct (strptime_text lim s) as [dt|] eqn:E; [intros _ | congruence].
    apply strptime_text_spec in E as (y' & m' & dd' & Hw' & Hl' & Hr & _).
    destruct Hs as (Hy & _ & _ & _ & Dm & _).
    destruct Hl' as (Hy' & _ & [Dm' _] & _).
    destruct (written_unique _ _ _ _ _ _ _ Hw Hw') as (-> & -> & ->); auto.
    congruence.
  - intros Hr E.
    assert (H : strptime_text lim s
                = Some (mkDate (field_value y) (field_value m) (field_value dd))).
    { apply strptime_text_spec. exists y, m, dd. auto. }
    congruence.
Qed.


(** ** Texts that hold NUL *)

Lemma digits_no_nul t : digits t -> existsb (fun c => code c =? 0) t = false.
Proof.
  unfold digits. induction t as [|c t IH]; cbn [forallb existsb]; [reflexivity|].
  rewrite andb_true_iff. intros [Hc Ht]. rewrite (IH Ht), orb_false_r.
  apply in_range_iff in Hc. apply Z.eqb_neq. lia.
Qed.

(** A text that passes [strptime] holds no NUL. *)
Lemma strptime_no_nul lim s dt : strptime lim s = Some dt -> has_nul s = false.
Proof.
  unfold strptime, has_nul. intros H.
  apply strptime_text_spec in H as (y & m & dd & -> & (_ & Hy & [Hm _] & Hd) & _).
  rewrite existsb_app. cbn [existsb]. rewrite existsb_app. cbn [existsb].
  rewrite (digits_no_nul _ Hy), (digits_no_nul _ Hm).
  destruct Hd as [[Hd _]|(c & -> & Hc)].
  - now rewrite (digits_no_nul _ Hd).
  - cbn [existsb]. apply in_range_iff in Hc.
    replace (code c =? 0) with false by (symmetry; apply Z.eqb_neq; lia).
    reflexivity.
Qed.

(** ** The statements *)

Section StatementProperties.

Variable date_in : string -> option date.

Lemma no_hit_filter n v :
  (forall r, In r v -> student_id r <> n) -> filter (has_id n) v = [].
Proof.
  induction v as [|a v IH]; simpl; [reflexivity|]. intros H.
  unfold has_id at 1. destruct (Z.eqb_spec (student_id a) n) as [E|_].
  - exfalso. apply (H a); auto.
  - apply IH. intros r Hr. apply H. now right.
Qed.

Lemma no_hit_keep n v :
  (forall r, In r v -> student_id r <> n) ->
  filter (fun r => negb (has_id n r)) v = v.
Proof.
  induction v as [|a v IH]; simpl; [reflexivity|]. intros H.
  unfold has_id at 1. destruct (Z.eqb_spec (student_id a) n) as [E|_].
  - exfalso. apply (H a); auto.
  - simpl. f_equal. apply IH. intros r Hr. apply H. now right.
Qed.

Lemma no_hit_map n e v :
  (forall r, In r v -> student_id r <> n) ->
  map (fun r => if has_id n r then set_email e r else r) v = v.
Proof.
  induction v as [|a v IH]; simpl; [reflexivity|]. intros H.
  unfold has_id at 1. destruct (Z.eqb_spec (student_id a) n) as [E|_].
  - exfalso. apply (H a); auto.
  - f_equal. apply IH. intros r Hr. apply H. now right.
Qed.

Lemma keep_no_hit n v r :
  In r (filter (fun r => negb (has_id n r)) v) -> student_id r <> n.
Proof.
  rewrite filter_In. intros [_ H]. unfold has_id in H.
  destruct (Z.eqb_spec (student_id r) n); [discriminate | assumption].
Qed.

Lemma hit_filter n v r :
  In r v -> student_id r = n -> filter (has_id n) v <> [].
Proof.
  intros Hin Hid E. assert (H : In r (filter (has_id n) v)).
  { apply filter_In. split; [assumption|]. unfold has_id. now apply Z.eqb_eq. }
  rewrite E in H. destruct H.
Qed.

(** A list with exactly one row of key [n] splits around that row. *)
Lemma one_hit_split n v :
  length (filter (has_id n) v) = 1%nat ->
  exists pre r post,
    v = pre ++ r :: post /\ student_id r = n
    /\ (forall x, In x (pre ++ post) -> student_id x <> n).
Proof.
  induction v as [|a v IH]; simpl; [discriminate|].
  unfold has_id at 1. destruct (Z.eqb_spec (student_id a) n) as [E|E]; simpl.
  - intros H. exists [], a, v. repeat split; auto. simpl.
    destruct (filter (has_id n) v) as [|y l] eqn:F; [|discriminate].
    intros x Hx Hid.
    assert (Hf : In x (filter (has_id n) v)).
    { apply filter_In. split; [assumption|]. unfold has_id. now apply Z.eqb_eq. }
    rewrite F in Hf. destruct Hf.
  - intros H. destruct (IH H) as (pre & r & post & -> & Hr & Hrest).
    exists (a :: pre), r, post. repeat split; auto.
    intros x [<-|Hx]; auto.
Qed.

Lemma update_split n e pre r post :
  student_id r = n -> (forall x, In x (pre ++ post) -> student_id x <> n) ->
  map (fun x => if has_id n x then set_email e x else x) (pre ++ r :: post)
  = pre ++ set_email e r :: post.
Proof.
  intros Hr Hrest. rewrite map_app. cbn [map]. unfold has_id at 2.
  rewrite (proj2 (Z.eqb_eq _ _) Hr).
  rewrite !no_hit_map; [reflexivity | |];
    intros x Hx; apply Hrest, in_or_app; auto.
Qed.

Lemma run_update_no_hit e n v seq :
  (forall r, In r v -> student_id r <> n) ->
  run_sql date_in (UpdateEmail e n) v seq = (inr (mkCursor 0 [], v), seq).
Proof.
  intros H. unfold run_sql. rewrite (no_hit_filter _ _ H), (no_hit_map _ _ _ H).
  reflexivity.
Qed.

Lemma run_delete_no_hit n v seq :
  (forall r, In r v -> student_id r <> n) ->
  run_sql date_in (DeleteStudent n) v seq = (inr (mkCursor 0 [], v), seq).
Proof.
  intros H. unfold run_sql. rewrite (no_hit_filter _ _ H), (no_hit_keep _ _ H).
  reflexivity.
Qed.

Lemma run_delete_hit n v seq r :
  In r v -> student_id r = n ->
  exists k, k <> 0 /\
    run_sql date_in (DeleteStudent n) v seq
    = (inr (mkCursor k [], filter (fun r => negb (has_id n r)) v), seq).
Proof.
  intros Hin Hid. exists (Z.of_nat (length (filter (has_id n) v))). split.
  - pose proof (hit_filter _ _ _ Hin Hid) as H.
    destruct (filter (has_id n) v); [congruence | simpl; lia].
  - reflexivity.
Qed.

(** What a successful update statement with a non-zero row count did. *)
Lemma run_update_inv e n v seq cur v' seq' :
  run_sql date_in (UpdateEmail e n) v seq = (inr (cur, v'), seq') ->
  (rowcount cur =? 0) = false ->
  seq' = seq
  /\ v' = map (fun r => if has_id n r then set_email e r else r) v
  /\ length (filter (has_id n) v) = 1%nat.
Proof.
  unfold run_sql. set (hit := filter (has_id n) v).
  destruct (negb (length hit =? 0)%nat && _) eqn:C; [discriminate|].
  intros H Hrc. injection H as <- <- <-. cbn [rowcount] in Hrc.
  repeat split. apply Z.eqb_neq in Hrc.
  apply andb_false_iff in C as [C|C].
  - apply negb_false_iff, Nat.eqb_eq in C. lia.
  - apply orb_false_iff in C as [_ C]. apply Nat.ltb_ge in C. lia.
Qed.

Lemma run_insert_inv first last mail txt v seq r seq' :
  run_sql date_in (InsertStudent first last mail txt) v seq = (r, seq') ->
  match r with
  | inl x => (x = invalid_date /\ seq' = seq /\ date_in txt = None)
             \/ (x = unique_violation /\ seq' = seq + 1)
  | inr (cur, v') =>
      seq' = seq + 1 /\ cur = mkCursor 1 [[PInt seq]]
      /\ exists dt, date_in txt = Some dt
                    /\ v' = v ++ [mkStudent seq first last mail dt]
  end.
Proof.
  unfold run_sql. destruct (date_in txt) as [dt|].
  - destruct (existsb (has_id seq) v || existsb (has_email mail) v);
      intros H; injection H as <- <-; eauto 6.
  - intros H; injection H as <- <-. auto.
Qed.

Lemma run_insert_ok first last mail txt v seq dt :
  date_in txt = Some dt ->
  existsb (has_id seq) v = false -> existsb (has_email mail) v = false ->
  run_sql date_in (InsertStudent first last mail txt) v seq
  = (inr (mkCursor 1 [[PInt seq]], v ++ [mkStudent seq first last mail dt]), seq + 1).
Proof.
  intros Hd Hi He. unfold run_sql. now rewrite Hd, Hi, He.
Qed.

Lemma run_insert_taken first last mail txt v seq dt :
  date_in txt = Some dt -> existsb (has_email mail) v = true ->
  run_sql date_in (InsertStudent first last mail txt) v seq
  = (inl unique_violation, seq + 1).
Proof.
  intros Hd He. unfold run_sql. now rewrite Hd, He, orb_true_r.
Qed.

Lemma run_update_taken e n v seq r other :
  In r v -> student_id r = n ->
  In other v -> student_id other <> n -> email other = e ->
  run_sql date_in (UpdateEmail e n) v seq = (inl unique_violation, seq).
Proof.
  intros Hr Hid Ho Hne He. unfold run_sql.
  pose proof (hit_filter _ _ _ Hr Hid) as Hhit.
  assert (Hex : existsb (has_email e) (filter (fun r => negb (has_id n r)) v) = true).
  { apply existsb_exists. exists other. split.
    - apply filter_In. split; [assumption|]. unfold has_id.
      now apply negb_true_iff, Z.eqb_neq.
    - unfold has_email. now apply String.eqb_eq. }
  rewrite Hex. destruct (filter (has_id n) v); [congruence|]. reflexivity.
Qed.

End StatementProperties.

(** ** A small program logic: what an operation can raise and read *)

Section Logic.

Variable lim : nat.
Variable date_in : string -> option date.

Local Open Scope py_scope.

Lemma sound_ret {A} nul (a : A) (Q : A -> Prop) : Q a -> sound nul (ret a) Q.
Proof. intros H w. split; [reflexivity | exact H]. Qed.

Lemma sound_print nul line : sound nul (print line) (fun _ => True).
Proof. intros w. split; [reflexivity | exact I]. Qed.

Lemma sound_bind {A B} nul (m : Py A) (f : A -> Py B) Q R :
  sound nul m Q -> (forall a, Q a -> sound nul (f a) R) -> sound nul (bind m f) R.
Proof.
  intros Hm Hf w. unfold bind. specialize (Hm w).
  destruct (m w) as [[a|e] w1]; cbn [fst snd] in *.
  - destruct Hm as [Hs Hq]. destruct (Hf a Hq w1) as [Hs' Hr].
    split; [congruence | exact Hr].
  - exact Hm.
Qed.

Lemma sound_server_call nul c : sound nul (server_call c) (fun _ => True).
Proof.
  intros w. unfold server_call, next_fault, emit. cbn [faults].
  destruct (faults w) as [|[x|] fl]; cbn; auto.
Qed.

Lemma sound_connect_db nul : sound nul connect_db (fun _ => True).
Proof.
  apply sound_bind with (Q := fun _ => True); [apply sound_server_call|].
  intros _ _ w. split; [reflexivity | exact I].
Qed.

Lemma sound_commit nul : sound nul commit (fun _ => True).
Proof.
  apply sound_bind with (Q := fun _ => True); [apply sound_server_call|].
  intros _ _ w. destruct (session w); cbn; auto.
Qed.

(** [execute] raises [ValueError] only for a parameter that holds NUL. *)
Lemma sound_execute q : sound (holds_nul q) (execute date_in q) (cursor_shape q).
Proof.
  unfold execute. destruct (holds_nul q) eqn:Hq.
  { intros w. split; reflexivity. }
  apply sound_bind with (Q := fun _ => True); [apply sound_server_call|].
  intros _ _ w. destruct (session w) as [v|]; [|cbn; auto].
  destruct q; cbn.
  - split; eauto.
  - destruct (date_in date_str); [|cbn; auto].
    destruct (existsb (has_id (next_id (store w))) v || existsb (has_email mail) v);
      cbn; eauto.
  - destruct (negb _ && _); cbn; auto.
  - auto.
Qed.

Lemma sound_leave_connection nul clean :
  sound nul (leave_connection clean) (fun _ => True).
Proof.
  intros w. unfold leave_connection.
  destruct (sound_server_call nul (Release clean) w) as [Hs Hc].
  destruct (server_call (Release clean) w) as [[[]|e] w1]; cbn [fst snd stdin] in *;
    auto.
Qed.

(** Leaving the block may replace the outcome of the body by a store
    error, and by nothing else. *)
Lemma sound_with_connection {A} nul (body : Py A) Q :
  sound nul body Q -> sound nul (with_connection body) Q.
Proof.
  intros Hb w. unfold with_connection.
  destruct (sound_connect_db nul w) as [Hs Hc].
  destruct (connect_db w) as [[[]|e] w1]; cbn [fst snd] in *; [|auto].
  destruct (Hb w1) as [Hs' Hq].
  destruct (body w1) as [[a|e] w2]; cbn [fst snd] in *.
  - destruct (sound_leave_connection nul true w2) as [Hs2 Hl].
    destruct (leave_connection true w2) as [[[]|e] w3]; cbn [fst snd] in *;
      split; auto; congruence.
  - destruct (sound_leave_connection nul false w2) as [Hs2 Hl].
    destruct (leave_connection false w2) as [[[]|e'] w3]; cbn [fst snd] in *;
      split; auto; congruence.
Qed.

Lemma total_print line : total (print line).
Proof. intros w. do 2 eexists. split; reflexivity. Qed.

(** A [try] whose last clause is [except psycopg2.Error] turns a body that
    raises store errors only into an operation that always returns. *)
Lemma total_try {A} (m : Py A) Q (h : exn -> option (Py A)) :
  sound false m Q ->
  (forall x, exists k, h (PgError x) = Some k /\ total k) ->
  total (try_except m h).
Proof.
  intros Hm Hh w. unfold try_except. destruct (Hm w) as [Hs Hq].
  destruct (m w) as [[a|e] w1]; cbn [fst snd] in *.
  - eauto.
  - destruct e; try contradiction; try discriminate.
    destruct (Hh e) as (k & -> & Hk).
    destruct (Hk w1) as (a & w2 & -> & Hs2). do 2 eexists. split; eauto. congruence.
Qed.

(** The same [try] around a body that may also raise [ValueError] lets
    that error, and no other, through. *)
Lemma guarded_try {A} nul (m : Py A) Q (h : exn -> option (Py A)) :
  sound nul m Q ->
  (forall x, exists k, h (PgError x) = Some k /\ total k) ->
  h ValueError = None ->
  guarded (try_except m h).
Proof.
  intros Hm Hh Hv w. unfold try_except. destruct (Hm w) as [Hs Hq].
  destruct (m w) as [[a|e] w1]; cbn [fst snd] in *.
  - auto.
  - destruct e; try contradiction.
    + rewrite Hv. cbn [fst snd]. auto.
    + destruct (Hh e) as (k & -> & Hk).
      destruct (Hk w1) as (a & w2 & -> & Hs2). cbn [fst snd]. split; [congruence | exact I].
Qed.

Lemma guarded_total {A} (m : Py A) : total m -> guarded m.
Proof.
  intros H w. destruct (H w) as (a & w' & -> & Hs). cbn [fst snd]. auto.
Qed.

Lemma guarded_bind {A B} (m : Py A) (f : A -> Py B) :
  total m -> (forall a, guarded (f a)) -> guarded (bind m f).
Proof.
  intros Hm Hf w. unfold bind. destruct (Hm w) as (a & w1 & -> & Hs).
  destruct (Hf a w1) as [Hs' Hr]. split; [congruence | exact Hr].
Qed.

Lemma total_bind {A B} (m : Py A) (f : A -> Py B) :
  total m -> (forall a, total (f a)) -> total (bind m f).
Proof.
  intros Hm Hf w. unfold bind. destruct (Hm w) as (a & w1 & -> & Hs).
  destruct (Hf a w1) as (b & w2 & -> & Hs2). do 2 eexists. split; eauto. congruence.
Qed.

Lemma total_ret {A} (a : A) : total (ret a).
Proof. intros w. do 2 eexists. split; reflexivity. Qed.

Lemma sound_print_rows nul l :
  sound nul (for_each print_row (map tuple_of l)) (fun _ => True).
Proof.
  induction l as [|r l IH]; cbn [map for_each].
  - now apply sound_ret.
  - apply sound_bind with (Q := fun _ => True); [apply sound_print | auto].
Qed.

Lemma total_getAllStudents : total (getAllStudents date_in).
Proof.
  unfold getAllStudents. eapply total_try.
  - apply sound_with_connection. unfold with_cursor.
    eapply sound_bind; [apply (sound_execute SelectAll)|].
    intros cur [l Hl]. unfold fetchall. rewrite Hl.
    destruct l as [|r l]; [apply sound_print|].
    change (map tuple_of (r :: l)) with (tuple_of r :: map tuple_of l) at 1.
    cbv beta iota.
    repeat (eapply sound_bind; [apply sound_print | intros _ _]).
    eapply sound_bind; [apply (sound_print_rows false (r :: l)) | intros _ _].
    apply sound_print.
  - intros x. eexists. split; [reflexivity | apply total_print].
Qed.

Lemma total_handlers (k1 : Py unit) (k2 : pg_exc -> Py unit) :
  total k1 -> (forall x, total (k2 x)) ->
  forall x, exists k,
    or_except (except_UniqueViolation k1) (except_psycopg2_Error k2) (PgError x) = Some k
    /\ total k.
Proof.
  intros H1 H2 x. unfold or_except, except_UniqueViolation, except_psycopg2_Error.
  destruct (pg_kind x); eauto.
Qed.

Lemma sound_addStudent_store first last mail date_str :
  sound (holds_nul (InsertStudent first last mail date_str))
        (addStudent_store date_in first last mail date_str) (fun _ => True).
Proof.
  apply sound_with_connection. unfold with_cursor.
  eapply sound_bind; [apply sound_execute|].
  intros cur [n Hn]. unfold fetchone. rewrite Hn. cbn [item0].
  eapply sound_bind; [apply sound_ret with (Q := fun _ => True); exact I | intros new_id _].
  eapply sound_bind; [apply sound_commit | intros _ _]. apply sound_print.
Qed.

(** Whatever its arguments, [addStudent] returns or raises [ValueError]. *)
Lemma guarded_addStudent first last mail date_str :
  guarded (addStudent lim date_in first last mail date_str).
Proof.
  unfold addStudent. apply guarded_bind.
  - unfold py_strptime. destruct (strptime lim date_str); intros w;
      do 2 eexists; split; reflexivity.
  - intros [|]; [|apply guarded_total, total_ret].
    eapply guarded_try; [apply sound_addStudent_store | | reflexivity].
    apply total_handlers; intros; apply total_print.
Qed.

(** It returns when no field holds NUL. *)
Lemma total_addStudent first last mail date_str :
  has_nul first = false -> has_nul last = false -> has_nul mail = false ->
  total (addStudent lim date_in first last mail date_str).
Proof.
  intros H1 H2 H3. unfold addStudent, py_strptime.
  destruct (strptime lim date_str) as [dt|] eqn:Hv.
  - apply strptime_no_nul in Hv. apply total_bind.
    + intros w. do 2 eexists. split; reflexivity.
    + intros [|]; [|apply total_ret].
      eapply total_try; [|apply total_handlers; intros; apply total_print].
      pose proof (sound_addStudent_store first last mail date_str) as H.
      cbn [holds_nul] in H. rewrite H1, H2, H3, Hv in H. exact H.
  - intros w. do 2 eexists. split; reflexivity.
Qed.

Lemma total_int_or_none sid :
  total (try_except (sid0 <- int lim sid ;; ret (Some sid0))
           (except_ValueError (print msg_invalid_id ;; ret None))).
Proof.
  unfold int. destruct (py_int lim sid); intros w; do 2 eexists; split; reflexivity.
Qed.

Lemma sound_updateStudentEmail_store sid new_email :
  sound (has_nul new_email) (updateStudentEmail_store date_in sid new_email)
        (fun _ => True).
Proof.
  apply sound_with_connection. unfold with_cursor.
  eapply sound_bind; [apply (sound_execute (UpdateEmail new_email sid))|].
  intros cur _. destruct (rowcount cur =? 0); [apply sound_print|].
  eapply sound_bind; [apply sound_commit | intros _ _]. apply sound_print.
Qed.

Lemma guarded_updateStudentEmail sid new_email :
  guarded (updateStudentEmail lim date_in sid new_email).
Proof.
  unfold updateStudentEmail. apply guarded_bind; [apply total_int_or_none|].
  intros [n|]; [|apply guarded_total, total_ret].
  eapply guarded_try; [apply sound_updateStudentEmail_store | | reflexivity].
  apply total_handlers; intros; apply total_print.
Qed.

Lemma total_updateStudentEmail sid new_email :
  has_nul new_email = false ->
  total (updateStudentEmail lim date_in sid new_email).
Proof.
  intros Hn. unfold updateStudentEmail. apply total_bind; [apply total_int_or_none|].
  intros [n|]; [|apply total_ret].
  eapply total_try; [|apply total_handlers; intros; apply total_print].
  rewrite <- Hn. apply sound_updateStudentEmail_store.
Qed.

Lemma sound_deleteStudent_store sid :
  sound false (deleteStudent_store date_in sid) (fun _ => True).
Proof.
  apply sound_with_connection. unfold with_cursor.
  eapply sound_bind; [apply (sound_execute (DeleteStudent sid))|].
  intros cur _. destruct (rowcount cur =? 0); [apply sound_print|].
  eapply sound_bind; [apply sound_commit | intros _ _]. apply sound_print.
Qed.

Lemma total_deleteStudent sid : total (deleteStudent lim date_in sid).
Proof.
  unfold deleteStudent. apply total_bind; [apply total_int_or_none|].
  intros [n|]; [|apply total_ret].
  eapply total_try; [apply sound_deleteStudent_store|].
  intros x. eexists. split; [reflexivity | apply total_print].
Qed.

(** *** Reading the terminal *)

Lemma reader_guarded {A} (m : Py A) : guarded m -> reader m.
Proof.
  intros H w. destruct (H w) as [Hs Hr].
  destruct (m w) as [[a|e] w']; cbn [fst snd] in *.
  - rewrite Hs. apply Nat.le_refl.
  - now right.
Qed.

Lemma reader_total {A} (m : Py A) : total m -> reader m.
Proof. intros H. apply reader_guarded, guarded_total, H. Qed.

Lemma reader_bind {A B} (m : Py A) (f : A -> Py B) :
  reader m -> (forall a, reader (f a)) -> reader (bind m f).
Proof.
  intros Hm Hf w. unfold bind. specialize (Hm w).
  destruct (m w) as [[a|e] w1]; [|exact Hm].
  specialize (Hf a w1). destruct (f a w1) as [[b|e] w2]; [|exact Hf].
  eapply Nat.le_trans; eassumption.
Qed.

Lemma input_strip_run msg w :
  input_strip msg w
  = match stdin w with
    | [] => (Raise EOFError, emit (Prompt msg) w)
    | l :: r => (Return (strip l),
                 mkWorld (store w) (session w) (faults w) r (trace w ++ [Prompt msg]))
    end.
Proof.
  unfold input_strip, input, bind, ret, emit. cbn [stdin store session faults trace].
  destruct (stdin w); reflexivity.
Qed.

Lemma reader_input_strip msg : reader (input_strip msg).
Proof.
  intros w. rewrite input_strip_run. destruct (stdin w) eqn:E; cbn [stdin emit].
  - auto.
  - cbn [length]. apply Nat.le_succ_diag_r.
Qed.

Lemma guarded_then {A} (m : Py A) (c : control) :
  guarded m -> guarded (m ;; ret c).
Proof.
  intros H w. unfold bind, ret. destruct (H w) as [Hs Hr].
  destruct (m w) as [[a|e] w1]; cbn [fst snd] in *; auto.
Qed.

Lemma reader_then {A} (m : Py A) (c : control) :
  guarded m -> reader (m ;; ret c).
Proof. intros H. apply reader_guarded, guarded_then, H. Qed.

Lemma total_print_menu : total print_menu.
Proof.
  unfold print_menu. repeat (apply total_bind; [apply total_print | intros _]).
  apply total_print.
Qed.

Lemma reader_dispatch choice : reader (dispatch lim date_in choice).
Proof.
  unfold dispatch.
  repeat match goal with
         | |- context [if ?b then _ else _] => destruct b
         end;
    repeat (apply reader_bind; [apply reader_input_strip | intros ?]);
    apply reader_then;
    auto using guarded_total, total_getAllStudents, guarded_addStudent,
               guarded_updateStudentEmail, total_deleteStudent, total_print.
Qed.

(** One turn: it goes on only after reading at least one line, and it
    raises only at the end of the input or with the [ValueError] of an
    operation. *)
Lemma menu_turn_progress w :
  match menu_turn lim date_in w with
  | (Return Continue, w') => (length (stdin w') < length (stdin w))%nat
  | (Return Break, _) => True
  | (Raise e, w') => (e = EOFError /\ stdin w' = []) \/ e = ValueError
  end.
Proof.
  unfold menu_turn. unfold bind at 1.
  destruct (total_print_menu w) as ([] & w0 & -> & Hs0).
  unfold bind. rewrite input_strip_run. rewrite <- Hs0.
  destruct (stdin w0) as [|l r] eqn:E.
  - cbn [stdin emit]. auto.
  - match goal with |- context [dispatch _ _ ?c ?w1] =>
      pose proof (reader_dispatch c w1) as Hd;
      destruct (dispatch lim date_in c w1) as [[[|]|e] w2]
    end; cbn [stdin length] in *; auto. lia.
Qed.

(** [menu] ends: by the choice 0, at the end of the input, or with the
    [ValueError] of an operation. *)
Lemma menu_loop_ends fuel w :
  (length (stdin w) < fuel)%nat ->
  exists r w',
    menu_loop lim date_in fuel w = Some (r, w')
    /\ (r = Return tt \/ (r = Raise EOFError /\ stdin w' = [])
        \/ r = Raise ValueError).
Proof.
  revert w. induction fuel as [|fuel IH]; intros w Hlt; [lia|].
  cbn [menu_loop]. pose proof (menu_turn_progress w) as Hp.
  destruct (menu_turn lim date_in w) as [[[|]|e] w1].
  - apply IH. lia.
  - eauto.
  - destruct Hp as [[-> Hs]| ->]; eauto 7.
Qed.

Lemma main_no_connection w x fs :
  faults w = Some x :: fs ->
  main lim date_in w
  = Some (Return tt,
          mkWorld (store w) (session w) fs (stdin w)
                  (trace w ++ [Call Connect; Out (msg_no_connection x)])).
Proof.
  intros H. destruct w as [db ses fl inp tr]. cbn [faults] in H. subst fl.
  unfold main. unfold_py. rewrite <- app_assoc. reflexivity.
Qed.

(** The connection of the startup check is left at once; a failure of
    that is reported like a failure to connect. *)
Lemma main_not_released w y fs :
  faults w = None :: Some y :: fs ->
  main lim date_in w
  = Some (Return tt,
          mkWorld (store w) None fs (stdin w)
                  (trace w ++ [Call Connect; Call (Release true);
                               Out (msg_no_connection y)])).
Proof.
  intros H. destruct w as [db ses fl inp tr]. cbn [faults] in H. subst fl.
  unfold main. unfold_py. rewrite <- !app_assoc. reflexivity.
Qed.

Lemma main_connected w :
  calm 2 (faults w) = true ->
  main lim date_in w
  = menu lim date_in
      (mkWorld (store w) None (skipn 2 (faults w)) (stdin w)
               (trace w ++ [Call Connect; Call (Release true)])).
Proof.
  intros Hc. destruct w as [[rws seq] ses fl inp tr]. unfold main.
  destruct fl as [|[x|] [|[y|] fl]]; try discriminate Hc; unfold_py;
    rewrite <- !app_assoc; reflexivity.
Qed.

End Logic.

(** ** The menu: one turn, branch by branch *)

Section MenuProperties.
Variable lim : nat.
Variable date_in : string -> option date.
Local Open Scope string_scope.

(** A turn with a line to read: the menu, the prompt, then the branch for
    the stripped line. *)
Lemma menu_turn_dispatch w line rest :
  stdin w = line :: rest ->
  menu_turn lim date_in w
  = dispatch lim date_in (strip line) (prompted w ["Choose an option: "] rest).
Proof.
  intros H. destruct w as [db ses fl inp tr]. cbn [stdin] in H. subst inp.
  unfold menu_turn, print_menu, input_strip, input, prompted. unfold_py.
  cbn [map]. unfold menu_lines.
  repeat rewrite <- app_assoc. reflexivity.
Qed.

Lemma prompted_read w prompts msg line rest :
  input_strip msg (prompted w prompts (line :: rest))
  = (Return (strip line), prompted w (prompts ++ [msg]) rest).
Proof.
  rewrite input_strip_run. unfold prompted. cbn [stdin store session faults trace].
  rewrite map_app. cbn [map]. now rewrite <- !app_assoc.
Qed.

(** An operation of the menu, then the next turn, unless it raised. *)
Lemma then_continue (op : Py unit) w r w' :
  op w = (r, w') ->
  (op ;; ret Continue)%py w
  = (match r with Return _ => Return Continue | Raise e => Raise e end, w').
Proof. intros H. unfold bind, ret. rewrite H. now destruct r. Qed.

Lemma dispatch_list w0 :
  dispatch lim date_in "1" w0 = (getAllStudents date_in ;; ret Continue)%py w0.
Proof. reflexivity. Qed.

Lemma dispatch_create w prompts f l e d rest :
  dispatch lim date_in "2" (prompted w prompts (f :: l :: e :: d :: rest))
  = (addStudent lim date_in (strip f) (strip l) (strip e) (strip d) ;; ret Continue)%py
      (prompted w (prompts ++ ["First name: "; "Last name: "; "Email: ";
                               "Enrollment date (YYYY-MM-DD): "]) rest).
Proof.
  unfold dispatch. cbn [String.eqb Ascii.eqb Bool.eqb]. unfold bind at 1 2 3 4.
  rewrite !prompted_read. rewrite <- !app_assoc. reflexivity.
Qed.

Lemma dispatch_update w prompts sid e rest :
  dispatch lim date_in "3" (prompted w prompts (sid :: e :: rest))
  = (updateStudentEmail lim date_in (strip sid) (strip e) ;; ret Continue)%py
      (prompted w (prompts ++ ["Student ID: "; "New email: "]) rest).
Proof.
  unfold dispatch. cbn [String.eqb Ascii.eqb Bool.eqb]. unfold bind at 1 2.
  rewrite !prompted_read. rewrite <- !app_assoc. reflexivity.
Qed.

Lemma dispatch_delete w prompts sid rest :
  dispatch lim date_in "4" (prompted w prompts (sid :: rest))
  = (deleteStudent lim date_in (strip sid) ;; ret Continue)%py
      (prompted w (prompts ++ ["Student ID to delete: "]) rest).
Proof.
  unfold dispatch. cbn [String.eqb Ascii.eqb Bool.eqb]. unfold bind at 1.
  rewrite !prompted_read. reflexivity.
Qed.

Lemma dispatch_exit w0 :
  dispatch lim date_in "0" w0 = (Return Break, emit (Out msg_goodbye) w0).
Proof. reflexivity. Qed.

Lemma dispatch_other choice w0 :
  choice <> "1" -> choice <> "2" -> choice <> "3" -> choice <> "4" ->
  choice <> "0" ->
  dispatch lim date_in choice w0 = (Return Continue, emit (Out msg_invalid_option) w0).
Proof.
  intros H1 H2 H3 H4 H0. unfold dispatch.
  apply String.eqb_neq in H1, H2, H3, H4, H0. now rewrite H1, H2, H3, H4, H0.
Qed.

End MenuProperties.

(** ** The operations *)

Section AppProperties.

Variable lim : nat.
Variable date_in : string -> option date.

Lemma updateStudentEmail_not_found sid new_email n w :
  py_int lim sid = Some n -> has_nul new_email = false ->
  (forall r, In r (rows (store w)) -> student_id r <> n) ->
  calm 3 (faults w) = true ->
  exists w',
    updateStudentEmail lim date_in sid new_email w = (Return tt, w')
    /\ extends w w' [Call Connect; Call (Execute (UpdateEmail new_email n));
                     Out msg_not_found; Call (Release true)]
    /\ store w' = store w.
Proof.
  intros Hp Hnul Hn Hc. destruct w as [[rws seq] ses fl inp tr].
  cbn [store rows faults] in *.
  unfold updateStudentEmail, int. rewrite Hp.
  calm_cases Hc.
  all: unfold_py; rewrite Hnul; unfold_py;
    rewrite (run_update_no_hit _ _ _ _ _ Hn); unfold_py.
  all: close_run.
Qed.

Lemma deleteStudent_not_found sid n w :
  py_int lim sid = Some n ->
  (forall r, In r (rows (store w)) -> student_id r <> n) ->
  calm 3 (faults w) = true ->
  exists w',
    deleteStudent lim date_in sid w = (Return tt, w')
    /\ extends w w' [Call Connect; Call (Execute (DeleteStudent n));
                     Out msg_not_found; Call (Release true)]
    /\ store w' = store w.
Proof.
  intros Hp Hn Hc. destruct w as [[rws seq] ses fl inp tr].
  cbn [store rows faults] in *.
  unfold deleteStudent, int. rewrite Hp.
  calm_cases Hc.
  all: unfold_py; rewrite (run_delete_no_hit _ _ _ _ Hn); unfold_py.
  all: close_run.
Qed.

Lemma deleteStudent_found sid n w r :
  py_int lim sid = Some n ->
  In r (rows (store w)) -> student_id r = n ->
  calm 4 (faults w) = true ->
  exists w',
    deleteStudent lim date_in sid w = (Return tt, w')
    /\ extends w w' [Call Connect; Call (Execute (DeleteStudent n)); Call Commit;
                     Out msg_deleted; Call (Release true)]
    /\ store w' = mkDatabase (filter (fun r => negb (has_id n r)) (rows (store w)))
                             (next_id (store w))
    /\ faults w' = skipn 4 (faults w).
Proof.
  intros Hp Hin Hid Hc. destruct w as [[rws seq] ses fl inp tr].
  cbn [store rows faults next_id] in *.
  unfold deleteStudent, int. rewrite Hp.
  destruct (run_delete_hit date_in _ _ seq _ Hin Hid) as (k & Hk & Hrun).
  apply Z.eqb_neq in Hk.
  calm_cases Hc.
  all: unfold_py; rewrite Hrun; unfold_py; cbn [rowcount]; rewrite Hk; unfold_py.
  all: eexists; split; [reflexivity|]; split;
    [unfold extends; cbn [trace]; rewrite <- ?app_assoc; reflexivity | split; reflexivity].
Qed.

(** C8.  A call of [updateStudentEmail] that prints "Email updated
    successfully" has read the identifier as some [n]; the table held
    exactly one row [r] with that key, and afterwards the table is the same
    list of rows with, in the place of [r], the row that has the key, first
    name, last name and enrollment date of [r] and the new email.  Every
    other row, and the key sequence, are as before. *)
Theorem update_changes_only_the_email sid new_email w w' added :
  updateStudentEmail lim date_in sid new_email w = (Return tt, w') ->
  extends w w' added -> In (Out msg_updated) added ->
  exists n pre r post,
    py_int lim sid = Some n
    /\ rows (store w) = pre ++ r :: post
    /\ student_id r = n
    /\ (forall x, In x (pre ++ post) -> student_id x <> n)
    /\ rows (store w')
       = pre ++ mkStudent (student_id r) (first_name r) (last_name r) new_email
                  (enrollment_date r) :: post
    /\ next_id (store w') = next_id (store w).
Proof.
  destruct w as [[rws seq] ses fl inp tr].
  unfold updateStudentEmail, int.
  destruct (py_int lim sid) as [n|] eqn:Hp.
  - revert w' added. run_py; intros w' added H Hext Hin; try discriminate H;
      injection H as <-; added_events Hext; try (not_printed Hin; fail).
    all: match goal with
         | Hrun : run_sql _ _ _ _ = (inr _, _), Hrc : (_ =? 0) = false |- _ =>
             destruct (run_update_inv _ _ _ _ _ _ _ _ Hrun Hrc) as (-> & -> & Hone)
         end.
    all: destruct (one_hit_split _ _ Hone) as (pre & r & post & -> & Hr & Hrest).
    all: exists n, pre, r, post; cbn [store rows next_id];
      rewrite (update_split _ _ _ _ _ Hr Hrest); repeat split; auto.
  - unfold_py. intros H Hext Hin. injection H as <-.
    added_events Hext. not_printed Hin.
Qed.

Lemma addStudent_invalid first last mail date_str w :
  strptime lim date_str = None ->
  addStudent lim date_in first last mail date_str w
  = (Return tt, emit (Out msg_invalid_date) w).
Proof. intros H. unfold addStudent, py_strptime. now rewrite H. Qed.

(** Whatever happens in [addStudent], the table gains the submitted row
    when the line of success is printed and keeps its rows otherwise; the
    call returns unless a field holds NUL. *)
Lemma addStudent_rows first last mail date_str w :
  exists r w' added,
    addStudent lim date_in first last mail date_str w = (r, w')
    /\ extends w w' added
    /\ (has_nul first = false -> has_nul last = false -> has_nul mail = false ->
        r = Return tt)
    /\ ((exists new_id, In (Out (msg_added new_id)) added) ->
        strptime lim date_str <> None
        /\ exists dt, date_in date_str = Some dt
           /\ rows (store w')
              = rows (store w) ++ [mkStudent (next_id (store w)) first last mail dt])
    /\ ((forall new_id, ~ In (Out (msg_added new_id)) added) ->
        rows (store w') = rows (store w)).
Proof.
  destruct w as [[rws seq] ses fl inp tr].
  unfold addStudent, py_strptime.
  destruct (strptime lim date_str) as [dt0|] eqn:Hv.
  - pose proof (strptime_no_nul _ _ _ Hv) as Hd.
    run_py.
    all: try match goal with
         | Hrun : run_sql _ _ _ _ = (inr _, _) |- _ =>
             apply run_insert_inv in Hrun; cbn beta iota in Hrun;
             destruct Hrun as (-> & -> & dt & Hdt & ->)
         | Hrun : run_sql _ _ _ _ = (inl _, _) |- _ =>
             apply run_insert_inv in Hrun; cbn beta iota in Hrun;
             destruct Hrun as [(-> & -> & Hdt)|(-> & ->)]
         end.
    all: cbn [results] in *; try discriminate.
    all: repeat match goal with H : _ :: _ = _ :: _ |- _ => injection H as <- <- end.
    all: do 3 eexists; split; [reflexivity|]; split; [give_trace|].
    all: split;
      [ intros H1 H2 H3;
        first [ reflexivity
              | match goal with
                | H : (_ || _) = true |- _ =>
                    rewrite H1, H2, H3, Hd in H; discriminate H
                end ] |].
    all: cbn [store rows next_id].
    all: split; [intros [new_id Hin] | intros Hno].
    all: try (not_printed Hin; fail).
    all: try reflexivity.
    all: try (split; [discriminate | eauto]).
    all: exfalso; eapply Hno; cbn [In]; eauto 7.
  - unfold_py. do 3 eexists; split; [reflexivity|]; split; [give_trace|].
    split; [reflexivity|].
    split; [intros [new_id Hin]; not_printed Hin | reflexivity].
Qed.

Lemma addStudent_handles first last mail date_str w w1 e dt :
  strptime lim date_str = Some dt ->
  addStudent_store date_in first last mail date_str w = (Raise (PgError e), w1) ->
  addStudent lim date_in first last mail date_str w
  = (Return tt,
     emit (Out match pg_kind e with
               | UniqueViolation => msg_duplicate_email
               | OtherError => msg_add_failed e
               end) w1).
Proof.
  intros Hv H. unfold addStudent, py_strptime. rewrite Hv.
  unfold bind at 1. unfold try_except at 1. unfold bind at 1. unfold ret at 1 2.
  cbv beta iota. unfold try_except. rewrite H.
  unfold or_except, except_UniqueViolation, except_psycopg2_Error.
  destruct (pg_kind e); reflexivity.
Qed.

Lemma updateStudentEmail_handles sid n new_email w w1 e :
  py_int lim sid = Some n ->
  updateStudentEmail_store date_in n new_email w = (Raise (PgError e), w1) ->
  updateStudentEmail lim date_in sid new_email w
  = (Return tt,
     emit (Out match pg_kind e with
               | UniqueViolation => msg_duplicate_email
               | OtherError => msg_update_failed e
               end) w1).
Proof.
  intros Hv H. unfold updateStudentEmail, int. rewrite Hv.
  unfold bind at 1. unfold try_except at 1. unfold bind at 1. unfold ret at 1 2.
  cbv beta iota. unfold try_except. rewrite H.
  unfold or_except, except_UniqueViolation, except_psycopg2_Error.
  destruct (pg_kind e); reflexivity.
Qed.

Lemma updateStudentEmail_invalid sid new_email w :
  py_int lim sid = None ->
  updateStudentEmail lim date_in sid new_email w
  = (Return tt, emit (Out msg_invalid_id) w).
Proof. intros H. unfold updateStudentEmail, int. now rewrite H. Qed.

Lemma deleteStudent_invalid sid w :
  py_int lim sid = None ->
  deleteStudent lim date_in sid w = (Return tt, emit (Out msg_invalid_id) w).
Proof. intros H. unfold deleteStudent, int. now rewrite H. Qed.

(** Once the identifier is read as [n], the update opens a connection and,
    its email adapted, sends its statement with [n]. *)
Lemma updateStudentEmail_sends sid n new_email w :
  py_int lim sid = Some n -> calm 1 (faults w) = true ->
  has_nul new_email = false ->
  exists w' more,
    updateStudentEmail lim date_in sid new_email w = (Return tt, w')
    /\ extends w w' (Call Connect :: Call (Execute (UpdateEmail new_email n)) :: more).
Proof.
  intros H Hc Hnul. destruct w as [[rws seq] ses fl inp tr].
  unfold updateStudentEmail, int. rewrite H. cbn [faults] in Hc.
  calm_cases Hc; unfold_py; rewrite Hnul; run_py; show_trace.
Qed.

Lemma deleteStudent_sends sid n w :
  py_int lim sid = Some n -> calm 1 (faults w) = true ->
  exists w' more,
    deleteStudent lim date_in sid w = (Return tt, w')
    /\ extends w w' (Call Connect :: Call (Execute (DeleteStudent n)) :: more).
Proof.
  intros H Hc. destruct w as [[rws seq] ses fl inp tr].
  unfold deleteStudent, int. rewrite H. cbn [faults] in Hc.
  calm_cases Hc; run_py; show_trace.
Qed.

(** C4.  [updateStudentEmail] and [deleteStudent] read the identifier with
    [int] before anything else: when [int] refuses it, the only effect is
    the printed "Invalid student ID" line (no store call is made, the store
    and the fault script are as before); a text without a decimal digit,
    and "abc", "3.5" and the empty text, are refused; "42" is read as 42
    and the operation goes on to the store (the update, when its email can
    be adapted). *)
Theorem identifier_parsed_before_store (sid new_email : string) (w : World) :
  (py_int lim sid = None ->
     updateStudentEmail lim date_in sid new_email w
       = (Return tt, emit (Out msg_invalid_id) w)
     /\ deleteStudent lim date_in sid w = (Return tt, emit (Out msg_invalid_id) w))
  /\ ((forall c, In c (list_ascii_of_string sid) -> is_digit c = false) ->
      py_int lim sid = None)
  /\ py_int lim "abc" = None /\ py_int lim "3.5" = None
  /\ py_int lim EmptyString = None
  /\ py_int lim "42" = Some 42
  /\ (calm 1 (faults w) = true ->
      (has_nul new_email = false ->
       exists w' more,
         updateStudentEmail lim date_in "42" new_email w = (Return tt, w')
         /\ extends w w' (Call Connect :: Call (Execute (UpdateEmail new_email 42)) :: more))
      /\ (exists w' more,
         deleteStudent lim date_in "42" w = (Return tt, w')
         /\ extends w w' (Call Connect :: Call (Execute (DeleteStudent 42)) :: more))).
Proof.
  split; [|split; [|repeat split; try reflexivity]].
  - intros H. split.
    + now apply updateStudentEmail_invalid.
    + now apply deleteStudent_invalid.
  - intros Hnone. destruct (py_int lim sid) as [n|] eqn:E; [|reflexivity].
    apply int_of_text_has_digit in E as (c & Hin & Hd).
    rewrite (Hnone c Hin) in Hd. discriminate.
  - intros Hnul. apply updateStudentEmail_sends; [reflexivity | assumption | assumption].
  - apply deleteStudent_sends; [reflexivity | assumption].
Qed.

(** C10.  [int] accepts more than unsigned digit strings: "-5", "+42" and
    "1_000" are read as -5, 42 and 1000 although none of them is an
    unsigned digit string, every unsigned digit string within the digit
    limit is read as the number it writes, and whatever [int] returns is
    what [updateStudentEmail] (when its email can be adapted) and
    [deleteStudent] send to the store. *)
Theorem signed_and_grouped_identifiers_accepted (new_email : string) (w : World) :
  py_int lim "-5" = Some (-5) /\ py_int lim "+42" = Some 42
  /\ py_int lim "1_000" = Some 1000
  /\ ~ unsigned_decimal (list_ascii_of_string "-5")
  /\ ~ unsigned_decimal (list_ascii_of_string "+42")
  /\ ~ unsigned_decimal (list_ascii_of_string "1_000")
  /\ (forall s : string,
        unsigned_decimal (list_ascii_of_string s) ->
        exceeds_limit lim (String.length s) = false ->
        py_int lim s = Some (decimal_value (list_ascii_of_string s)))
  /\ (forall sid n,
        py_int lim sid = Some n -> calm 1 (faults w) = true ->
        (has_nul new_email = false ->
         exists w' more,
           updateStudentEmail lim date_in sid new_email w = (Return tt, w')
           /\ extends w w'
                (Call Connect :: Call (Execute (UpdateEmail new_email n)) :: more))
        /\ (exists w' more,
           deleteStudent lim date_in sid w = (Return tt, w')
           /\ extends w w' (Call Connect :: Call (Execute (DeleteStudent n)) :: more))).
Proof.
  repeat split; try reflexivity.
  - intros [_ H]. discriminate H.
  - intros [_ H]. discriminate H.
  - intros [_ H]. discriminate H.
  - intros s Hs Hlim. unfold py_int. apply int_of_text_unsigned; [exact Hs|].
    now rewrite length_list_ascii_of_string.
  - intros Hnul. now apply updateStudentEmail_sends.
  - now apply deleteStudent_sends.
Qed.

Lemma calm_split a b fl :
  calm (a + b) fl = true -> calm a fl = true /\ calm b (skipn a fl) = true.
Proof.
  revert fl. induction a as [|a IH]; intros fl H; [auto|].
  destruct fl as [|[x|] fl]; cbn in *; [destruct b; auto | discriminate | auto].
Qed.

(** C1.  When the identifier is read as [n] and no row has key [n], the
    update and the delete print "No student found with that ID", call
    neither [conn.commit()] nor anything else than connect, execute and the
    end of the block, and leave the store as it was.  Deleting an existing
    key twice: the first call commits and prints "Student deleted
    successfully", the second prints "No student found with that ID" and
    changes nothing.  (No store fault is assumed for the calls made, the
    end of the block included, and the email of the update holds no
    NUL.) *)
Theorem unmatched_identifier_not_found (sid new_email : string) (n : Z) (w : World) :
  py_int lim sid = Some n ->
  ((forall r, In r (rows (store w)) -> student_id r <> n) ->
   calm 3 (faults w) = true ->
   (has_nul new_email = false ->
    exists w',
      updateStudentEmail lim date_in sid new_email w = (Return tt, w')
      /\ extends w w' [Call Connect; Call (Execute (UpdateEmail new_email n));
                       Out msg_not_found; Call (Release true)]
      /\ store w' = store w)
   /\ (exists w',
      deleteStudent lim date_in sid w = (Return tt, w')
      /\ extends w w' [Call Connect; Call (Execute (DeleteStudent n));
                       Out msg_not_found; Call (Release true)]
      /\ store w' = store w))
  /\ (forall r, In r (rows (store w)) -> student_id r = n ->
      calm 7 (faults w) = true ->
      exists w1 w2,
        deleteStudent lim date_in sid w = (Return tt, w1)
        /\ extends w w1 [Call Connect; Call (Execute (DeleteStudent n)); Call Commit;
                         Out msg_deleted; Call (Release true)]
        /\ deleteStudent lim date_in sid w1 = (Return tt, w2)
        /\ extends w1 w2 [Call Connect; Call (Execute (DeleteStudent n));
                          Out msg_not_found; Call (Release true)]
        /\ store w2 = store w1).
Proof.
  intros Hp. split.
  - intros Hn Hc. split.
    + intros Hnul. now apply updateStudentEmail_not_found.
    + now apply deleteStudent_not_found.
  - intros r Hin Hid Hc. apply (calm_split 4 3) in Hc as [Hc1 Hc2].
    destruct (deleteStudent_found sid n w r Hp Hin Hid Hc1)
      as (w1 & Hrun1 & Hext1 & Hst1 & Hfl1).
    assert (Hgone : forall x, In x (rows (store w1)) -> student_id x <> n).
    { rewrite Hst1. cbn [rows]. intros x. apply keep_no_hit. }
    rewrite <- Hfl1 in Hc2.
    destruct (deleteStudent_not_found sid n w1 Hp Hgone Hc2)
      as (w2 & Hrun2 & Hext2 & Hst2).
    exists w1, w2. auto.
Qed.

(** C3.  [addStudent] checks the date first.  When the check fails the
    only effect is the printed "Invalid date format" line: no connection,
    no statement, the store and the fault script untouched.  In every
    case, if the call printed "Student added with ID ..." the date had
    passed the check and the table is the old table followed by exactly one
    new row with the submitted fields; if it did not, the table holds the
    rows it held before.  The call returns whenever no field holds NUL. *)
Theorem create_validates_before_store (first last mail date_str : string) (w : World) :
  (strptime lim date_str = None ->
   addStudent lim date_in first last mail date_str w
   = (Return tt, emit (Out msg_invalid_date) w))
  /\ exists r w' added,
       addStudent lim date_in first last mail date_str w = (r, w')
       /\ extends w w' added
       /\ (has_nul first = false -> has_nul last = false -> has_nul mail = false ->
           r = Return tt)
       /\ ((exists new_id, In (Out (msg_added new_id)) added) ->
           strptime lim date_str <> None
           /\ exists dt, date_in date_str = Some dt
              /\ rows (store w')
                 = rows (store w)
                   ++ [mkStudent (next_id (store w)) first last mail dt])
       /\ ((forall new_id, ~ In (Out (msg_added new_id)) added) ->
           rows (store w') = rows (store w)).
Proof.
  split; [apply addStudent_invalid | apply addStudent_rows].
Qed.

Lemma duplicate_is_not_generic prefix e :
  msg_duplicate_email
  <> (nl ++ "[ERROR] Failed to " ++ prefix ++ diagnostic e ++ nl)%string.
Proof.
  intros H. apply (f_equal (String.get 9)) in H. discriminate H.
Qed.

(** C5.  In [addStudent] and [updateStudentEmail], a store error raised
    inside the [try] block is answered by one printed line: the
    duplicate-email line when the error is a [UniqueViolation], and
    otherwise the line that ends with the error's diagnostic text
    ([pgerror], or the text of the error when [pgerror] is empty).  The two
    lines differ.  The store does raise [UniqueViolation] when the email of
    an insert, or of an update that matches a row, belongs to another row,
    and the table is then unchanged. *)
Theorem store_errors_reported
    (first last mail date_str sid new_email : string) (w w1 : World) (e : pg_exc) :
  (forall dt, strptime lim date_str = Some dt ->
     addStudent_store date_in first last mail date_str w = (Raise (PgError e), w1) ->
     addStudent lim date_in first last mail date_str w
     = (Return tt,
        emit (Out match pg_kind e with
                  | UniqueViolation => msg_duplicate_email
                  | OtherError => msg_add_failed e
                  end) w1))
  /\ (forall n, py_int lim sid = Some n ->
     updateStudentEmail_store date_in n new_email w = (Raise (PgError e), w1) ->
     updateStudentEmail lim date_in sid new_email w
     = (Return tt,
        emit (Out match pg_kind e with
                  | UniqueViolation => msg_duplicate_email
                  | OtherError => msg_update_failed e
                  end) w1))
  /\ msg_duplicate_email <> msg_add_failed e
  /\ msg_duplicate_email <> msg_update_failed e
  /\ msg_add_failed e = (nl ++ "[ERROR] Failed to add student: " ++ diagnostic e ++ nl)%string
  /\ msg_update_failed e = (nl ++ "[ERROR] Failed to update email: " ++ diagnostic e ++ nl)%string
  /\ (forall txt, pgerror e = Some txt -> txt <> EmptyString -> diagnostic e = txt)
  /\ (pgerror e = None \/ pgerror e = Some EmptyString -> diagnostic e = pg_str e)
  /\ (forall dt dt', strptime lim date_str = Some dt -> date_in date_str = Some dt' ->
      has_nul first = false -> has_nul last = false -> has_nul mail = false ->
      existsb (has_email mail) (rows (store w)) = true ->
      calm 3 (faults w) = true ->
      exists w',
        addStudent lim date_in first last mail date_str w = (Return tt, w')
        /\ extends w w' [Call Connect;
                         Call (Execute (InsertStudent first last mail date_str));
                         Call (Release false); Out msg_duplicate_email]
        /\ rows (store w') = rows (store w))
  /\ (forall n r other, py_int lim sid = Some n -> has_nul new_email = false ->
      In r (rows (store w)) -> student_id r = n ->
      In other (rows (store w)) -> student_id other <> n -> email other = new_email ->
      calm 3 (faults w) = true ->
      exists w',
        updateStudentEmail lim date_in sid new_email w = (Return tt, w')
        /\ extends w w' [Call Connect; Call (Execute (UpdateEmail new_email n));
                         Call (Release false); Out msg_duplicate_email]
        /\ rows (store w') = rows (store w)).
Proof.
  split; [|split; [|split; [|split; [|split; [|split; [|split; [|split; [|split]]]]]]]].
  - intros dt. apply addStudent_handles.
  - intros n. apply updateStudentEmail_handles.
  - apply (duplicate_is_not_generic "add student: "%string).
  - apply (duplicate_is_not_generic "update email: "%string).
  - reflexivity.
  - reflexivity.
  - intros txt H Hne. unfold diagnostic. rewrite H.
    destruct (String.eqb_spec txt EmptyString); congruence.
  - unfold diagnostic. intros [->| ->]; reflexivity.
  - intros dt dt' Hv Hd H1 H2 H3 He Hc. clear w1.
    pose proof (strptime_no_nul _ _ _ Hv) as H4.
    destruct w as [[rws seq] ses fl inp tr].
    cbn [store rows faults] in *. unfold addStudent, py_strptime. rewrite Hv.
    calm_cases Hc.
    all: unfold_py; rewrite H1, H2, H3, H4; cbn [orb]; unfold_py;
      rewrite (run_insert_taken date_in first last mail date_str rws seq dt' Hd He);
      unfold_py; close_run.
  - intros n r other Hp Hnul Hr Hid Ho Hne Hem Hc. clear w1.
    destruct w as [[rws seq] ses fl inp tr].
    cbn [store rows faults] in *. unfold updateStudentEmail, int. rewrite Hp.
    calm_cases Hc.
    all: unfold_py; rewrite Hnul; unfold_py;
      rewrite (run_update_taken date_in new_email n rws seq r other Hr Hid Ho Hne Hem);
      unfold_py; close_run.
Qed.

Lemma getAllStudents_no_connection w x fs :
  faults w = Some x :: fs ->
  getAllStudents date_in w
  = (Return tt,
     mkWorld (store w) (session w) fs (stdin w)
             (trace w ++ [Call Connect; Out (msg_fetch_failed x)])).
Proof.
  intros H. destruct w as [db ses fl inp tr]. cbn [faults] in H. subst fl.
  unfold getAllStudents. unfold_py. rewrite <- app_assoc. reflexivity.
Qed.

Lemma addStudent_stores first last mail date_str dt0 dt w :
  strptime lim date_str = Some dt0 -> date_in date_str = Some dt ->
  has_nul first = false -> has_nul last = false -> has_nul mail = false ->
  existsb (has_id (next_id (store w))) (rows (store w)) = false ->
  existsb (has_email mail) (rows (store w)) = false ->
  calm 4 (faults w) = true ->
  exists w',
    addStudent lim date_in first last mail date_str w = (Return tt, w')
    /\ extends w w' [Call Connect;
                     Call (Execute (InsertStudent first last mail date_str));
                     Call Commit; Out (msg_added (PInt (next_id (store w))));
                     Call (Release true)]
    /\ rows (store w')
       = rows (store w) ++ [mkStudent (next_id (store w)) first last mail dt].
Proof.
  intros Hv Hd H1 H2 H3 Hi He Hc.
  pose proof (strptime_no_nul _ _ _ Hv) as H4.
  destruct w as [[rws seq] ses fl inp tr].
  cbn [store rows faults next_id] in *. unfold addStudent, py_strptime. rewrite Hv.
  calm_cases Hc.
  all: unfold_py; rewrite H1, H2, H3, H4; cbn [orb]; unfold_py;
    rewrite (run_insert_ok date_in first last mail date_str rws seq dt Hd Hi He);
    unfold_py; close_run.
Qed.

(** An operation that raises ends the turn with its error. *)
Lemma ends_with_continue {A : Type} (m : Py A) w c w' :
  (x <- m ;; ret Continue)%py w = (Return c, w') -> c = Continue.
Proof.
  unfold bind, ret. destruct (m w) as [[a|e] w1]; intros H; [|discriminate].
  now injection H as <- _.
Qed.

Lemma after_input_strip {A : Type} msg (f : string -> Py A) w c w' :
  (x <- input_strip msg ;; f x)%py w = (Return c, w') ->
  exists line w1, f line w1 = (Return c, w').
Proof.
  unfold bind at 1. destruct (input_strip msg w) as [[a|e] w1]; [eauto | discriminate].
Qed.

Lemma dispatch_state choice w0 c w' :
  dispatch lim date_in choice w0 = (Return c, w') -> state_after c = next_state choice.
Proof.
  unfold dispatch, next_state.
  destruct (String.eqb_spec choice "1") as [->|_];
    [intros H; apply ends_with_continue in H; now subst|].
  destruct (String.eqb_spec choice "2") as [->|_].
  { intros H. repeat (apply after_input_strip in H as (? & ? & H)).
    apply ends_with_continue in H. now subst. }
  destruct (String.eqb_spec choice "3") as [->|_].
  { intros H. repeat (apply after_input_strip in H as (? & ? & H)).
    apply ends_with_continue in H. now subst. }
  destruct (String.eqb_spec choice "4") as [->|_].
  { intros H. repeat (apply after_input_strip in H as (? & ? & H)).
    apply ends_with_continue in H. now subst. }
  destruct (String.eqb_spec choice "0") as [->|_].
  - intros H. injection H as <- _. reflexivity.
  - intros H. apply ends_with_continue in H. now subst.
Qed.

(** A turn of the menu with a line to read, branch by branch: 1 runs
    [getAllStudents], 2, 3 and 4 read their fields and run [addStudent],
    [updateStudentEmail] and [deleteStudent] on them; the menu awaits the
    next choice when the operation has returned, which the list and the
    delete always do, and the create and the update do when no field
    holds NUL.  0 prints "Goodbye" and ends the loop; any other line prints
    the invalid-option notice.  A turn that returns leaves the menu in the
    state of the transition table. *)
Lemma menu_turn_by_choice (w : World) (line : string) (rest : list string) :
  stdin w = line :: rest ->
  (strip line = "1"%string ->
     exists w',
       getAllStudents date_in (prompted w ["Choose an option: "%string] rest)
       = (Return tt, w')
       /\ menu_turn lim date_in w = (Return Continue, w'))
  /\ (strip line = "2"%string ->
      forall f l e d rest', rest = f :: l :: e :: d :: rest' ->
      has_nul (strip f) = false -> has_nul (strip l) = false ->
      has_nul (strip e) = false ->
      exists w',
        addStudent lim date_in (strip f) (strip l) (strip e) (strip d)
          (prompted w ["Choose an option: "; "First name: "; "Last name: ";
                       "Email: "; "Enrollment date (YYYY-MM-DD): "]%string rest')
        = (Return tt, w')
        /\ menu_turn lim date_in w = (Return Continue, w'))
  /\ (strip line = "3"%string ->
      forall sid e rest', rest = sid :: e :: rest' ->
      has_nul (strip e) = false ->
      exists w',
        updateStudentEmail lim date_in (strip sid) (strip e)
          (prompted w ["Choose an option: "; "Student ID: "; "New email: "]%string rest')
        = (Return tt, w')
        /\ menu_turn lim date_in w = (Return Continue, w'))
  /\ (strip line = "4"%string ->
      forall sid rest', rest = sid :: rest' ->
      exists w',
        deleteStudent lim date_in (strip sid)
          (prompted w ["Choose an option: "; "Student ID to delete: "]%string rest')
        = (Return tt, w')
        /\ menu_turn lim date_in w = (Return Continue, w'))
  /\ (strip line = "0"%string ->
      menu_turn lim date_in w
      = (Return Break,
         emit (Out msg_goodbye) (prompted w ["Choose an option: "%string] rest)))
  /\ (~ In (strip line) ["1"; "2"; "3"; "4"; "0"]%string ->
      menu_turn lim date_in w
      = (Return Continue,
         emit (Out msg_invalid_option) (prompted w ["Choose an option: "%string] rest)))
  /\ (forall c w', menu_turn lim date_in w = (Return c, w') ->
      state_after c = next_state (strip line))
  /\ (forall c w' fuel, menu_turn lim date_in w = (Return c, w') ->
      menu_loop lim date_in (S fuel) w
      = match state_after c with
        | AwaitingChoice => menu_loop lim date_in fuel w'
        | Exited => Some (Return tt, w')
        end)
  /\ (forall e w' fuel, menu_turn lim date_in w = (Raise e, w') ->
      menu_loop lim date_in (S fuel) w = Some (Raise e, w')).
Proof.
  intros Hin. rewrite (menu_turn_dispatch lim date_in w line rest Hin).
  split; [|split; [|split; [|split; [|split; [|split; [|split; [|split]]]]]]].
  - intros ->. rewrite dispatch_list.
    match goal with |- exists w', ?op ?W = _ /\ _ =>
      destruct (total_getAllStudents date_in W) as ([] & w' & Hrun & _)
    end.
    exists w'. split; [exact Hrun | now rewrite (then_continue _ _ _ _ Hrun)].
  - intros -> f l e d rest' -> H1 H2 H3.
    rewrite (dispatch_create lim date_in w ["Choose an option: "%string]). cbn [app].
    match goal with |- exists w', ?op ?W = _ /\ _ =>
      destruct (total_addStudent lim date_in _ _ _ (strip d) H1 H2 H3 W)
        as ([] & w' & Hrun & _)
    end.
    exists w'. split; [exact Hrun | now rewrite (then_continue _ _ _ _ Hrun)].
  - intros -> sid e rest' -> Hnul.
    rewrite (dispatch_update lim date_in w ["Choose an option: "%string]). cbn [app].
    match goal with |- exists w', ?op ?W = _ /\ _ =>
      destruct (total_updateStudentEmail lim date_in (strip sid) _ Hnul W)
        as ([] & w' & Hrun & _)
    end.
    exists w'. split; [exact Hrun | now rewrite (then_continue _ _ _ _ Hrun)].
  - intros -> sid rest' ->.
    rewrite (dispatch_delete lim date_in w ["Choose an option: "%string]). cbn [app].
    match goal with |- exists w', ?op ?W = _ /\ _ =>
      destruct (total_deleteStudent lim date_in (strip sid) W) as ([] & w' & Hrun & _)
    end.
    exists w'. split; [exact Hrun | now rewrite (then_continue _ _ _ _ Hrun)].
  - intros ->. apply dispatch_exit.
  - intros Hno. apply dispatch_other; intros E; apply Hno; rewrite E; cbn; auto 6.
  - intros c w'. apply dispatch_state.
  - intros c w' fuel H. cbn [menu_loop].
    rewrite (menu_turn_dispatch lim date_in w line rest Hin), H.
    destruct c; reflexivity.
  - intros e w' fuel H. cbn [menu_loop].
    rewrite (menu_turn_dispatch lim date_in w line rest Hin), H. reflexivity.
Qed.

(** C9.  Every line the menu reads goes through [strip], which removes the
    white space at both ends of the line and nothing else: the choice is
    compared after stripping, so " 0 " ends the loop, and the fields reach
    the operations stripped, so an email typed with blanks around it is
    stored without them.  (Where a run of the create or of the update is
    asserted, the stripped fields hold no NUL.) *)
Theorem operator_input_is_stripped (w : World) (line : string) (rest : list string) :
  stdin w = line :: rest ->
  (forall msg,
     input_strip msg w
     = (Return (strip line),
        mkWorld (store w) (session w) (faults w) rest (trace w ++ [Prompt msg])))
  /\ (exists a b,
       list_ascii_of_string line = a ++ list_ascii_of_string (strip line) ++ b
       /\ forallb isspace a = true /\ forallb isspace b = true
       /\ (forall c t, list_ascii_of_string (strip line) = c :: t -> isspace c = false)
       /\ (forall t c, list_ascii_of_string (strip line) = t ++ [c] -> isspace c = false))
  /\ menu_turn lim date_in w
     = dispatch lim date_in (strip line) (prompted w ["Choose an option: "%string] rest)
  /\ (line = " 0 "%string ->
      menu_turn lim date_in w
      = (Return Break,
         emit (Out msg_goodbye) (prompted w ["Choose an option: "%string] rest)))
  /\ (strip line = "2"%string ->
      forall f l e d rest',
        rest = f :: l :: e :: d :: rest' ->
        menu_turn lim date_in w
        = (addStudent lim date_in (strip f) (strip l) (strip e) (strip d) ;;
           ret Continue)%py
            (prompted w ["Choose an option: "; "First name: "; "Last name: ";
                         "Email: "; "Enrollment date (YYYY-MM-DD): "]%string rest'))
  /\ (strip line = "2"%string ->
      forall f l e d rest' dt0 dt,
        rest = f :: l :: e :: d :: rest' ->
        strptime lim (strip d) = Some dt0 -> date_in (strip d) = Some dt ->
        has_nul (strip f) = false -> has_nul (strip l) = false ->
        has_nul (strip e) = false ->
        existsb (has_id (next_id (store w))) (rows (store w)) = false ->
        existsb (has_email (strip e)) (rows (store w)) = false ->
        calm 4 (faults w) = true ->
        exists w',
          menu_turn lim date_in w = (Return Continue, w')
          /\ rows (store w')
             = rows (store w)
               ++ [mkStudent (next_id (store w)) (strip f) (strip l) (strip e) dt])
  /\ (strip line = "3"%string ->
      forall sid e rest', rest = sid :: e :: rest' ->
      has_nul (strip e) = false ->
      exists w',
        updateStudentEmail lim date_in (strip sid) (strip e)
          (prompted w ["Choose an option: "; "Student ID: "; "New email: "]%string rest')
        = (Return tt, w')
        /\ menu_turn lim date_in w = (Return Continue, w'))
  /\ (strip line = "4"%string ->
      forall sid rest', rest = sid :: rest' ->
      exists w',
        deleteStudent lim date_in (strip sid)
          (prompted w ["Choose an option: "; "Student ID to delete: "]%string rest')
        = (Return tt, w')
        /\ menu_turn lim date_in w = (Return Continue, w'))
  /\ strip "  ada@x.com  " = "ada@x.com"%string.
Proof.
  intros Hin.
  split; [|split; [|split; [|split; [|split; [|split; [|split; [|split]]]]]]].
  - intros msg. rewrite input_strip_run, Hin. reflexivity.
  - apply strip_spec.
  - now apply menu_turn_dispatch.
  - intros ->. rewrite (menu_turn_dispatch lim date_in w _ rest Hin). reflexivity.
  - intros Hc f l e d rest' ->.
    rewrite (menu_turn_dispatch lim date_in w line _ Hin), Hc.
    apply (dispatch_create lim date_in w ["Choose an option: "%string]).
  - intros Hc f l e d rest' dt0 dt -> Hv Hd H1 H2 H3 Hi He Hcalm.
    rewrite (menu_turn_dispatch lim date_in w line _ Hin), Hc.
    rewrite (dispatch_create lim date_in w ["Choose an option: "%string]).
    cbn [app].
    match goal with |- exists w', (?m ;; _)%py ?W = _ /\ _ =>
      destruct (addStudent_stores (strip f) (strip l) (strip e) (strip d) dt0 dt W
                  Hv Hd H1 H2 H3 Hi He Hcalm) as (w2 & Hrun2 & _ & Hrows)
    end.
    exists w2. split; [now rewrite (then_continue _ _ _ _ Hrun2) | exact Hrows].
  - intros Hc sid e rest' -> Hnul.
    apply (menu_turn_by_choice w line _ Hin); auto.
  - intros Hc sid rest' ->.
    apply (menu_turn_by_choice w line _ Hin); auto.
  - reflexivity.
Qed.

End AppProperties.

(** * Worked examples *)

Import Sample.
Local Open Scope string_scope.

Lemma unmatched_identifier_not_found_witness :
  py_int limit "7" = Some 7
  /\ (forall r, In r (rows (store quiet)) -> student_id r <> 7)
  /\ calm 3 (faults quiet) = true
  /\ (exists w',
        deleteStudent limit store_date "7" quiet = (Return tt, w')
        /\ extends quiet w' [Call Connect; Call (Execute (DeleteStudent 7));
                             Out msg_not_found; Call (Release true)]
        /\ store w' = store quiet)
  /\ py_int limit "1" = Some 1
  /\ In ada (rows (store quiet)) /\ student_id ada = 1
  /\ calm 7 (faults quiet) = true
  /\ (exists w1 w2,
        deleteStudent limit store_date "1" quiet = (Return tt, w1)
        /\ extends quiet w1 [Call Connect; Call (Execute (DeleteStudent 1));
                             Call Commit; Out msg_deleted; Call (Release true)]
        /\ deleteStudent limit store_date "1" w1 = (Return tt, w2)
        /\ extends w1 w2 [Call Connect; Call (Execute (DeleteStudent 1));
                          Out msg_not_found; Call (Release true)]
        /\ store w2 = store w1).
Proof.
  assert (Hno : forall r, In r (rows (store quiet)) -> student_id r <> 7).
  { intros r [<-|[<-|[]]]; discriminate. }
  split; [reflexivity|]. split; [exact Hno|]. split; [reflexivity|]. split.
  - apply (unmatched_identifier_not_found limit store_date "7" "new@x.com" 7 quiet eq_refl);
      [exact Hno | reflexivity].
  - split; [reflexivity|]. split; [now left|]. split; [reflexivity|].
    split; [reflexivity|].
    apply (unmatched_identifier_not_found limit store_date "1" "new@x.com" 1 quiet eq_refl)
      with (r := ada); [now left | reflexivity | reflexivity].
Defined.

(** C2.  The date check of [addStudent] lets through a text that is not of
    the shape YYYY-MM-DD: [strptime] reads "2023-09- 1", with a blank in
    the place of a digit, as the first of September.  The text goes to the
    store, which refuses it, and the operator gets the line of a store
    failure instead of the "Invalid date format" line. *)
Theorem blank_padded_day_passes_validation :
  ~ strict_date (list_ascii_of_string "2023-09- 1")
  /\ strptime limit "2023-09- 1" = Some (mkDate 2023 9 1)
  /\ store_date "2023-09- 1" = None
  /\ addStudent limit store_date "Grace" "Hopper" "grace@x.com" "2023-09- 1" quiet
     = (Return tt,
        mkWorld table None [] []
          [Call Connect;
           Call (Execute (InsertStudent "Grace" "Hopper" "grace@x.com" "2023-09- 1"));
           Call (Release false); Out (msg_add_failed invalid_date)])
  /\ msg_add_failed invalid_date <> msg_invalid_date.
Proof.
  split; [|split; [reflexivity|split; [reflexivity|split; [reflexivity|]]]].
  - intros (y & m & dd & Hw & (Hy & Hm & Hd & _ & _ & Dd) & _).
    unfold written in Hw.
    destruct y as [|y1 [|y2 [|y3 [|y4 [|]]]]]; try discriminate Hy.
    destruct m as [|m1 [|m2 [|]]]; try discriminate Hm.
    destruct dd as [|d1 [|d2 [|]]]; try discriminate Hd.
    cbn in Hw. injection Hw as _ _ _ _ _ _ <- <-. discriminate Dd.
  - intros H. apply (f_equal (String.get 9)) in H. discriminate H.
Qed.

Lemma create_validates_before_store_witness :
  strptime limit "09/01/2023" = None
  /\ addStudent limit store_date "Grace" "Hopper" "grace@x.com" "09/01/2023" quiet
     = (Return tt, emit (Out msg_invalid_date) quiet).
Proof.
  split; [reflexivity|].
  apply (create_validates_before_store limit store_date "Grace" "Hopper" "grace@x.com"
           "09/01/2023" quiet). reflexivity.
Defined.

Lemma identifier_parsed_before_store_witness :
  py_int limit "3.5" = None
  /\ updateStudentEmail limit store_date "3.5" "new@x.com" quiet
     = (Return tt, emit (Out msg_invalid_id) quiet)
  /\ deleteStudent limit store_date "3.5" quiet
     = (Return tt, emit (Out msg_invalid_id) quiet).
Proof.
  split; [reflexivity|].
  apply (identifier_parsed_before_store limit store_date "3.5" "new@x.com" quiet).
  reflexivity.
Defined.

Lemma store_errors_reported_witness :
  strptime limit "2023-09-01" = Some (mkDate 2023 9 1)
  /\ store_date "2023-09-01" = Some (mkDate 2023 9 1)
  /\ has_nul "Ada" = false /\ has_nul "Byron" = false /\ has_nul "ada@x.com" = false
  /\ existsb (has_email "ada@x.com") (rows (store quiet)) = true
  /\ calm 3 (faults quiet) = true
  /\ (exists w',
        addStudent limit store_date "Ada" "Byron" "ada@x.com" "2023-09-01" quiet
        = (Return tt, w')
        /\ extends quiet w'
             [Call Connect;
              Call (Execute (InsertStudent "Ada" "Byron" "ada@x.com" "2023-09-01"));
              Call (Release false); Out msg_duplicate_email]
        /\ rows (store w') = rows (store quiet))
  /\ addStudent_store store_date "Ada" "Byron" "ada@x.com" "2023-09-01"
       (at_rest [] [Some refused])
     = (Raise (PgError refused),
        mkWorld table None [] [] [Call Connect])
  /\ addStudent limit store_date "Ada" "Byron" "ada@x.com" "2023-09-01"
       (at_rest [] [Some refused])
     = (Return tt,
        emit (Out (msg_add_failed refused)) (mkWorld table None [] [] [Call Connect])).
Proof.
  split; [reflexivity|]. split; [reflexivity|]. split; [reflexivity|].
  split; [reflexivity|]. split; [reflexivity|]. split; [reflexivity|].
  split; [reflexivity|]. split.
  - apply (store_errors_reported limit store_date "Ada" "Byron" "ada@x.com" "2023-09-01"
             "1" "new@x.com" quiet quiet refused)
      with (dt := mkDate 2023 9 1) (dt' := mkDate 2023 9 1); reflexivity.
  - split; [reflexivity|].
    apply (store_errors_reported limit store_date "Ada" "Byron" "ada@x.com" "2023-09-01"
             "1" "new@x.com" (at_rest [] [Some refused])
             (mkWorld table None [] [] [Call Connect]) refused)
      with (dt := mkDate 2023 9 1); reflexivity.
Defined.

(** C6.  A turn of the menu that runs the create on an email with NUL in
    it does not come back to the menu: [cur.execute] raises [ValueError],
    no [except] clause of [addStudent] takes it, and [menu] ends with it,
    the next line of the terminal unread and no line printed, where the
    table of transitions says [AwaitingChoice].  A turn that runs the
    update on that email ends the menu in the same way. *)
Theorem nul_email_leaves_the_menu_loop :
  next_state (strip "2") = AwaitingChoice
  /\ menu_turn limit store_date
       (at_rest ["2"; "Grace"; "Hopper"; nul_email; "1906-12-09"; "0"] [])
     = (Raise ValueError,
        mkWorld table None [] ["0"]
          (menu_lines
           ++ [Prompt "Choose an option: "; Prompt "First name: ";
               Prompt "Last name: "; Prompt "Email: ";
               Prompt "Enrollment date (YYYY-MM-DD): ";
               Call Connect; Call (Release false)])%list)
  /\ menu limit store_date
       (at_rest ["2"; "Grace"; "Hopper"; nul_email; "1906-12-09"; "0"] [])
     = Some (Raise ValueError,
             mkWorld table None [] ["0"]
               (menu_lines
                ++ [Prompt "Choose an option: "; Prompt "First name: ";
                    Prompt "Last name: "; Prompt "Email: ";
                    Prompt "Enrollment date (YYYY-MM-DD): ";
                    Call Connect; Call (Release false)])%list)
  /\ next_state (strip "3") = AwaitingChoice
  /\ menu_turn limit store_date (at_rest ["3"; "1"; nul_email; "0"] [])
     = (Raise ValueError,
        mkWorld table None [] ["0"]
          (menu_lines
           ++ [Prompt "Choose an option: "; Prompt "Student ID: ";
               Prompt "New email: "; Call Connect; Call (Release false)])%list)
  /\ menu limit store_date (at_rest ["3"; "1"; nul_email; "0"] [])
     = Some (Raise ValueError,
             mkWorld table None [] ["0"]
               (menu_lines
                ++ [Prompt "Choose an option: "; Prompt "Student ID: ";
                    Prompt "New email: "; Call Connect; Call (Release false)])%list).
Proof. repeat split; vm_compute; reflexivity. Qed.

(** C7.  An error inside an operation that ends the program: [addStudent]
    on a last name with NUL in it raises the [ValueError] of [cur.execute]
    through its two [except] clauses, and the program started on these
    lines ends with that error in its first turn, without a printed line
    for it and with the rest of the input unread.  [updateStudentEmail]
    on an email with NUL in it raises in the same way. *)
Theorem nul_field_ends_the_program :
  addStudent limit store_date "Grace" nul_name "grace@x.com" "1906-12-09" quiet
  = (Raise ValueError,
     mkWorld table None [] [] [Call Connect; Call (Release false)])
  /\ main limit store_date
       (at_rest ["2"; "Grace"; nul_name; "grace@x.com"; "1906-12-09"; "1"; "0"] [])
     = Some (Raise ValueError,
             mkWorld table None [] ["1"; "0"]
               ([Call Connect; Call (Release true)] ++ menu_lines
                ++ [Prompt "Choose an option: "; Prompt "First name: ";
                    Prompt "Last name: "; Prompt "Email: ";
                    Prompt "Enrollment date (YYYY-MM-DD): ";
                    Call Connect; Call (Release false)])%list)
  /\ updateStudentEmail limit store_date "1" nul_email quiet
     = (Raise ValueError,
        mkWorld table None [] [] [Call Connect; Call (Release false)]).
Proof. repeat split; vm_compute; reflexivity. Qed.

Lemma update_changes_only_the_email_witness :
  updateStudentEmail limit store_date "2" "alan@bletchley.uk" quiet
  = (Return tt,
     mkWorld (mkDatabase [ada; set_email "alan@bletchley.uk" alan] 3) None [] []
       [Call Connect; Call (Execute (UpdateEmail "alan@bletchley.uk" 2));
        Call Commit; Out msg_updated; Call (Release true)])
  /\ In (Out msg_updated)
        [Call Connect; Call (Execute (UpdateEmail "alan@bletchley.uk" 2));
         Call Commit; Out msg_updated; Call (Release true)]
  /\ exists n pre r post,
       py_int limit "2" = Some n
       /\ rows (store quiet) = (pre ++ r :: post)%list
       /\ student_id r = n
       /\ (forall x, In x (pre ++ post)%list -> student_id x <> n)
       /\ [ada; set_email "alan@bletchley.uk" alan]
          = (pre ++ mkStudent (student_id r) (first_name r) (last_name r)
                      "alan@bletchley.uk" (enrollment_date r) :: post)%list
       /\ 3 = next_id (store quiet).
Proof.
  split; [reflexivity|]. split; [cbn; auto 6|].
  apply (update_changes_only_the_email limit store_date "2" "alan@bletchley.uk" quiet
           (mkWorld (mkDatabase [ada; set_email "alan@bletchley.uk" alan] 3) None [] []
              [Call Connect; Call (Execute (UpdateEmail "alan@bletchley.uk" 2));
               Call Commit; Out msg_updated; Call (Release true)])
           [Call Connect; Call (Execute (UpdateEmail "alan@bletchley.uk" 2));
            Call Commit; Out msg_updated; Call (Release true)]);
    [reflexivity | reflexivity | cbn; auto 6].
Defined.

Lemma operator_input_is_stripped_witness :
  stdin (at_rest ["2"; " Grace "; "Hopper"; "  grace@x.com  "; "1906-12-09 "] [])
  = ["2"; " Grace "; "Hopper"; "  grace@x.com  "; "1906-12-09 "]%string
  /\ strip "2" = "2"%string
  /\ strptime limit (strip "1906-12-09 ") = Some (mkDate 1906 12 9)
  /\ store_date (strip "1906-12-09 ") = Some (mkDate 1906 12 9)
  /\ has_nul (strip " Grace ") = false /\ has_nul (strip "Hopper") = false
  /\ has_nul (strip "  grace@x.com  ") = false
  /\ exists w',
       menu_turn limit store_date
         (at_rest ["2"; " Grace "; "Hopper"; "  grace@x.com  "; "1906-12-09 "] [])
       = (Return Continue, w')
       /\ rows (store w')
          = [ada; alan; mkStudent 3 "Grace" "Hopper" "grace@x.com" (mkDate 1906 12 9)].
Proof.
  split; [reflexivity|]. split; [reflexivity|]. split; [reflexivity|].
  split; [reflexivity|]. split; [reflexivity|]. split; [reflexivity|].
  split; [reflexivity|].
  apply (operator_input_is_stripped limit store_date
           (at_rest ["2"; " Grace "; "Hopper"; "  grace@x.com  "; "1906-12-09 "] [])
           "2" [" Grace "; "Hopper"; "  grace@x.com  "; "1906-12-09 "] eq_refl)
    with (f := " Grace ") (l := "Hopper") (e := "  grace@x.com  ")
         (d := "1906-12-09 ") (rest' := []) (dt0 := mkDate 1906 12 9)
         (dt := mkDate 1906 12 9); reflexivity.
Defined.

Lemma signed_and_grouped_identifiers_accepted_witness :
  unsigned_decimal (list_ascii_of_string "42")
  /\ exceeds_limit limit (String.length "42") = false
  /\ py_int limit "42" = Some (decimal_value (list_ascii_of_string "42"))
  /\ py_int limit "-5" = Some (-5)
  /\ calm 1 (faults quiet) = true
  /\ exists w' more,
       deleteStudent limit store_date "-5" quiet = (Return tt, w')
       /\ extends quiet w' (Call Connect :: Call (Execute (DeleteStudent (-5))) :: more).
Proof.
  assert (Hu : unsigned_decimal (list_ascii_of_string "42")).
  { split; [discriminate | reflexivity]. }
  split; [exact Hu|]. split; [reflexivity|]. split.
  - apply (signed_and_grouped_identifiers_accepted limit store_date "new@x.com" quiet);
      [exact Hu | reflexivity].
  - split; [reflexivity|]. split; [reflexivity|].
    apply (signed_and_grouped_identifiers_accepted limit store_date "new@x.com" quiet)
      with (sid := "-5") (n := -5); reflexivity.
Defined.

(** ** Sample runs *)

Example int_samples :
  map (py_int limit)
      ["42"; " -5 "; "+42"; "1_000"; "abc"; "3.5"; EmptyString; "_1"; "1__0"; "1_";
       "+"; "1 2"; "--1"]
  = [Some 42; Some (-5); Some 42; Some 1000; None; None; None; None; None; None;
     None; None; None].
Proof. reflexivity. Qed.

Example strptime_samples :
  map (strptime limit)
      ["2023-09-01"; "2023-9-1"; "2023-09- 1"; "2024-02-29"; "2023-02-29";
       "2023-13-01"; "09/01/2023"; EmptyString; "0000-01-01"; "2023-09-011";
       "2023-09-32"; " 2023-09-01"; "2023-00-10"; "2023-1-00"]
  = [Some (mkDate 2023 9 1); Some (mkDate 2023 9 1); Some (mkDate 2023 9 1);
     Some (mkDate 2024 2 29); None; None; None; None; None; None; None; None;
     None; None].
Proof. reflexivity. Qed.

Example strip_samples :
  map strip ["  a b  "; " 0 "; "x"; "   "] = ["a b"; "0"; "x"; EmptyString].
Proof. reflexivity. Qed.

Example str_samples :
  (map str_of_int [0; 7; -12; 1000], str_of_date (mkDate 843 9 1))
  = (["0"; "7"; "-12"; "1000"], "0843-09-01").
Proof. reflexivity. Qed.

(** The session of section 8: the row is listed with its first email, then
    with the second, and is gone in the end; the last list finds no row. *)
Example end_to_end :
  option_map
    (fun r => (fst r, rows (store (snd r)), stdin (snd r),
               shows "1 | Ada | Lovelace | ada@x.com | 1843-12-10" (snd r),
               shows "1 | Ada | Lovelace | ada2@x.com | 1843-12-10" (snd r),
               shows msg_deleted (snd r), shows (nl ++ "No students found." ++ nl) (snd r),
               shows msg_goodbye (snd r)))
    (main limit store_date fresh)
  = Some (Return tt, [], [], true, true, true, true, true).
Proof. vm_compute. reflexivity. Qed.

(** * Further properties of the operations *)

Local Close Scope string_scope.

(** ** Listing *)

Lemma insert_by_id_perm r l : Permutation (insert_by_id r l) (r :: l).
Proof.
  induction l as [|x l IH]; cbn [insert_by_id]; [reflexivity|].
  destruct (student_id r <? student_id x); [reflexivity|].
  rewrite IH. apply perm_swap.
Qed.

Lemma order_by_id_perm l : Permutation (order_by_id l) l.
Proof.
  induction l as [|r l IH]; cbn; [reflexivity|].
  fold (order_by_id l). rewrite insert_by_id_perm. now constructor.
Qed.

Lemma insert_by_id_sorted r l :
  Sorted by_id l -> Sorted by_id (insert_by_id r l).
Proof.
  induction l as [|x l IH]; cbn [insert_by_id]; intros Hs.
  - repeat constructor.
  - destruct (Z.ltb_spec (student_id r) (student_id x)) as [Hlt|Hge].
    + constructor; [exact Hs|]. constructor. unfold by_id. lia.
    + inversion Hs as [|? ? Hs' Hhd]; subst. constructor; [now apply IH|].
      destruct l as [|y l]; cbn [insert_by_id].
      * constructor. unfold by_id. lia.
      * destruct (student_id r <? student_id y); constructor.
        -- unfold by_id. lia.
        -- now inversion Hhd.
Qed.

Lemma order_by_id_sorted l : Sorted by_id (order_by_id l).
Proof.
  induction l as [|r l IH]; cbn; [constructor|].
  fold (order_by_id l). now apply insert_by_id_sorted.
Qed.

Section Listing.

Variable date_in : string -> option date.

Lemma print_rows_run l w :
  for_each print_row (map tuple_of l) w
  = (Return tt,
     mkWorld (store w) (session w) (faults w) (stdin w)
             (trace w ++ map (fun r => Out (row_line r)) l)).
Proof.
  revert w. induction l as [|r l IH]; intros w; cbn [map for_each].
  - destruct w. unfold ret. cbn. now rewrite app_nil_r.
  - unfold bind. cbn [tuple_of print_row]. unfold print at 1. rewrite IH.
    cbn [emit store session faults stdin trace]. rewrite <- app_assoc. reflexivity.
Qed.

(** What [getAllStudents] does when the store answers. *)
Lemma getAllStudents_run w :
  calm 3 (faults w) = true ->
  getAllStudents date_in w
  = (Return tt,
     mkWorld (store w) None (skipn 3 (faults w)) (stdin w)
             (trace w ++ [Call Connect; Call (Execute SelectAll)]
              ++ listing (order_by_id (rows (store w))) ++ [Call (Release true)])).
Proof.
  intros Hc. destruct w as [[rws seq] ses fl inp tr].
  cbn [store rows faults stdin trace] in *. unfold getAllStudents.
  calm_cases Hc.
  all: unfold_py; cbv beta iota delta [run_sql]; unfold_py; cbn [results].
  all: destruct (order_by_id rws) as [|r l] eqn:E; cbn [map listing].
  all: try (unfold_py; cbn [skipn]; rewrite <- ?app_assoc; reflexivity).
  all: unfold_py; change (tuple_of r :: map tuple_of l) with (map tuple_of (r :: l)).
  all: rewrite print_rows_run; unfold_py; cbn [skipn map app].
  all: repeat rewrite <- app_assoc; reflexivity.
Qed.

End Listing.

(** ** Every path of an operation *)

Section Paths.

Variable lim : nat.
Variable date_in : string -> option date.

Lemma zero_hits n v :
  length (filter (has_id n) v) = 0%nat -> forall r, In r v -> student_id r <> n.
Proof.
  intros H r Hin Hid. apply (hit_filter n v r Hin Hid).
  now destruct (filter (has_id n) v).
Qed.

Lemma some_hit n v :
  length (filter (has_id n) v) <> 0%nat -> exists r, In r v /\ student_id r = n.
Proof.
  destruct (filter (has_id n) v) as [|r l] eqn:E; [intros H; now contradiction H|].
  intros _.
  assert (H : In r (filter (has_id n) v)) by (rewrite E; now left).
  apply filter_In in H as [Hin Hid]. exists r. split; [exact Hin|].
  now apply Z.eqb_eq.
Qed.

Lemma run_delete_inv n v seq r seq' :
  run_sql date_in (DeleteStudent n) v seq = (r, seq') ->
  seq' = seq
  /\ r = inr (mkCursor (Z.of_nat (length (filter (has_id n) v))) [],
              filter (fun x => negb (has_id n x)) v).
Proof. cbn [run_sql]. intros H. injection H as <- <-. auto. Qed.

Lemma run_update_cases e n v seq r seq' :
  run_sql date_in (UpdateEmail e n) v seq = (r, seq') ->
  seq' = seq
  /\ match r with
     | inl x => x = unique_violation
     | inr (cur, v') =>
         rowcount cur = Z.of_nat (length (filter (has_id n) v))
         /\ v' = map (fun x => if has_id n x then set_email e x else x) v
         /\ (length (filter (has_id n) v) <> 0%nat ->
             length (filter (has_id n) v) = 1%nat
             /\ existsb (has_email e) (filter (fun x => negb (has_id n x)) v) = false)
     end.
Proof.
  unfold run_sql. set (hit := filter (has_id n) v).
  destruct (negb (length hit =? 0)%nat && _) eqn:C; intros H; injection H as <- <-.
  - auto.
  - split; [reflexivity|]. split; [reflexivity|]. split; [reflexivity|]. intros Hne.
    apply andb_false_iff in C as [C|C].
    + apply negb_false_iff, Nat.eqb_eq in C. congruence.
    + apply orb_false_iff in C as [C1 C2]. apply Nat.ltb_ge in C2. split; [lia | exact C1].
Qed.

(** The error a printed line reports: the one named in the generic line,
    or a uniqueness violation for the duplicate-email line. *)
Ltac give_error generic :=
  first [ match goal with |- context [Out (generic ?r)] => exists r end
        | exists unique_violation ].

(** What follows the end of the block, read off the events. *)
Ltac give_tail :=
  eexists; split; [cbn [app]; reflexivity|];
  split; [first [left; reflexivity | right; eexists; reflexivity]|].

(** The ways [deleteStudent] can go, with what each prints, calls and
    leaves in the store. *)
Lemma deleteStudent_paths sid w :
  exists w' added,
    deleteStudent lim date_in sid w = (Return tt, w')
    /\ extends w w' added /\ stdin w' = stdin w
    /\ ((py_int lim sid = None /\ added = [Out msg_invalid_id]
         /\ store w' = store w /\ session w' = session w)
        \/ exists n, py_int lim sid = Some n
           /\ ((exists x, added = [Call Connect; Out (msg_delete_failed x)]
                          /\ store w' = store w /\ session w' = session w)
               \/ (exists x, added = [Call Connect; Call (Execute (DeleteStudent n));
                                     Call (Release false); Out (msg_delete_failed x)]
                             /\ store w' = store w /\ session w' = None)
               \/ (exists tail,
                     added = [Call Connect; Call (Execute (DeleteStudent n));
                                 Out msg_not_found; Call (Release true)] ++ tail
                     /\ exit_report msg_delete_failed tail
                     /\ store w' = store w /\ session w' = None
                     /\ forall r, In r (rows (store w)) -> student_id r <> n)
               \/ (exists x, added = [Call Connect; Call (Execute (DeleteStudent n));
                                     Call Commit; Call (Release false);
                                     Out (msg_delete_failed x)]
                             /\ store w' = store w /\ session w' = None)
               \/ (exists tail,
                     added = [Call Connect; Call (Execute (DeleteStudent n));
                                 Call Commit; Out msg_deleted; Call (Release true)]
                                ++ tail
                     /\ exit_report msg_delete_failed tail
                     /\ store w'
                        = mkDatabase
                            (filter (fun r => negb (has_id n r)) (rows (store w)))
                            (next_id (store w))
                     /\ session w' = None
                     /\ exists r, In r (rows (store w)) /\ student_id r = n))).
Proof.
  destruct w as [[rws seq] ses fl inp tr]. unfold deleteStudent, int.
  destruct (py_int lim sid) as [n|] eqn:Hp.
  - run_py.
    all: repeat match goal with
         | H : run_sql _ (DeleteStudent _) _ _ = _ |- _ =>
             apply run_delete_inv in H; destruct H as [-> H]; try discriminate H;
             injection H as -> ->
         end.
    all: cbn [rowcount] in *.
    all: repeat match goal with
         | H : (Z.of_nat _ =? 0) = true |- _ => apply Z.eqb_eq in H
         | H : (Z.of_nat _ =? 0) = false |- _ => apply Z.eqb_neq in H
         end.
    all: do 2 eexists; split; [reflexivity|]; split; [give_trace|];
      split; [reflexivity|]; right; exists n; split; [reflexivity|].
    all: cbn [store rows next_id session].
    all: first
      [ solve [left; eexists; repeat split; reflexivity]
      | solve [right; left; eexists; repeat split; reflexivity]
      | solve [right; right; left; give_tail;
               assert (Hz : forall r, In r rws -> student_id r <> n)
                 by (apply zero_hits; lia);
               rewrite ?(no_hit_keep n rws Hz); repeat split; auto]
      | solve [right; right; right; left; eexists; repeat split; reflexivity]
      | solve [right; right; right; right; give_tail; repeat split;
               apply some_hit; lia] ].
  - unfold_py. do 2 eexists. split; [reflexivity|]. split; [give_trace|].
    split; [reflexivity|]. left. auto.
Qed.

(** The ways [updateStudentEmail] can go.  It returns on each of them but
    one: when the email holds NUL and the end of the block raises
    nothing, the [ValueError] of [execute] leaves the operation. *)
Lemma updateStudentEmail_paths sid e w :
  exists r w' added,
    updateStudentEmail lim date_in sid e w = (r, w')
    /\ extends w w' added /\ stdin w' = stdin w
    /\ ((py_int lim sid = None /\ r = Return tt /\ added = [Out msg_invalid_id]
         /\ store w' = store w /\ session w' = session w)
        \/ exists n, py_int lim sid = Some n
           /\ ((exists x, r = Return tt
                          /\ added = [Call Connect; Out (error_line msg_update_failed x)]
                          /\ store w' = store w /\ session w' = session w)
               \/ (has_nul e = true /\ store w' = store w /\ session w' = None
                   /\ ((r = Raise ValueError
                        /\ added = [Call Connect; Call (Release false)])
                       \/ exists y, r = Return tt
                             /\ added = [Call Connect; Call (Release false);
                                         Out (error_line msg_update_failed y)]))
               \/ (exists x, r = Return tt
                             /\ added = [Call Connect; Call (Execute (UpdateEmail e n));
                                         Call (Release false);
                                         Out (error_line msg_update_failed x)]
                             /\ store w' = store w /\ session w' = None)
               \/ (exists tail,
                     added = [Call Connect; Call (Execute (UpdateEmail e n));
                              Out msg_not_found; Call (Release true)] ++ tail
                     /\ exit_report (error_line msg_update_failed) tail
                     /\ r = Return tt
                     /\ store w' = store w /\ session w' = None
                     /\ forall x, In x (rows (store w)) -> student_id x <> n)
               \/ (exists x, r = Return tt
                             /\ added = [Call Connect; Call (Execute (UpdateEmail e n));
                                         Call Commit; Call (Release false);
                                         Out (error_line msg_update_failed x)]
                             /\ store w' = store w /\ session w' = None)
               \/ (exists tail,
                     added = [Call Connect; Call (Execute (UpdateEmail e n));
                              Call Commit; Out msg_updated; Call (Release true)] ++ tail
                     /\ exit_report (error_line msg_update_failed) tail
                     /\ r = Return tt
                     /\ store w'
                        = mkDatabase
                            (map (fun x => if has_id n x then set_email e x else x)
                                 (rows (store w)))
                            (next_id (store w))
                     /\ session w' = None
                     /\ length (filter (has_id n) (rows (store w))) = 1%nat
                     /\ existsb (has_email e)
                          (filter (fun x => negb (has_id n x)) (rows (store w)))
                        = false
                     /\ has_nul e = false))).
Proof.
  destruct w as [[rws seq] ses fl inp tr]. unfold updateStudentEmail, int.
  destruct (py_int lim sid) as [n|] eqn:Hp.
  - run_py.
    all: repeat match goal with
         | H : run_sql _ (UpdateEmail _ _) _ _ = _ |- _ =>
             apply run_update_cases in H; cbn beta iota in H; destruct H as [-> H]
         end.
    all: repeat match goal with
         | H : rowcount _ = _ /\ _ |- _ => destruct H as (Hrc & -> & Hone)
         end.
    all: repeat match goal with
         | Hrc : rowcount ?c = _, H : (rowcount ?c =? 0) = true |- _ =>
             rewrite Hrc in H; apply Z.eqb_eq in H
         | Hrc : rowcount ?c = _, H : (rowcount ?c =? 0) = false |- _ =>
             rewrite Hrc in H; apply Z.eqb_neq in H
         end.
    all: do 3 eexists; split; [reflexivity|]; split; [give_trace|];
      split; [reflexivity|]; right; exists n; split; [reflexivity|].
    all: cbn [store rows next_id session].
    all: try congruence.
    all: first
      [ solve [left; unfold error_line; give_error msg_update_failed;
               repeat split; reflexivity]
      | solve [right; left; split; [first [assumption | reflexivity]|];
               split; [reflexivity|];
               split; [reflexivity|];
               first [ left; split; reflexivity
                     | right; unfold error_line; give_error msg_update_failed;
                       split; reflexivity ]]
      | solve [right; right; left; unfold error_line; give_error msg_update_failed;
               repeat split; reflexivity]
      | solve [right; right; right; left;
               eexists; split; [cbn [app]; reflexivity|];
               split; [first [ left; reflexivity
                             | right; unfold error_line;
                               give_error msg_update_failed; reflexivity ]|];
               assert (Hz : forall x, In x rws -> student_id x <> n)
                 by (apply zero_hits; lia);
               rewrite ?(no_hit_map n e rws Hz); repeat split; auto]
      | solve [right; right; right; right; left; unfold error_line;
               give_error msg_update_failed; repeat split; reflexivity]
      | solve [right; right; right; right; right;
               eexists; split; [cbn [app]; reflexivity|];
               split; [first [ left; reflexivity
                             | right; unfold error_line;
                               give_error msg_update_failed; reflexivity ]|];
               destruct Hone as [H1 H2]; [lia|]; repeat split; auto] ].
  - unfold_py. do 3 eexists. split; [reflexivity|]. split; [give_trace|].
    split; [reflexivity|]. left. auto.
Qed.

Lemma run_insert_cases first last mail txt v seq r seq' :
  run_sql date_in (InsertStudent first last mail txt) v seq = (r, seq') ->
  match r with
  | inl x => (x = invalid_date /\ seq' = seq) \/ (x = unique_violation /\ seq' = seq + 1)
  | inr (cur, v') =>
      seq' = seq + 1 /\ cur = mkCursor 1 [[PInt seq]]
      /\ exists dt, date_in txt = Some dt
           /\ v' = v ++ [mkStudent seq first last mail dt]
           /\ existsb (has_id seq) v = false /\ existsb (has_email mail) v = false
  end.
Proof.
  unfold run_sql. destruct (date_in txt) as [dt|].
  - destruct (existsb (has_id seq) v) eqn:Hi; cbn [orb];
      [|destruct (existsb (has_email mail) v) eqn:He];
      intros H; injection H as <- <-; eauto 8.
  - intros H; injection H as <- <-. auto.
Qed.

(** The ways [addStudent] can go.  It returns on each of them but one:
    when a field holds NUL and the end of the block raises nothing, the
    [ValueError] of [execute] leaves the operation. *)
Lemma addStudent_paths first last mail date_str w :
  exists r w' added,
    addStudent lim date_in first last mail date_str w = (r, w')
    /\ extends w w' added /\ stdin w' = stdin w
    /\ ((strptime lim date_str = None /\ r = Return tt
         /\ added = [Out msg_invalid_date]
         /\ store w' = store w /\ session w' = session w)
        \/ (strptime lim date_str <> None
            /\ ((exists x, r = Return tt
                           /\ added = [Call Connect; Out (error_line msg_add_failed x)]
                           /\ store w' = store w /\ session w' = session w)
                \/ ((has_nul first || has_nul last || has_nul mail) = true
                    /\ store w' = store w /\ session w' = None
                    /\ ((r = Raise ValueError
                         /\ added = [Call Connect; Call (Release false)])
                        \/ exists y, r = Return tt
                              /\ added = [Call Connect; Call (Release false);
                                          Out (error_line msg_add_failed y)]))
                \/ (exists x,
                      r = Return tt
                      /\ added = [Call Connect;
                                  Call (Execute (InsertStudent first last mail date_str));
                                  Call (Release false); Out (error_line msg_add_failed x)]
                      /\ rows (store w') = rows (store w)
                      /\ next_id (store w) <= next_id (store w') <= next_id (store w) + 1
                      /\ session w' = None)
                \/ (exists x,
                      r = Return tt
                      /\ added = [Call Connect;
                                  Call (Execute (InsertStudent first last mail date_str));
                                  Call Commit; Call (Release false);
                                  Out (error_line msg_add_failed x)]
                      /\ rows (store w') = rows (store w)
                      /\ next_id (store w') = next_id (store w) + 1
                      /\ session w' = None)
                \/ (exists dt tail,
                      added = [Call Connect;
                               Call (Execute (InsertStudent first last mail date_str));
                               Call Commit; Out (msg_added (PInt (next_id (store w))));
                               Call (Release true)] ++ tail
                      /\ exit_report (error_line msg_add_failed) tail
                      /\ r = Return tt
                      /\ store w'
                         = mkDatabase
                             (rows (store w)
                              ++ [mkStudent (next_id (store w)) first last mail dt])
                             (next_id (store w) + 1)
                      /\ session w' = None
                      /\ date_in date_str = Some dt
                      /\ existsb (has_id (next_id (store w))) (rows (store w)) = false
                      /\ existsb (has_email mail) (rows (store w)) = false)))).
Proof.
  destruct w as [[rws seq] ses fl inp tr]. unfold addStudent, py_strptime.
  destruct (strptime lim date_str) as [dt0|] eqn:Hv.
  - pose proof (strptime_no_nul _ _ _ Hv) as Hd.
    run_py.
    all: repeat match goal with
         | H : run_sql _ (InsertStudent _ _ _ _) _ _ = (inr _, _) |- _ =>
             apply run_insert_cases in H; cbn beta iota in H;
             destruct H as (-> & -> & dt & Hdt & -> & Hi & He)
         | H : run_sql _ (InsertStudent _ _ _ _) _ _ = (inl _, _) |- _ =>
             apply run_insert_cases in H; cbn beta iota in H;
             destruct H as [[H ->]|[H ->]]
         end.
    all: cbn [results] in *; try discriminate.
    all: repeat match goal with H : _ :: _ = _ :: _ |- _ => injection H as <- <- end.
    all: repeat match goal with
         | H : (_ || has_nul ?d) = true, Hd : has_nul ?d = false |- _ =>
             rewrite Hd, orb_false_r in H
         end.
    all: do 3 eexists; split; [reflexivity|]; split; [give_trace|];
      split; [reflexivity|]; right; split; [discriminate|].
    all: cbn [store rows next_id session].
    all: first
      [ solve [left; unfold error_line; give_error msg_add_failed;
               repeat split; reflexivity]
      | solve [right; left; split; [assumption|];
               split; [reflexivity|]; split; [reflexivity|];
               first [ left; split; reflexivity
                     | right; unfold error_line; give_error msg_add_failed;
                       split; reflexivity ]]
      | solve [right; right; left; unfold error_line; give_error msg_add_failed;
               repeat split; first [reflexivity | lia]]
      | solve [right; right; right; left; unfold error_line;
               give_error msg_add_failed; repeat split; first [reflexivity | lia]]
      | solve [right; right; right; right; exists dt;
               eexists; split; [cbn [app]; reflexivity|];
               split; [first [ left; reflexivity
                             | right; unfold error_line;
                               give_error msg_add_failed; reflexivity ]|];
               repeat split; auto] ].
  - unfold_py. do 3 eexists. split; [reflexivity|]. split; [give_trace|].
    split; [reflexivity|]. left. auto.
Qed.

End Paths.
(** ** What the operations do, and what they never do *)

Section MoreProperties.

Variable lim : nat.
Variable date_in : string -> option date.

Lemma store_calls_app a b : store_calls (a ++ b) = store_calls a ++ store_calls b.
Proof. unfold store_calls. apply flat_map_app. Qed.

Lemma store_calls_lines l : store_calls (map (fun r => Out (row_line r)) l) = [].
Proof. induction l as [|r l IH]; cbn; auto. Qed.

Lemma store_calls_listing l : store_calls (listing l) = [].
Proof.
  destruct l as [|r l]; [reflexivity|]. unfold listing.
  rewrite !store_calls_app, store_calls_lines. reflexivity.
Qed.

(** What [getAllStudents] does when the store answers the select and the
    end of the block fails: the rows are printed, then the error line. *)
Lemma getAllStudents_exit_fails w y fs :
  faults w = None :: None :: Some y :: fs ->
  getAllStudents date_in w
  = (Return tt,
     mkWorld (store w) None fs (stdin w)
             (trace w ++ ([Call Connect; Call (Execute SelectAll)]
              ++ listing (order_by_id (rows (store w))) ++ [Call (Release true)])
              ++ [Out (msg_fetch_failed y)])).
Proof.
  destruct w as [[rws seq] ses fl inp tr].
  cbn [store rows faults stdin trace]. intros ->. unfold getAllStudents.
  unfold_py; cbv beta iota delta [run_sql]; unfold_py; cbn [results].
  destruct (order_by_id rws) as [|r l] eqn:E; cbn [map listing].
  - unfold_py. cbn [app]. rewrite <- ?app_assoc. reflexivity.
  - unfold_py. change (tuple_of r :: map tuple_of l) with (map tuple_of (r :: l)).
    rewrite print_rows_run. unfold_py. cbn [map app].
    repeat rewrite <- app_assoc. reflexivity.
Qed.

(** The ways [getAllStudents] can go. *)
Lemma getAllStudents_paths w :
  exists w' added,
    getAllStudents date_in w = (Return tt, w')
    /\ extends w w' added /\ stdin w' = stdin w /\ store w' = store w
    /\ ((exists x, added = [Call Connect; Out (msg_fetch_failed x)]
                   /\ session w' = session w)
        \/ (exists x, added = [Call Connect; Call (Execute SelectAll);
                              Call (Release false); Out (msg_fetch_failed x)]
                      /\ session w' = None)
        \/ (exists tail,
              added = ([Call Connect; Call (Execute SelectAll)]
                       ++ listing (order_by_id (rows (store w)))
                       ++ [Call (Release true)]) ++ tail
              /\ exit_report msg_fetch_failed tail
              /\ session w' = None)).
Proof.
  destruct (calm 3 (faults w)) eqn:Hc.
  - rewrite (getAllStudents_run date_in w Hc). do 2 eexists.
    split; [reflexivity|]. split; [reflexivity|]. cbn [stdin store session].
    do 2 (split; [reflexivity|]). right. right. exists [].
    split; [now rewrite app_nil_r|]. split; [now left | reflexivity].
  - destruct w as [db ses fl inp tr]. cbn [faults] in Hc.
    destruct fl as [|[x|] fl]; [discriminate Hc| |].
    + rewrite (getAllStudents_no_connection date_in
                 (mkWorld db ses (Some x :: fl) inp tr) x fl eq_refl).
      do 2 eexists. split; [reflexivity|]. split; [reflexivity|].
      cbn [stdin store session]. eauto 6.
    + destruct fl as [|[x|] fl]; [discriminate Hc| |].
      * destruct db as [rws seq]. unfold getAllStudents.
        destruct fl as [|[y|] fl]; unfold_py.
        all: do 2 eexists; split; [reflexivity|]; split; [give_trace|].
        all: cbn [stdin store session]; eauto 8.
      * destruct fl as [|[y|] fl]; [discriminate Hc| |discriminate Hc].
        rewrite (getAllStudents_exit_fails
                   (mkWorld db ses (None :: None :: Some y :: fl) inp tr) y fl eq_refl).
        do 2 eexists. split; [reflexivity|]. split; [reflexivity|].
        cbn [stdin store session]. do 2 (split; [reflexivity|]). right. right.
        exists [Out (msg_fetch_failed y)].
        split; [reflexivity|]. split; [right; now exists y | reflexivity].
Qed.

(** X1.  On an empty table, when the store answers, [getAllStudents]
    prints the "No students found" notice and nothing else, and leaves the
    store as it was. *)
Theorem list_of_an_empty_table (w : World) :
  rows (store w) = [] -> calm 3 (faults w) = true ->
  exists w',
    getAllStudents date_in w = (Return tt, w')
    /\ extends w w' [Call Connect; Call (Execute SelectAll);
                     Out (nl ++ "No students found." ++ nl)%string;
                     Call (Release true)]
    /\ store w' = store w.
Proof.
  intros He Hc. rewrite (getAllStudents_run date_in w Hc), He.
  eexists. split; [reflexivity|]. split; reflexivity.
Qed.

(** X2.  On a table with rows, when the store answers, [getAllStudents]
    prints the heading, then one line per row of the table, each row once,
    in ascending order of [student_id], then an empty line. *)
Theorem list_prints_rows_in_key_order (w : World) :
  rows (store w) <> [] -> calm 3 (faults w) = true ->
  exists found w',
    Permutation found (rows (store w)) /\ Sorted by_id found
    /\ getAllStudents date_in w = (Return tt, w')
    /\ extends w w'
         ([Call Connect; Call (Execute SelectAll);
           Out (nl ++ "All Students:")%string;
           Out "ID | First Name | Last Name | Email | Enrollment Date"%string;
           Out (dashes 70)]
          ++ map (fun r => Out (row_line r)) found
          ++ [Out EmptyString; Call (Release true)])
    /\ store w' = store w.
Proof.
  intros Hne Hc. exists (order_by_id (rows (store w))).
  rewrite (getAllStudents_run date_in w Hc). eexists.
  split; [apply order_by_id_perm|]. split; [apply order_by_id_sorted|].
  split; [reflexivity|]. split; [|reflexivity].
  unfold extends. cbn [trace]. f_equal.
  destruct (order_by_id (rows (store w))) as [|r l] eqn:E.
  - exfalso. apply Hne. apply Permutation_nil. rewrite <- E.
    apply order_by_id_perm.
  - cbn [listing app]. rewrite <- !app_assoc. reflexivity.
Qed.

(** X3.  Whatever the store does, [getAllStudents] returns with the store
    and the terminal input as they were; it opens at most one connection,
    sends at most the select, and never calls [conn.commit()]. *)
Theorem list_never_changes_the_store (w : World) :
  exists w' added,
    getAllStudents date_in w = (Return tt, w')
    /\ extends w w' added
    /\ store w' = store w /\ stdin w' = stdin w
    /\ In (store_calls added)
          [[Connect]; [Connect; Execute SelectAll; Release false];
           [Connect; Execute SelectAll; Release true]]
    /\ ~ In Commit (store_calls added).
Proof.
  destruct (getAllStudents_paths w) as (w' & added & Hrun & Hext & Hin & Hst & Hp).
  exists w', added. repeat (split; [assumption|]).
  destruct Hp as [(x & -> & _)|[(x & -> & _)|(tail & -> & Ht & _)]].
  - split; [now left|]. cbn. intuition discriminate.
  - split; [right; now left|]. cbn. intuition discriminate.
  - rewrite !store_calls_app, store_calls_listing.
    destruct Ht as [->|[y ->]]; cbn; (split; [auto|]); intuition discriminate.
Qed.


Lemma extends_unique w w' a b : extends w w' a -> extends w w' b -> a = b.
Proof. unfold extends. intros Ha Hb. rewrite Ha in Hb. now apply app_inv_head in Hb. Qed.

(** X4.  Each of [addStudent], [updateStudentEmail] and [deleteStudent]
    makes its calls to the store in one of seven ways: none at all, one
    refused connection, or one connection, at most its one statement, at
    most one commit after it, and the end of the block.  With a refused
    identifier no call is made.  No connection is left open.
    [deleteStudent] always returns; the other two return or raise
    [ValueError], and they return when no text parameter holds NUL. *)
Theorem operations_follow_the_call_protocol
    (first last mail date_str sid new_email : string) (w : World) :
  (exists r w' added,
     addStudent lim date_in first last mail date_str w = (r, w')
     /\ (r = Return tt \/ r = Raise ValueError)
     /\ ((has_nul first || has_nul last || has_nul mail) = false -> r = Return tt)
     /\ extends w w' added
     /\ In (store_calls added) (protocol (InsertStudent first last mail date_str))
     /\ (session w = None -> session w' = None))
  /\ (exists r w' added,
     updateStudentEmail lim date_in sid new_email w = (r, w')
     /\ (r = Return tt \/ r = Raise ValueError)
     /\ (has_nul new_email = false -> r = Return tt)
     /\ extends w w' added
     /\ match py_int lim sid with
        | Some n => In (store_calls added) (protocol (UpdateEmail new_email n))
        | None => store_calls added = []
        end
     /\ (session w = None -> session w' = None))
  /\ (exists w' added,
     deleteStudent lim date_in sid w = (Return tt, w')
     /\ extends w w' added
     /\ match py_int lim sid with
        | Some n => In (store_calls added) (protocol (DeleteStudent n))
        | None => store_calls added = []
        end
     /\ (session w = None -> session w' = None)).
Proof.
  split; [|split].
  - destruct (addStudent_paths lim date_in first last mail date_str w)
      as (r & w' & added & Hrun & Hext & _ & Hp).
    exists r, w', added. split; [exact Hrun|].
    destruct Hp as [(_ & -> & -> & _ & Hs)|(_ & [(x & -> & -> & _ & Hs)
      |[(Hn & _ & Hs & [(-> & ->)|(y & -> & ->)])
      |[(x & -> & -> & _ & _ & Hs)
      |[(x & -> & -> & _ & _ & Hs)|(dt & tail & -> & Ht & -> & _ & Hs & _)]]]])];
      try destruct Ht as [->|[y ->]];
      (split; [auto|]); (split; [congruence|]); (split; [exact Hext|]);
      (split; [cbn; auto 8 | congruence]).
  - destruct (updateStudentEmail_paths lim date_in sid new_email w)
      as (r & w' & added & Hrun & Hext & _ & Hp).
    exists r, w', added. split; [exact Hrun|].
    destruct Hp as [(-> & -> & -> & _ & Hs)|(n & -> & [(x & -> & -> & _ & Hs)
      |[(Hn & _ & Hs & [(-> & ->)|(y & -> & ->)])
      |[(x & -> & -> & _ & Hs)
      |[(tail & -> & Ht & -> & _ & Hs & _)
      |[(x & -> & -> & _ & Hs)|(tail & -> & Ht & -> & _ & Hs & _)]]]]])];
      try destruct Ht as [->|[y ->]];
      (split; [auto|]); (split; [congruence|]); (split; [exact Hext|]);
      (split; [cbn; auto 8 | congruence]).
  - destruct (deleteStudent_paths lim date_in sid w)
      as (w' & added & Hrun & Hext & _ & Hp).
    exists w', added. split; [exact Hrun|]. split; [exact Hext|].
    destruct Hp as [(-> & -> & _ & Hs)|(n & -> & [(x & -> & _ & Hs)|[(x & -> & _ & Hs)
      |[(tail & -> & Ht & _ & Hs & _)|[(x & -> & _ & Hs)
      |(tail & -> & Ht & _ & Hs & _)]]]])];
      try destruct Ht as [->|[y ->]];
      (split; [cbn; auto 8 | congruence]).
Qed.

(** X5.  A call of [deleteStudent] that prints "Student deleted
    successfully" has read the identifier as some [n] that a row had; the
    table afterwards holds exactly the rows whose key is not [n], in their
    order, and the key sequence is as before. *)
Theorem delete_removes_only_that_row (sid : string) (w w' : World) (added : list event) :
  deleteStudent lim date_in sid w = (Return tt, w') ->
  extends w w' added -> In (Out msg_deleted) added ->
  exists n,
    py_int lim sid = Some n
    /\ (exists r, In r (rows (store w)) /\ student_id r = n)
    /\ rows (store w') = filter (fun r => negb (has_id n r)) (rows (store w))
    /\ (forall r, In r (rows (store w'))
                  <-> In r (rows (store w)) /\ student_id r <> n)
    /\ next_id (store w') = next_id (store w).
Proof.
  intros Hrun Hext Hin.
  destruct (deleteStudent_paths lim date_in sid w) as (w2 & added2 & Hrun2 & Hext2 & _ & Hp).
  rewrite Hrun in Hrun2. injection Hrun2 as <-.
  rewrite (extends_unique _ _ _ _ Hext Hext2) in Hin. clear Hext Hext2.
  destruct Hp as [(_ & -> & _)|(n & Hn & [(x & -> & _)|[(x & -> & _)
    |[(tail & -> & [->|[y ->]] & _)|[(x & -> & _)|(tail & -> & _ & Hst & _ & Hhit)]]]])];
    try (not_printed Hin; fail).
  exists n. rewrite Hst. cbn [rows next_id].
  split; [exact Hn|]. split; [exact Hhit|]. split; [reflexivity|].
  split; [|reflexivity].
  intros r. rewrite filter_In. unfold has_id. rewrite negb_true_iff, Z.eqb_neq. tauto.
Qed.

(** X6.  A call of [updateStudentEmail] that does not print "Email updated
    successfully", and a call of [deleteStudent] that does not print
    "Student deleted successfully", leave the store exactly as it was:
    refused identifier, refused connection, failed statement, no matching
    row, and failed commit alike. *)
Theorem failed_change_leaves_the_store (sid new_email : string) (w w' : World)
    (added : list event) :
  (updateStudentEmail lim date_in sid new_email w = (Return tt, w') ->
   extends w w' added -> ~ In (Out msg_updated) added -> store w' = store w)
  /\ (deleteStudent lim date_in sid w = (Return tt, w') ->
      extends w w' added -> ~ In (Out msg_deleted) added -> store w' = store w).
Proof.
  split; intros Hrun Hext Hno.
  - destruct (updateStudentEmail_paths lim date_in sid new_email w)
      as (r2 & w2 & added2 & Hrun2 & Hext2 & _ & Hp).
    rewrite Hrun in Hrun2. injection Hrun2 as <- <-.
    rewrite (extends_unique _ _ _ _ Hext Hext2) in Hno.
    destruct Hp as [(_ & _ & _ & Hs & _)|(n & _ & [(x & _ & _ & Hs & _)
      |[(_ & Hs & _)|[(x & _ & _ & Hs & _)
      |[(tail & _ & _ & _ & Hs & _)|[(x & _ & _ & Hs & _)|(tail & -> & _)]]]]])]; auto.
    exfalso. apply Hno. cbn. auto 6.
  - destruct (deleteStudent_paths lim date_in sid w)
      as (w2 & added2 & Hrun2 & Hext2 & _ & Hp).
    rewrite Hrun in Hrun2. injection Hrun2 as <-.
    rewrite (extends_unique _ _ _ _ Hext Hext2) in Hno.
    destruct Hp as [(_ & _ & Hs & _)|(n & _ & [(x & _ & Hs & _)|[(x & _ & Hs & _)
      |[(tail & _ & _ & Hs & _)|[(x & _ & Hs & _)|(tail & -> & _)]]]])]; auto.
    exfalso. apply Hno. cbn. auto 6.
Qed.

End MoreProperties.
(** ** The shape of the table *)

Lemma NoDup_map_filter {A B : Type} (f : A -> B) (p : A -> bool) l :
  NoDup (map f l) -> NoDup (map f (filter p l)).
Proof.
  induction l as [|a l IH]; cbn; [auto|]. intros H. inversion H as [|? ? Hn Hd]; subst.
  destruct (p a); cbn; [|auto]. constructor; [|auto].
  intros Hin. apply Hn. apply in_map_iff in Hin as (x & Hx & Hf).
  apply in_map_iff. exists x. split; [exact Hx|]. now apply filter_In in Hf.
Qed.

Lemma not_among (k : Student -> bool) l :
  existsb k l = false -> forall r, In r l -> k r = false.
Proof.
  intros H r Hin. destruct (k r) eqn:E; [|reflexivity].
  rewrite <- H. symmetry. apply existsb_exists. eauto.
Qed.

Lemma well_formed_later rws seq seq' :
  well_formed (mkDatabase rws seq) -> seq <= seq' -> well_formed (mkDatabase rws seq').
Proof.
  intros (Hi & He & Hb) Hle. repeat split; auto. cbn [rows next_id] in *.
  eapply Forall_impl; [|exact Hb]. cbn. intros. lia.
Qed.

Lemma well_formed_insert rws seq first last mail dt :
  well_formed (mkDatabase rws seq) ->
  existsb (has_id seq) rws = false -> existsb (has_email mail) rws = false ->
  well_formed (mkDatabase (rws ++ [mkStudent seq first last mail dt]) (seq + 1)).
Proof.
  intros (Hi & He & Hb) Hni Hne. cbn [rows next_id] in *. repeat split; cbn [rows next_id].
  - rewrite map_app. cbn [map student_id].
    apply (Permutation_NoDup (Permutation_cons_append _ _)). constructor; [|exact Hi].
    intros Hin. apply in_map_iff in Hin as (r & Hr & Hin).
    pose proof (not_among (has_id seq) rws Hni r Hin) as H.
    unfold has_id in H. apply Z.eqb_neq in H. congruence.
  - rewrite map_app. cbn [map email].
    apply (Permutation_NoDup (Permutation_cons_append _ _)). constructor; [|exact He].
    intros Hin. apply in_map_iff in Hin as (r & Hr & Hin).
    pose proof (not_among (has_email mail) rws Hne r Hin) as H.
    unfold has_email in H. apply String.eqb_neq in H. congruence.
  - apply Forall_app. split.
    + eapply Forall_impl; [|exact Hb]. cbn. intros. lia.
    + repeat constructor. cbn. lia.
Qed.

Lemma keep_split n pre r post :
  student_id r = n -> (forall x, In x (pre ++ post) -> student_id x <> n) ->
  filter (fun x => negb (has_id n x)) (pre ++ r :: post) = pre ++ post.
Proof.
  intros Hr Hrest. rewrite filter_app. cbn [filter]. unfold has_id at 2.
  rewrite (proj2 (Z.eqb_eq _ _) Hr). cbn [negb].
  rewrite !no_hit_keep; [reflexivity | |]; intros x Hx; apply Hrest, in_or_app; auto.
Qed.

Lemma well_formed_update rws seq n e :
  well_formed (mkDatabase rws seq) ->
  length (filter (has_id n) rws) = 1%nat ->
  existsb (has_email e) (filter (fun r => negb (has_id n r)) rws) = false ->
  well_formed
    (mkDatabase (map (fun r => if has_id n r then set_email e r else r) rws) seq).
Proof.
  intros (Hi & He & Hb) Hone Hfree. cbn [rows next_id] in *.
  destruct (one_hit_split n rws Hone) as (pre & r & post & -> & Hr & Hrest).
  rewrite (update_split n e pre r post Hr Hrest).
  rewrite (keep_split n pre r post Hr Hrest) in Hfree.
  repeat split; cbn [rows next_id].
  - rewrite map_app in *. exact Hi.
  - rewrite map_app in *. cbn [map email set_email] in *.
    apply NoDup_remove_1 in He.
    apply (Permutation_NoDup (Permutation_middle _ _ _)). constructor; [|exact He].
    rewrite <- map_app. intros Hin. apply in_map_iff in Hin as (x & Hx & Hin).
    pose proof (not_among (has_email e) _ Hfree x Hin) as H.
    unfold has_email in H. apply String.eqb_neq in H. congruence.
  - apply Forall_app in Hb as [Hb1 Hb2]. inversion Hb2; subst.
    apply Forall_app. split; [exact Hb1|]. constructor; assumption.
Qed.

Lemma well_formed_delete rws seq n :
  well_formed (mkDatabase rws seq) ->
  well_formed (mkDatabase (filter (fun r => negb (has_id n r)) rws) seq).
Proof.
  intros (Hi & He & Hb). cbn [rows next_id] in *. repeat split; cbn [rows next_id].
  - now apply NoDup_map_filter.
  - now apply NoDup_map_filter.
  - apply Forall_forall. intros r Hr. apply filter_In in Hr as [Hr _].
    rewrite Forall_forall in Hb. now apply Hb.
Qed.

(** ** Runs that succeed, in full *)

Section Runs.

Variable lim : nat.
Variable date_in : string -> option date.

Ltac exact_run := cbn [skipn]; rewrite <- ?app_assoc; reflexivity.

Lemma addStudent_run first last mail date_str dt0 dt w :
  strptime lim date_str = Some dt0 -> date_in date_str = Some dt ->
  has_nul first = false -> has_nul last = false -> has_nul mail = false ->
  existsb (has_id (next_id (store w))) (rows (store w)) = false ->
  existsb (has_email mail) (rows (store w)) = false ->
  calm 4 (faults w) = true ->
  addStudent lim date_in first last mail date_str w
  = (Return tt,
     mkWorld
       (mkDatabase (rows (store w) ++ [mkStudent (next_id (store w)) first last mail dt])
                   (next_id (store w) + 1))
       None (skipn 4 (faults w)) (stdin w)
       (trace w ++ [Call Connect;
                    Call (Execute (InsertStudent first last mail date_str));
                    Call Commit; Out (msg_added (PInt (next_id (store w))));
                    Call (Release true)])).
Proof.
  intros Hv Hd H1 H2 H3 Hi He Hc.
  pose proof (strptime_no_nul _ _ _ Hv) as H4.
  destruct w as [[rws seq] ses fl inp tr].
  cbn [store rows faults next_id stdin trace] in *.
  unfold addStudent, py_strptime. rewrite Hv.
  calm_cases Hc.
  all: unfold_py; rewrite H1, H2, H3, H4; cbn [orb]; unfold_py;
    rewrite (run_insert_ok date_in first last mail date_str rws seq dt Hd Hi He);
    unfold_py; cbn [results]; unfold_py; exact_run.
Qed.

Lemma updateStudentEmail_run sid n e w :
  py_int lim sid = Some n -> has_nul e = false ->
  length (filter (has_id n) (rows (store w))) = 1%nat ->
  existsb (has_email e) (filter (fun r => negb (has_id n r)) (rows (store w))) = false ->
  calm 4 (faults w) = true ->
  updateStudentEmail lim date_in sid e w
  = (Return tt,
     mkWorld
       (mkDatabase (map (fun r => if has_id n r then set_email e r else r)
                        (rows (store w)))
                   (next_id (store w)))
       None (skipn 4 (faults w)) (stdin w)
       (trace w ++ [Call Connect; Call (Execute (UpdateEmail e n)); Call Commit;
                    Out msg_updated; Call (Release true)])).
Proof.
  intros Hp Hnul Hone Hfree Hc. destruct w as [[rws seq] ses fl inp tr].
  cbn [store rows faults next_id stdin trace] in *.
  unfold updateStudentEmail, int. rewrite Hp.
  assert (Hrun : run_sql date_in (UpdateEmail e n) rws seq
                 = (inr (mkCursor 1 [],
                         map (fun r => if has_id n r then set_email e r else r) rws),
                    seq)).
  { unfold run_sql. rewrite Hone, Hfree. reflexivity. }
  calm_cases Hc.
  all: unfold_py; rewrite Hnul; unfold_py; rewrite Hrun; unfold_py;
    cbn [rowcount Z.eqb]; unfold_py; exact_run.
Qed.

Lemma deleteStudent_run sid n w :
  py_int lim sid = Some n ->
  (exists r, In r (rows (store w)) /\ student_id r = n) ->
  calm 4 (faults w) = true ->
  deleteStudent lim date_in sid w
  = (Return tt,
     mkWorld
       (mkDatabase (filter (fun r => negb (has_id n r)) (rows (store w)))
                   (next_id (store w)))
       None (skipn 4 (faults w)) (stdin w)
       (trace w ++ [Call Connect; Call (Execute (DeleteStudent n)); Call Commit;
                    Out msg_deleted; Call (Release true)])).
Proof.
  intros Hp (r & Hin & Hid) Hc. destruct w as [[rws seq] ses fl inp tr].
  cbn [store rows faults next_id stdin trace] in *.
  unfold deleteStudent, int. rewrite Hp.
  destruct (run_delete_hit date_in n rws seq r Hin Hid) as (k & Hk & Hrun).
  apply Z.eqb_neq in Hk.
  calm_cases Hc.
  all: unfold_py; rewrite Hrun; unfold_py; cbn [rowcount]; rewrite Hk; unfold_py;
    exact_run.
Qed.

Lemma calm_less k j l : calm (k + j) l = true -> calm k l = true.
Proof. intros H. now apply (calm_split k j) in H. Qed.

(** What [addStudent] and [updateStudentEmail] do with a NUL in a text
    parameter when the store answers: the [ValueError] of [execute]
    leaves the block and the operation. *)
Lemma addStudent_nul_run first last mail date_str dt0 w :
  strptime lim date_str = Some dt0 ->
  (has_nul first || has_nul last || has_nul mail) = true ->
  calm 2 (faults w) = true ->
  addStudent lim date_in first last mail date_str w
  = (Raise ValueError,
     mkWorld (store w) None (skipn 2 (faults w)) (stdin w)
             (trace w ++ [Call Connect; Call (Release false)])).
Proof.
  intros Hv Hnul Hc. destruct w as [[rws seq] ses fl inp tr].
  cbn [store rows faults next_id stdin trace] in *.
  unfold addStudent, py_strptime. rewrite Hv.
  calm_cases Hc.
  all: unfold_py; rewrite Hnul; cbn [orb]; unfold_py; exact_run.
Qed.

Lemma updateStudentEmail_nul_run sid n e w :
  py_int lim sid = Some n -> has_nul e = true ->
  calm 2 (faults w) = true ->
  updateStudentEmail lim date_in sid e w
  = (Raise ValueError,
     mkWorld (store w) None (skipn 2 (faults w)) (stdin w)
             (trace w ++ [Call Connect; Call (Release false)])).
Proof.
  intros Hp Hnul Hc. destruct w as [[rws seq] ses fl inp tr].
  cbn [store rows faults next_id stdin trace] in *.
  unfold updateStudentEmail, int. rewrite Hp.
  calm_cases Hc.
  all: unfold_py; rewrite Hnul; unfold_py; exact_run.
Qed.

End Runs.

(** ** Invariants and compositions *)

Section Invariants.

Variable lim : nat.
Variable date_in : string -> option date.

Lemma well_formed_rows db db' :
  well_formed db -> rows db' = rows db -> next_id db <= next_id db' ->
  well_formed db'.
Proof.
  destruct db as [rws seq], db' as [rws' seq']. cbn [rows next_id].
  intros H -> Hle. now apply (well_formed_later rws seq seq').
Qed.

Lemma keeps_getAllStudents : keeps_well_formed (getAllStudents date_in).
Proof.
  intros w H.
  destruct (getAllStudents_paths date_in w) as (w' & added & Hrun & _ & _ & Hst & _).
  rewrite Hrun. cbn [snd]. now rewrite Hst.
Qed.

Lemma keeps_addStudent first last mail date_str :
  keeps_well_formed (addStudent lim date_in first last mail date_str).
Proof.
  intros w H.
  destruct (addStudent_paths lim date_in first last mail date_str w)
    as (r & w' & added & -> & _ & _ & Hp). cbn [snd].
  destruct Hp as [(_ & _ & _ & -> & _)|(_ & [(x & _ & _ & -> & _)|[(_ & -> & _)
    |[(x & _ & _ & Hr & Hn & _)
    |[(x & _ & _ & Hr & Hn & _)|(dt & tail & _ & _ & _ & -> & _ & _ & Hi & He)]]]])];
    auto.
  - apply (well_formed_rows (store w)); auto; lia.
  - apply (well_formed_rows (store w)); auto; lia.
  - destruct (store w) as [rws seq]. now apply well_formed_insert.
Qed.

Lemma keeps_updateStudentEmail sid e :
  keeps_well_formed (updateStudentEmail lim date_in sid e).
Proof.
  intros w H.
  destruct (updateStudentEmail_paths lim date_in sid e w)
    as (r & w' & added & -> & _ & _ & Hp). cbn [snd].
  destruct Hp as [(_ & _ & _ & -> & _)|(n & _ & [(x & _ & _ & -> & _)|[(_ & -> & _)
    |[(x & _ & _ & -> & _)|[(tail & _ & _ & _ & -> & _)|[(x & _ & _ & -> & _)
    |(tail & _ & _ & _ & -> & _ & Hone & Hfree)]]]]])]; auto.
  destruct (store w) as [rws seq]. now apply well_formed_update.
Qed.

Lemma keeps_deleteStudent sid : keeps_well_formed (deleteStudent lim date_in sid).
Proof.
  intros w H.
  destruct (deleteStudent_paths lim date_in sid w)
    as (w' & added & -> & _ & _ & Hp). cbn [snd].
  destruct Hp as [(_ & _ & -> & _)|(n & _ & [(x & _ & -> & _)|[(x & _ & -> & _)
    |[(tail & _ & _ & -> & _)|[(x & _ & -> & _)|(tail & _ & _ & -> & _)]]]])]; auto.
  destruct (store w) as [rws seq]. now apply well_formed_delete.
Qed.

(** X7.  Each operation keeps the table well formed: keys without
    repetition, emails without repetition, every key below the next value
    of the sequence.  This holds for every argument and whatever the store
    does. *)
Theorem operations_keep_the_table_well_formed
    (first last mail date_str sid new_email : string) (w : World) :
  well_formed (store w) ->
  well_formed (store (snd (getAllStudents date_in w)))
  /\ well_formed (store (snd (addStudent lim date_in first last mail date_str w)))
  /\ well_formed (store (snd (updateStudentEmail lim date_in sid new_email w)))
  /\ well_formed (store (snd (deleteStudent lim date_in sid w))).
Proof.
  intros H. split; [|split; [|split]].
  - now apply keeps_getAllStudents.
  - now apply keeps_addStudent.
  - now apply keeps_updateStudentEmail.
  - now apply keeps_deleteStudent.
Qed.

Lemma keeps_bind {A B : Type} (m : Py A) (f : A -> Py B) :
  keeps_well_formed m -> (forall a, keeps_well_formed (f a)) ->
  keeps_well_formed (bind m f).
Proof.
  intros Hm Hf w H. unfold bind. specialize (Hm w H).
  destruct (m w) as [[a|e] w1]; cbn [snd] in *; [now apply Hf | exact Hm].
Qed.

Lemma keeps_ret {A : Type} (a : A) : keeps_well_formed (ret a).
Proof. intros w H. exact H. Qed.

Lemma keeps_print line : keeps_well_formed (print line).
Proof. intros w H. exact H. Qed.

Lemma keeps_input_strip msg : keeps_well_formed (input_strip msg).
Proof.
  intros w H. rewrite input_strip_run. destruct (stdin w); exact H.
Qed.

Lemma keeps_dispatch choice : keeps_well_formed (dispatch lim date_in choice).
Proof.
  unfold dispatch.
  repeat match goal with
         | |- context [if ?b then _ else _] => destruct b
         end;
    repeat (apply keeps_bind; [apply keeps_input_strip | intros ?]);
    (apply keeps_bind; [|intros ?; apply keeps_ret]).
  - exact (keeps_getAllStudents).
  - intros w. apply keeps_addStudent.
  - intros w. apply keeps_updateStudentEmail.
  - intros w. apply keeps_deleteStudent.
  - apply keeps_print.
  - apply keeps_print.
Qed.

Lemma keeps_print_menu : keeps_well_formed print_menu.
Proof.
  unfold print_menu.
  repeat (apply keeps_bind; [apply keeps_print | intros _]). apply keeps_print.
Qed.

Lemma keeps_menu_turn : keeps_well_formed (menu_turn lim date_in).
Proof.
  unfold menu_turn.
  apply keeps_bind; [apply keeps_print_menu | intros _].
  apply keeps_bind; [apply keeps_input_strip | intros choice].
  apply keeps_dispatch.
Qed.

Lemma menu_loop_keeps fuel w r w' :
  well_formed (store w) -> menu_loop lim date_in fuel w = Some (r, w') ->
  well_formed (store w').
Proof.
  revert w. induction fuel as [|fuel IH]; intros w H; cbn [menu_loop]; [discriminate|].
  pose proof (keeps_menu_turn w H) as Hk.
  destruct (menu_turn lim date_in w) as [[[|]|e] w1]; cbn [snd] in Hk.
  - now apply IH.
  - intros E. now injection E as <- <-.
  - intros E. now injection E as <- <-.
Qed.

(** X8.  The whole program keeps the table well formed: whatever the
    operator types and whatever the store does, a table that was well
    formed when the program started is well formed when it ends. *)
Theorem program_keeps_the_table_well_formed (w w' : World) (r : outcome unit) :
  well_formed (store w) -> main lim date_in w = Some (r, w') ->
  well_formed (store w').
Proof.
  intros H. destruct (calm 2 (faults w)) eqn:Hc.
  - rewrite (main_connected lim date_in w Hc). unfold menu.
    apply menu_loop_keeps. exact H.
  - destruct w as [db ses fl inp tr]. cbn [faults] in Hc.
    destruct fl as [|[x|] fl]; [discriminate Hc| |].
    + rewrite (main_no_connection lim date_in
                 (mkWorld db ses (Some x :: fl) inp tr) x fl eq_refl).
      intros E. injection E as <- <-. exact H.
    + destruct fl as [|[y|] fl]; [discriminate Hc| |discriminate Hc].
      rewrite (main_not_released lim date_in
                 (mkWorld db ses (None :: Some y :: fl) inp tr) y fl eq_refl).
      intros E. injection E as <- <-. exact H.
Qed.

End Invariants.

(** ** [str] and [int] on integers *)

Lemma uint_digits d :
  forallb is_digit (list_ascii_of_string (NilEmpty.string_of_uint d)) = true.
Proof. induction d; cbn [NilEmpty.string_of_uint list_ascii_of_string forallb]; auto. Qed.

Lemma uint_value_from d acc :
  fold_left (fun a c => 10 * a + digit_value c)
            (list_ascii_of_string (NilEmpty.string_of_uint d)) (Z.pos acc)
  = Z.pos (Pos.of_uint_acc d acc).
Proof.
  revert acc.
  induction d as [|d IH|d IH|d IH|d IH|d IH|d IH|d IH|d IH|d IH|d IH]; intros acc;
    cbn [NilEmpty.string_of_uint list_ascii_of_string fold_left Pos.of_uint_acc];
    [reflexivity|..];
    rewrite <- IH; f_equal;
    match goal with
    | |- context [digit_value ?c] =>
        let v := eval vm_compute in (digit_value c) in
        change (digit_value c) with v
    end; lia.
Qed.

Lemma uint_value d :
  decimal_value (list_ascii_of_string (NilEmpty.string_of_uint d))
  = Z.of_N (Pos.of_uint d).
Proof.
  unfold decimal_value.
  induction d as [|d IH|d IH|d IH|d IH|d IH|d IH|d IH|d IH|d IH|d IH];
    cbn [NilEmpty.string_of_uint list_ascii_of_string fold_left Pos.of_uint];
    [reflexivity | exact IH | ..];
    cbn [N2Z.inj Z.of_N]; rewrite <- uint_value_from; reflexivity.
Qed.

(** A number written without a leading zero is at least the power of ten
    of its length. *)
Lemma decimal_value_from_lower s acc :
  forallb is_digit s = true -> 0 <= acc ->
  acc * 10 ^ Z.of_nat (length s)
  <= fold_left (fun a c => 10 * a + digit_value c) s acc.
Proof.
  revert acc. induction s as [|c s IH]; intros acc Hd Hacc.
  - cbn. lia.
  - cbn [forallb] in Hd. apply andb_true_iff in Hd as [Hc Hs].
    cbn [fold_left length]. apply in_range_iff in Hc.
    assert (H0 : 0 <= 10 * acc + digit_value c) by (unfold digit_value; lia).
    specialize (IH _ Hs H0).
    rewrite Nat2Z.inj_succ, Z.pow_succ_r by lia.
    assert (Hp : 0 <= 10 ^ Z.of_nat (length s)) by (apply Z.pow_nonneg; lia).
    unfold digit_value in *. nia.
Qed.

Lemma to_uint_head p d : Pos.to_uint p <> Decimal.D0 d.
Proof.
  intros E. pose proof (DecimalPos.Unsigned.to_of (Pos.to_uint p)) as H.
  rewrite DecimalPos.Unsigned.of_to in H. cbn [N.to_uint] in H.
  unfold Decimal.unorm in H.
  destruct (Decimal.nzhead (Pos.to_uint p)) eqn:En;
    try (rewrite E in H; discriminate H).
  - symmetry in H. now apply (DecimalPos.Unsigned.to_uint_nonzero p).
  - now apply DecimalFacts.nzhead_nonzero in En.
Qed.

(** The decimal text of a positive number: digits only, the number as
    value, and not longer than the number is large. *)
Lemma pos_text p :
  let s := list_ascii_of_string (NilEmpty.string_of_uint (Pos.to_uint p)) in
  unsigned_decimal s /\ decimal_value s = Z.pos p
  /\ (Z.pos p < 10 ^ 640 -> (length s <= 640)%nat).
Proof.
  intros s. assert (Hv : decimal_value s = Z.pos p).
  { unfold s. now rewrite uint_value, DecimalPos.Unsigned.of_to. }
  assert (Hd : forallb is_digit s = true) by apply uint_digits.
  split; [split; [|exact Hd] | split; [exact Hv|]].
  - unfold s. pose proof (DecimalPos.Unsigned.to_uint_nonnil p).
    destruct (Pos.to_uint p); [congruence | discriminate ..].
  - intros Hlt. rewrite <- Hv in Hlt. clear Hv.
    destruct (Nat.le_gt_cases (length s) 640) as [Hle|Hgt]; [exact Hle|exfalso].
    pose proof (to_uint_head p) as Hh.
    pose proof (DecimalPos.Unsigned.to_uint_nonnil p) as Hn.
    unfold s in *. clear s.
    destruct (Pos.to_uint p) as [|d|d|d|d|d|d|d|d|d|d];
      [congruence | now apply (Hh d) | ..];
      cbn [NilEmpty.string_of_uint list_ascii_of_string forallb length] in *;
      apply andb_true_iff in Hd as [_ Hd];
      unfold decimal_value in Hlt; cbn [fold_left] in Hlt;
      match type of Hlt with
      | context [digit_value ?c] =>
          let v := eval vm_compute in (digit_value c) in
          change (digit_value c) with v in Hlt
      end;
      match type of Hlt with
      | fold_left _ ?r ?a < _ =>
          pose proof (decimal_value_from_lower r a Hd ltac:(lia)) as Hlow;
          assert (Hpow : 10 ^ 640 <= 10 ^ Z.of_nat (length r))
            by (apply Z.pow_le_mono_r; lia);
          assert (0 < 10 ^ 640) by (apply Z.pow_pos_nonneg; lia);
          nia
      end.
Qed.

Lemma int_of_text_negative lim s :
  unsigned_decimal s -> exceeds_limit lim (length s) = false ->
  int_of_text lim ("-"%char :: s) = Some (- decimal_value s).
Proof.
  intros [Hne Hd] Hlim. unfold int_of_text, to_ascii.
  cbn [forallb]. rewrite (forallb_digit_ascii _ Hd).
  change (code "-" <? 128) with true. cbn [andb].
  change (skip_spaces ("-"%char :: s)) with ("-"%char :: s).
  unfold read_signed. change (split_sign ("-"%char :: s)) with (true, s).
  destruct s as [|c r]; [congruence|].
  pose proof Hd as Hd'. simpl in Hd'. apply andb_true_iff in Hd' as [Hc Hr].
  unfold read_magnitude.
  rewrite (digit_not_char "_" c Hc eq_refl), (scan_digits_all _ Hd).
  cbn [skip_spaces]. unfold count_digits. rewrite (filter_all_true _ _ Hd), Hlim.
  now rewrite (digits_value_decimal _ Hd).
Qed.

(** [int(str(n))] is [n], for every integer of at most 640 digits. *)
Lemma int_of_str lim n :
  Z.abs n < 10 ^ 640 -> py_int lim (str_of_int n) = Some n.
Proof.
  intros Hn. unfold py_int, str_of_int. destruct n as [|p|p].
  - apply (int_of_text_unsigned lim ["0"%char]); [split; [discriminate | reflexivity]|].
    now apply exceeds_limit_short; cbn; lia.
  - cbn [Z.to_int NilZero.string_of_int].
    destruct (pos_text p) as (Hu & Hv & Hl).
    assert (E : NilZero.string_of_uint (Pos.to_uint p)
                = NilEmpty.string_of_uint (Pos.to_uint p)).
    { pose proof (DecimalPos.Unsigned.to_uint_nonnil p).
      destruct (Pos.to_uint p); [congruence | reflexivity ..]. }
    rewrite E, int_of_text_unsigned, Hv; [reflexivity | exact Hu |].
    apply exceeds_limit_short, Hl. exact Hn.
  - cbn [Z.to_int NilZero.string_of_int list_ascii_of_string].
    destruct (pos_text p) as (Hu & Hv & Hl).
    assert (E : NilZero.string_of_uint (Pos.to_uint p)
                = NilEmpty.string_of_uint (Pos.to_uint p)).
    { pose proof (DecimalPos.Unsigned.to_uint_nonnil p).
      destruct (Pos.to_uint p); [congruence | reflexivity ..]. }
    rewrite E, int_of_text_negative, Hv; [reflexivity | exact Hu |].
    apply exceeds_limit_short, Hl. exact Hn.
Qed.

(** ** One operation after another *)

Lemma insert_by_id_last x m r :
  student_id x < student_id r ->
  insert_by_id x (m ++ [r]) = insert_by_id x m ++ [r].
Proof.
  intros Hlt. induction m as [|y m IH]; cbn [app insert_by_id].
  - now rewrite (proj2 (Z.ltb_lt _ _) Hlt).
  - destruct (student_id x <? student_id y); [reflexivity|]. now rewrite IH.
Qed.

(** A row whose key is above all the others is the last of the select. *)
Lemma order_by_id_last l r :
  Forall (fun x => student_id x < student_id r) l ->
  order_by_id (l ++ [r]) = order_by_id l ++ [r].
Proof.
  unfold order_by_id. induction l as [|x l IH]; intros H; [reflexivity|].
  inversion H as [|? ? Hx Hl]; subst. cbn [app fold_right].
  rewrite (IH Hl). now apply insert_by_id_last.
Qed.

Lemma below_is_fresh seq rws :
  Forall (fun r => student_id r < seq) rws -> existsb (has_id seq) rws = false.
Proof.
  intros H. destruct (existsb (has_id seq) rws) eqn:E; [|reflexivity].
  apply existsb_exists in E as (r & Hin & Hr). rewrite Forall_forall in H.
  specialize (H r Hin). unfold has_id in Hr. apply Z.eqb_eq in Hr. lia.
Qed.

Lemma listing_last l r :
  listing (l ++ [r])
  = [Out (nl ++ "All Students:")%string;
     Out "ID | First Name | Last Name | Email | Enrollment Date"%string;
     Out (dashes 70)]
    ++ map (fun x => Out (row_line x)) l ++ [Out (row_line r); Out EmptyString].
Proof.
  unfold listing. destruct (l ++ [r]) as [|a t] eqn:E.
  - now destruct l.
  - rewrite <- E, map_app, <- app_assoc. reflexivity.
Qed.


Lemma one_hit_of_key n v r :
  NoDup (map student_id v) -> In r v -> student_id r = n ->
  length (filter (has_id n) v) = 1%nat.
Proof.
  induction v as [|a v IH]; cbn [map filter In]; [tauto|].
  intros Hnd [<-|Hin] Hid; inversion Hnd as [|? ? Hna Hnd']; subst.
  - unfold has_id at 1. rewrite Z.eqb_refl. cbn [length]. f_equal.
    rewrite no_hit_filter; [reflexivity|]. intros x Hx E. apply Hna.
    rewrite <- E. now apply in_map.
  - unfold has_id at 1. destruct (Z.eqb_spec (student_id a) (student_id r)) as [E|_];
      [|now apply IH].
    exfalso. apply Hna. rewrite E. now apply in_map.
Qed.

Lemma email_free_iff (p : Student -> bool) e v :
  existsb (has_email e) (filter p v) = false
  <-> forall r, In r v -> email r = e -> p r = false.
Proof.
  split.
  - intros H r Hin He. destruct (p r) eqn:Hp; [|reflexivity].
    rewrite <- H. symmetry. apply existsb_exists. exists r. split.
    + apply filter_In. auto.
    + unfold has_email. now apply String.eqb_eq.
  - intros H. destruct (existsb _ _) eqn:E; [|reflexivity].
    apply existsb_exists in E as (r & Hin & He). apply filter_In in Hin as [Hin Hp].
    unfold has_email in He. apply String.eqb_eq in He.
    rewrite (H r Hin He) in Hp. discriminate Hp.
Qed.

Lemma filter_all {A : Type} (l : list A) : filter (fun _ => true) l = l.
Proof. induction l as [|a l IH]; cbn; [reflexivity | now rewrite IH]. Qed.

(** The lines of success are not lines of error. *)
Ltac not_a_success Hin :=
  exfalso; cbn [In app] in Hin;
  repeat (destruct Hin as [Hin|Hin]; [try discriminate Hin|]); try exact Hin;
  injection Hin as Hin;
  try match type of Hin with
      | context [error_line _ ?x] => destruct x as [[|] ? ?]
      end;
  cbv in Hin; discriminate Hin.

Section Compositions.

Variable lim : nat.
Variable date_in : string -> option date.

(** X9.  On a well-formed table, when the date is valid, no field holds
    NUL, the email is new and the store answers, [addStudent] stores the
    row under a key that no row had, and a [getAllStudents] that follows
    prints the rows that were there, in key order, and then the new row as
    the last line. *)
Theorem created_row_is_listed_last
    (first last mail date_str : string) (dt0 dt : date) (w : World) :
  well_formed (store w) ->
  strptime lim date_str = Some dt0 -> date_in date_str = Some dt ->
  has_nul first = false -> has_nul last = false -> has_nul mail = false ->
  existsb (has_email mail) (rows (store w)) = false ->
  calm 7 (faults w) = true ->
  let r := mkStudent (next_id (store w)) first last mail dt in
  exists w1 w2,
    addStudent lim date_in first last mail date_str w = (Return tt, w1)
    /\ (forall x, In x (rows (store w)) -> student_id x <> student_id r)
    /\ rows (store w1) = rows (store w) ++ [r]
    /\ getAllStudents date_in w1 = (Return tt, w2)
    /\ extends w1 w2
         ([Call Connect; Call (Execute SelectAll);
           Out (nl ++ "All Students:")%string;
           Out "ID | First Name | Last Name | Email | Enrollment Date"%string;
           Out (dashes 70)]
          ++ map (fun x => Out (row_line x)) (order_by_id (rows (store w)))
          ++ [Out (row_line r); Out EmptyString; Call (Release true)])
    /\ store w2 = store w1.
Proof.
  intros (Hi & He & Hb) Hv Hd H1 H2 H3 Hmail Hc r.
  apply (calm_split 4 3) in Hc as [Hc1 Hc2].
  pose proof (below_is_fresh _ _ Hb) as Hfresh.
  pose proof (addStudent_run lim date_in first last mail date_str dt0 dt w
                Hv Hd H1 H2 H3 Hfresh Hmail Hc1) as Hrun1.
  eexists. eexists. split; [exact Hrun1|].
  split.
  { intros x Hin. rewrite Forall_forall in Hb. specialize (Hb x Hin). cbn. lia. }
  split; [reflexivity|].
  rewrite getAllStudents_run by exact Hc2.
  split; [reflexivity|]. split; [|reflexivity].
  unfold extends. cbn [trace store rows]. f_equal.
  fold r. rewrite order_by_id_last by exact Hb.
  rewrite listing_last. rewrite <- !app_assoc. reflexivity.
Qed.

(** X10.  Updating is idempotent: after a call of [updateStudentEmail]
    that printed "Email updated successfully", the same call again, when
    the store answers, succeeds again and leaves the store as the first
    call left it. *)
Theorem update_is_idempotent (sid new_email : string) (w w1 : World)
    (added : list event) :
  updateStudentEmail lim date_in sid new_email w = (Return tt, w1) ->
  extends w w1 added -> In (Out msg_updated) added ->
  calm 4 (faults w1) = true ->
  exists n w2,
    py_int lim sid = Some n
    /\ updateStudentEmail lim date_in sid new_email w1 = (Return tt, w2)
    /\ extends w1 w2 [Call Connect; Call (Execute (UpdateEmail new_email n));
                      Call Commit; Out msg_updated; Call (Release true)]
    /\ store w2 = store w1.
Proof.
  intros Hrun Hext Hin Hc.
  destruct (updateStudentEmail_paths lim date_in sid new_email w)
    as (r' & w' & added' & Hrun' & Hext' & _ & Hcases).
  rewrite Hrun in Hrun'. injection Hrun' as <- <-.
  rewrite (extends_unique _ _ _ _ Hext' Hext) in Hcases. clear Hext'.
  destruct Hcases as [(_ & _ & -> & _)|(n & Hp & Hcases)].
  { exfalso. destruct Hin as [E|[]]. discriminate E. }
  assert (Hok : store w1
                = mkDatabase
                    (map (fun r => if has_id n r then set_email new_email r else r)
                         (rows (store w)))
                    (next_id (store w))
                /\ length (filter (has_id n) (rows (store w))) = 1%nat
                /\ existsb (has_email new_email)
                     (filter (fun r => negb (has_id n r)) (rows (store w))) = false
                /\ has_nul new_email = false).
  { destruct Hcases as [(x & _ & -> & _)|[(_ & _ & _ & [(E & _)|(x & _ & ->)])
      |[(x & _ & -> & _)|[(tail & -> & [->|[x ->]] & _)|[(x & _ & -> & _)|
        (tail & _ & _ & _ & Hst & _ & Hone & Hfree & Hnul)]]]]]; [..|auto];
      try discriminate E; not_a_success Hin. }
  destruct Hok as (Hst & Hone & Hfree & Hnul).
  set (f := fun r => if has_id n r then set_email new_email r else r) in *.
  assert (Hid : forall r, has_id n (f r) = has_id n r).
  { intros r. unfold f. destruct (has_id n r) eqn:E; [|exact E]. exact E. }
  assert (Hhit : forall l, filter (has_id n) (map f l) = map f (filter (has_id n) l)).
  { induction l as [|a l IH]; cbn [map filter]; [reflexivity|].
    rewrite Hid. destruct (has_id n a); cbn [map]; now rewrite IH. }
  assert (Hrest : forall l, filter (fun r => negb (has_id n r)) (map f l)
                            = filter (fun r => negb (has_id n r)) l).
  { induction l as [|a l IH]; cbn [map filter]; [reflexivity|].
    rewrite Hid. destruct (has_id n a) eqn:E; cbn [negb]; rewrite IH; [reflexivity|].
    unfold f. now rewrite E. }
  assert (Hff : forall l, map f (map f l) = map f l).
  { intros l. rewrite map_map. apply map_ext. intros r. unfold f at 1.
    rewrite Hid. unfold f. destruct (has_id n r) eqn:E; [|reflexivity].
    now destruct r. }
  exists n. eexists. split; [exact Hp|].
  rewrite (updateStudentEmail_run lim date_in sid n new_email w1 Hp Hnul).
  - split; [reflexivity|]. split; [reflexivity|].
    cbn [store]. rewrite Hst. cbn [rows next_id]. fold f. now rewrite Hff.
  - rewrite Hst. cbn [rows]. fold f. now rewrite Hhit, length_map.
  - rewrite Hst. cbn [rows]. fold f. now rewrite Hrest.
  - exact Hc.
Qed.


(** X11.  When the terminal input ends before the menu has read the choice
    and the fields of the operation chosen, [menu] ends with the [EOFError]
    of [input]: the operation is not called, nothing but the menu and the
    prompts has been written, and the store, the connection state and the
    store's script are as they were. *)
Theorem end_of_input_abandons_the_operation (w : World) :
  stdin w = []
  \/ (exists line fields,
        stdin w = line :: fields
        /\ ((strip line = "2"%string /\ (length fields < 4)%nat)
            \/ (strip line = "3"%string /\ (length fields < 2)%nat)
            \/ (strip line = "4"%string /\ fields = []))) ->
  exists prompts,
    menu lim date_in w = Some (Raise EOFError, prompted w prompts []).
Proof.
  intros [Hnil|(line & fields & Hin & Hcase)].
  - exists ["Choose an option: "%string].
    destruct w as [db ses fl inp tr]. cbn [stdin] in Hnil. subst inp.
    unfold menu, prompted. cbn [stdin length menu_loop].
    unfold menu_turn, print_menu, input_strip, input. unfold_py.
    cbn [map]. unfold menu_lines. repeat rewrite <- app_assoc. reflexivity.
  - unfold menu. rewrite Hin. cbn [length menu_loop].
    rewrite (menu_turn_dispatch lim date_in w line fields Hin).
    destruct Hcase as [[-> Hl]|[[-> Hl]|[-> ->]]]; unfold dispatch;
      cbn [String.eqb Ascii.eqb Bool.eqb]; unfold bind.
    + destruct fields as [|f [|l [|e [|d rest]]]]; [..|cbn [length] in Hl; lia];
        rewrite ?prompted_read, input_strip_run; cbn [stdin];
        eexists; unfold prompted, emit;
        cbn [store session faults stdin trace];
        rewrite <- ?app_assoc;
        match goal with
        | |- context [[Prompt ?x]] => change [Prompt x] with (map Prompt [x])
        end;
        rewrite <- map_app; reflexivity.
    + destruct fields as [|f [|l rest]]; [..|cbn [length] in Hl; lia];
        rewrite ?prompted_read, input_strip_run; cbn [stdin];
        eexists; unfold prompted, emit;
        cbn [store session faults stdin trace];
        rewrite <- ?app_assoc;
        match goal with
        | |- context [[Prompt ?x]] => change [Prompt x] with (map Prompt [x])
        end;
        rewrite <- map_app; reflexivity.
    + rewrite input_strip_run; cbn [stdin];
        eexists; unfold prompted, emit;
        cbn [store session faults stdin trace];
        rewrite <- ?app_assoc;
        match goal with
        | |- context [[Prompt ?x]] => change [Prompt x] with (map Prompt [x])
        end;
        rewrite <- map_app; reflexivity.
Qed.

(** X12.  An identifier the program prints can be typed back: on a
    well-formed table when the store answers and no field holds NUL,
    [addStudent] prints the key of the new row, and [deleteStudent] on
    that printed key deletes that row and no other, so that the table
    holds the rows it held before. *)
Theorem create_then_delete_restores_the_rows
    (first last mail date_str : string) (dt0 dt : date) (w : World) :
  well_formed (store w) -> Z.abs (next_id (store w)) < 10 ^ 640 ->
  strptime lim date_str = Some dt0 -> date_in date_str = Some dt ->
  has_nul first = false -> has_nul last = false -> has_nul mail = false ->
  existsb (has_email mail) (rows (store w)) = false ->
  calm 8 (faults w) = true ->
  let key := PInt (next_id (store w)) in
  exists w1 w2,
    addStudent lim date_in first last mail date_str w = (Return tt, w1)
    /\ extends w w1 [Call Connect;
                     Call (Execute (InsertStudent first last mail date_str));
                     Call Commit; Out (msg_added key); Call (Release true)]
    /\ deleteStudent lim date_in (py_str key) w1 = (Return tt, w2)
    /\ extends w1 w2 [Call Connect; Call (Execute (DeleteStudent (next_id (store w))));
                      Call Commit; Out msg_deleted; Call (Release true)]
    /\ rows (store w2) = rows (store w).
Proof.
  intros Hwf Hbig Hv Hd H1 H2 H3 Hmail Hc key.
  pose proof Hwf as (Hi & He & Hb).
  apply (calm_split 4 4) in Hc as [Hc1 Hc2].
  pose proof (below_is_fresh _ _ Hb) as Hfresh.
  pose proof (addStudent_run lim date_in first last mail date_str dt0 dt w
                Hv Hd H1 H2 H3 Hfresh Hmail Hc1) as Hrun1.
  eexists. eexists. split; [exact Hrun1|]. split; [reflexivity|].
  assert (Hp : py_int lim (py_str key) = Some (next_id (store w))).
  { now apply int_of_str. }
  rewrite (deleteStudent_run lim date_in (py_str key) (next_id (store w)) _ Hp).
  - split; [reflexivity|]. split; [reflexivity|]. cbn [store rows].
    rewrite (keep_split (next_id (store w)) (rows (store w)) _ []); [apply app_nil_r | reflexivity |].
    rewrite app_nil_r. intros x Hin. rewrite Forall_forall in Hb.
    specialize (Hb x Hin). lia.
  - eexists. split; [cbn [store rows]; apply in_or_app; right; now left | reflexivity].
  - exact Hc2.
Qed.

(** X13.  When the store answers, on a well-formed table, the three
    operations that change the table, when they return, succeed exactly
    in these cases:
    [addStudent] prints "Student added" if and only if the date passes
    [strptime], the store reads it as a date, and no row has the email;
    [updateStudentEmail] prints "Email updated successfully" if and only
    if the identifier is read as the key of a row and no other row has the
    new email; [deleteStudent] prints "Student deleted successfully" if
    and only if the identifier is read as the key of a row. *)
Theorem changes_succeed_exactly_when
    (first last mail date_str sid new_email : string) (w : World) :
  well_formed (store w) -> calm 4 (faults w) = true ->
  (forall w' added,
     addStudent lim date_in first last mail date_str w = (Return tt, w') ->
     extends w w' added ->
     ((exists key, In (Out (msg_added key)) added)
      <-> strptime lim date_str <> None /\ date_in date_str <> None
          /\ (forall r, In r (rows (store w)) -> email r <> mail)))
  /\ (forall w' added,
     updateStudentEmail lim date_in sid new_email w = (Return tt, w') ->
     extends w w' added ->
     (In (Out msg_updated) added
      <-> exists n, py_int lim sid = Some n
            /\ (exists r, In r (rows (store w)) /\ student_id r = n)
            /\ (forall r, In r (rows (store w)) -> email r = new_email ->
                          student_id r = n)))
  /\ (forall w' added,
     deleteStudent lim date_in sid w = (Return tt, w') ->
     extends w w' added ->
     (In (Out msg_deleted) added
      <-> exists n, py_int lim sid = Some n
            /\ exists r, In r (rows (store w)) /\ student_id r = n)).
Proof.
  intros Hwf Hc. pose proof Hwf as (Hi & He & Hb).
  split; [|split]; intros w' added Hrun Hext.
  - destruct (addStudent_paths lim date_in first last mail date_str w)
      as (r1 & w1 & added1 & Hrun1 & Hext1 & _ & Hcases).
    rewrite Hrun in Hrun1. injection Hrun1 as <- <-.
    rewrite (extends_unique _ _ _ _ Hext1 Hext) in Hcases. clear Hext1.
    split.
    + intros (key & Hin).
      destruct Hcases as [(_ & _ & -> & _)|(Hv & Hcases)]; [not_a_success Hin|].
      destruct Hcases as [(x & _ & -> & _)|[(_ & _ & _ & [(E & _)|(x & _ & ->)])
        |[(x & _ & -> & _)|[(x & _ & -> & _)|
          (dt & tail & _ & _ & _ & _ & _ & Hd & _ & Hfree)]]]];
        [try discriminate E; not_a_success Hin ..|].
      split; [exact Hv|]. split; [congruence|].
      intros r Hr E. pose proof (not_among _ _ Hfree r Hr) as H.
      unfold has_email in H. apply String.eqb_neq in H. auto.
    + intros (Hv & Hd & Hfree).
      destruct (strptime lim date_str) as [dt0|] eqn:Ev; [|congruence].
      destruct (date_in date_str) as [dt|] eqn:Ed; [|congruence].
      assert (Hmail : existsb (has_email mail) (rows (store w)) = false).
      { rewrite <- (filter_all (rows (store w))). apply email_free_iff.
        intros r Hr E. now apply Hfree in Hr. }
      destruct (has_nul first || has_nul last || has_nul mail) eqn:Hnul.
      { rewrite (addStudent_nul_run lim date_in first last mail date_str dt0 w
                   Ev Hnul (calm_less 2 2 _ Hc)) in Hrun. discriminate Hrun. }
      apply orb_false_elim in Hnul as [Hnul H3].
      apply orb_false_elim in Hnul as [H1 H2].
      rewrite (addStudent_run lim date_in first last mail date_str dt0 dt w
                 Ev Ed H1 H2 H3 (below_is_fresh _ _ Hb) Hmail Hc) in Hrun.
      injection Hrun as <-. unfold extends in Hext. cbn [trace] in Hext.
      apply app_inv_head in Hext. subst added. eexists. cbn [In]. eauto 6.
  - destruct (updateStudentEmail_paths lim date_in sid new_email w)
      as (r1 & w1 & added1 & Hrun1 & Hext1 & _ & Hcases).
    rewrite Hrun in Hrun1. injection Hrun1 as <- <-.
    rewrite (extends_unique _ _ _ _ Hext1 Hext) in Hcases. clear Hext1.
    split.
    + intros Hin.
      destruct Hcases as [(_ & _ & -> & _)|(n & Hp & Hcases)]; [not_a_success Hin|].
      destruct Hcases as [(x & _ & -> & _)|[(_ & _ & _ & [(E & _)|(x & _ & ->)])
        |[(x & _ & -> & _)|[(tail & -> & [->|[x ->]] & _)|[(x & _ & -> & _)|
          (tail & _ & _ & _ & _ & _ & Hone & Hfree & _)]]]]];
        [try discriminate E; not_a_success Hin ..|].
      exists n. split; [exact Hp|]. split.
      * apply some_hit. rewrite Hone. discriminate.
      * intros r Hr E. pose proof (proj1 (email_free_iff _ _ _) Hfree r Hr E) as H.
        unfold has_id in H. apply negb_false_iff, Z.eqb_eq in H. exact H.
    + intros (n & Hp & (r & Hr & Hid) & Hfree).
      destruct (has_nul new_email) eqn:Hnul.
      { rewrite (updateStudentEmail_nul_run lim date_in sid n new_email w
                   Hp Hnul (calm_less 2 2 _ Hc)) in Hrun. discriminate Hrun. }
      rewrite (updateStudentEmail_run lim date_in sid n new_email w Hp Hnul) in Hrun;
        [| now apply (one_hit_of_key n _ r) | | exact Hc].
      * injection Hrun as <-. unfold extends in Hext. cbn [trace] in Hext.
        apply app_inv_head in Hext. subst added. cbn [In]. auto 6.
      * apply email_free_iff. intros x Hx E. unfold has_id.
        apply negb_false_iff, Z.eqb_eq. now apply Hfree.
  - destruct (deleteStudent_paths lim date_in sid w)
      as (w1 & added1 & Hrun1 & Hext1 & _ & Hcases).
    rewrite Hrun in Hrun1. injection Hrun1 as <-.
    rewrite (extends_unique _ _ _ _ Hext1 Hext) in Hcases. clear Hext1.
    split.
    + intros Hin.
      destruct Hcases as [(_ & -> & _)|(n & Hp & Hcases)]; [not_a_success Hin|].
      destruct Hcases as [(x & -> & _)|[(x & -> & _)|[(tail & -> & [->|[x ->]] & _)
        |[(x & -> & _)|(tail & _ & _ & _ & _ & Hex)]]]];
        [not_a_success Hin ..|].
      exists n. auto.
    + intros (n & Hp & Hex).
      rewrite (deleteStudent_run lim date_in sid n w Hp Hex Hc) in Hrun.
      injection Hrun as <-. unfold extends in Hext. cbn [trace] in Hext.
      apply app_inv_head in Hext. subst added. cbn [In]. auto 6.
Qed.

(** X14.  [getAllStudents] and [deleteStudent] answer an error of the
    store with their own "Failed to ..." line and return.  For a refused
    connection the line carries the diagnostic of that error and nothing
    else happens.  For a failed statement, and for a failed commit of the
    delete, the block is left by the error (the transaction is rolled
    back) before the line is printed, and the store is as it was: the
    line carries the diagnostic of the statement or of the commit when the
    end of the block raises nothing, and the diagnostic of the error
    raised at the end of the block when it raises one. *)
Theorem list_and_delete_report_store_errors (sid : string) (n : Z) (x y : pg_exc)
    (fs : list (option pg_exc)) (w : World) :
  (faults w = Some x :: fs ->
   exists w', getAllStudents date_in w = (Return tt, w')
     /\ extends w w' [Call Connect; Out (msg_fetch_failed x)]
     /\ store w' = store w /\ faults w' = fs)
  /\ (faults w = None :: Some x :: None :: fs ->
      exists w', getAllStudents date_in w = (Return tt, w')
        /\ extends w w' [Call Connect; Call (Execute SelectAll);
                         Call (Release false); Out (msg_fetch_failed x)]
        /\ store w' = store w /\ faults w' = fs)
  /\ (faults w = None :: Some x :: Some y :: fs ->
      exists w', getAllStudents date_in w = (Return tt, w')
        /\ extends w w' [Call Connect; Call (Execute SelectAll);
                         Call (Release false); Out (msg_fetch_failed y)]
        /\ store w' = store w /\ faults w' = fs)
  /\ (py_int lim sid = Some n ->
      (faults w = Some x :: fs ->
       exists w', deleteStudent lim date_in sid w = (Return tt, w')
         /\ extends w w' [Call Connect; Out (msg_delete_failed x)]
         /\ store w' = store w /\ faults w' = fs)
      /\ (faults w = None :: Some x :: None :: fs ->
          exists w', deleteStudent lim date_in sid w = (Return tt, w')
            /\ extends w w' [Call Connect; Call (Execute (DeleteStudent n));
                             Call (Release false); Out (msg_delete_failed x)]
            /\ store w' = store w /\ faults w' = fs)
      /\ (faults w = None :: Some x :: Some y :: fs ->
          exists w', deleteStudent lim date_in sid w = (Return tt, w')
            /\ extends w w' [Call Connect; Call (Execute (DeleteStudent n));
                             Call (Release false); Out (msg_delete_failed y)]
            /\ store w' = store w /\ faults w' = fs)
      /\ ((exists r, In r (rows (store w)) /\ student_id r = n) ->
          (faults w = None :: None :: Some x :: None :: fs ->
           exists w', deleteStudent lim date_in sid w = (Return tt, w')
             /\ extends w w' [Call Connect; Call (Execute (DeleteStudent n));
                              Call Commit; Call (Release false);
                              Out (msg_delete_failed x)]
             /\ store w' = store w /\ faults w' = fs)
          /\ (faults w = None :: None :: Some x :: Some y :: fs ->
              exists w', deleteStudent lim date_in sid w = (Return tt, w')
                /\ extends w w' [Call Connect; Call (Execute (DeleteStudent n));
                                 Call Commit; Call (Release false);
                                 Out (msg_delete_failed y)]
                /\ store w' = store w /\ faults w' = fs))).
Proof.
  destruct w as [[rws seq] ses fl inp tr]. cbn [faults store rows].
  split; [|split; [|split; [|intros Hp; split; [|split; [|split]]]]].
  - intros ->. unfold getAllStudents. unfold_py.
    eexists. split; [reflexivity|]. split; [give_trace|]. split; reflexivity.
  - intros ->. unfold getAllStudents. unfold_py.
    eexists. split; [reflexivity|]. split; [give_trace|]. split; reflexivity.
  - intros ->. unfold getAllStudents. unfold_py.
    eexists. split; [reflexivity|]. split; [give_trace|]. split; reflexivity.
  - intros ->. unfold deleteStudent, int. rewrite Hp. unfold_py.
    eexists. split; [reflexivity|]. split; [give_trace|]. split; reflexivity.
  - intros ->. unfold deleteStudent, int. rewrite Hp. unfold_py.
    eexists. split; [reflexivity|]. split; [give_trace|]. split; reflexivity.
  - intros ->. unfold deleteStudent, int. rewrite Hp. unfold_py.
    eexists. split; [reflexivity|]. split; [give_trace|]. split; reflexivity.
  - intros (r & Hin & Hid).
    destruct (run_delete_hit date_in n rws seq r Hin Hid) as (k & Hk & Hrun).
    apply Z.eqb_neq in Hk.
    split; intros ->; unfold deleteStudent, int; rewrite Hp.
    all: unfold_py; rewrite Hrun; unfold_py; cbn [rowcount]; rewrite Hk; unfold_py.
    all: eexists; split; [reflexivity|]; split; [give_trace|]; split; reflexivity.
Qed.

End Compositions.
(** ** What the program prints can be typed back *)

Lemma list_ascii_of_string_app a b :
  list_ascii_of_string (a ++ b)%string
  = list_ascii_of_string a ++ list_ascii_of_string b.
Proof. induction a as [|c a IH]; cbn; [reflexivity | now rewrite IH]. Qed.

Lemma padded_fields_checked :
  forallb (fun k =>
             let t := list_ascii_of_string (pad 4 (str_of_int (Z.of_nat k))) in
             (length t =? 4)%nat && forallb is_digit t
             && (field_value t =? Z.of_nat k))
          (seq 0 (Z.to_nat 10000)) = true
  /\ forallb (fun k =>
                let t := list_ascii_of_string (pad 2 (str_of_int (Z.of_nat k))) in
                (length t =? 2)%nat && forallb is_digit t
                && (field_value t =? Z.of_nat k))
             (seq 0 (Z.to_nat 100)) = true.
Proof. split; vm_compute; reflexivity. Qed.

(** A year below 10000 is written on four digits, a month or a day below
    100 on two. *)
Lemma padded_field (width : nat) (n : Z) :
  (width = 4%nat /\ 0 <= n < 10000) \/ (width = 2%nat /\ 0 <= n < 100) ->
  let t := list_ascii_of_string (pad width (str_of_int n)) in
  length t = width /\ digits t /\ field_value t = n.
Proof.
  destruct padded_fields_checked as [H4 H2].
  rewrite forallb_forall in H4, H2.
  assert (Hin : forall b, 0 <= n < b -> In (Z.to_nat n) (seq 0 (Z.to_nat b))).
  { intros b Hb. apply in_seq. lia. }
  intros [[-> Hn]|[-> Hn]] t; unfold t; clear t.
  - specialize (H4 (Z.to_nat n) (Hin _ Hn)). rewrite Z2Nat.id in H4 by lia.
    cbn zeta in H4. apply andb_true_iff in H4 as [H4 Hv].
    apply andb_true_iff in H4 as [Hl Hd].
    apply Nat.eqb_eq in Hl. apply Z.eqb_eq in Hv. auto.
  - specialize (H2 (Z.to_nat n) (Hin _ Hn)). rewrite Z2Nat.id in H2 by lia.
    cbn zeta in H2. apply andb_true_iff in H2 as [H2 Hv].
    apply andb_true_iff in H2 as [Hl Hd].
    apply Nat.eqb_eq in Hl. apply Z.eqb_eq in Hv. auto.
Qed.

Lemma str_of_date_written y m dd :
  written (list_ascii_of_string (str_of_date (mkDate y m dd)))
          (list_ascii_of_string (pad 4 (str_of_int y)))
          (list_ascii_of_string (pad 2 (str_of_int m)))
          (list_ascii_of_string (pad 2 (str_of_int dd))).
Proof.
  unfold written, str_of_date. cbn [year month day].
  now rewrite !list_ascii_of_string_app.
Qed.

(** X15.  The date [getAllStudents] prints for a row is of the strict
    shape YYYY-MM-DD, and [datetime.strptime] reads it back as the same
    date: every enrollment date of the listing is accepted by the
    validation of [addStudent]. *)
Theorem listed_date_is_accepted (lim : nat) (y m dd : Z) :
  real_date y m dd ->
  strict_date (list_ascii_of_string (py_str (PDate (mkDate y m dd))))
  /\ strptime lim (py_str (PDate (mkDate y m dd))) = Some (mkDate y m dd).
Proof.
  intros Hr. pose proof Hr as (Hy & Hm & Hd).
  pose proof (month_length_bound y m) as Hb.
  destruct (padded_field 4 y) as (Ly & Dy & Vy); [left; split; [reflexivity | lia]|].
  destruct (padded_field 2 m) as (Lm & Dm & Vm); [right; split; [reflexivity | lia]|].
  destruct (padded_field 2 dd) as (Ld & Dd & Vd); [right; split; [reflexivity | lia]|].
  cbn [py_str].
  assert (Hs : strict_fields (list_ascii_of_string (pad 4 (str_of_int y)))
                             (list_ascii_of_string (pad 2 (str_of_int m)))
                             (list_ascii_of_string (pad 2 (str_of_int dd))))
    by (unfold strict_fields; auto 8).
  split.
  - do 3 eexists. split; [apply str_of_date_written|]. split; [exact Hs|].
    now rewrite Vy, Vm, Vd.
  - unfold strptime. apply strptime_text_spec. do 3 eexists.
    split; [apply str_of_date_written|]. split; [now apply strict_is_lenient|].
    rewrite Vy, Vm, Vd. auto.
Qed.

(** X16.  The key [getAllStudents] and [addStudent] print for a row is
    read back by [int] as that key, for every key of at most 640 digits;
    so two rows with different keys are never printed with the same key
    text. *)
Theorem printed_key_reads_back (lim : nat) (n : Z) :
  Z.abs n < 10 ^ 640 ->
  py_int lim (py_str (PInt n)) = Some n
  /\ (forall k, Z.abs k < 10 ^ 640 -> py_str (PInt k) = py_str (PInt n) -> k = n).
Proof.
  intros Hn. split; [now apply int_of_str|].
  intros k Hk E. apply (int_of_str lim) in Hk. apply (int_of_str lim) in Hn.
  cbn [py_str] in E. rewrite E, Hn in Hk. now injection Hk.
Qed.

(** * Worked examples of the further properties *)

Local Open Scope string_scope.

Lemma table_well_formed : well_formed table.
Proof.
  unfold well_formed, table. cbn [rows next_id map student_id email ada alan].
  split; [|split].
  - repeat constructor; cbn [In]; intuition discriminate.
  - repeat constructor; cbn [In]; intuition discriminate.
  - repeat constructor.
Qed.

Lemma list_of_an_empty_table_witness :
  rows (store (mkWorld (mkDatabase [] 1) None [] [] [])) = []
  /\ calm 3 (faults (mkWorld (mkDatabase [] 1) None [] [] [])) = true
  /\ exists w',
       getAllStudents store_date (mkWorld (mkDatabase [] 1) None [] [] [])
       = (Return tt, w')
       /\ extends (mkWorld (mkDatabase [] 1) None [] [] []) w'
            [Call Connect; Call (Execute SelectAll);
             Out (nl ++ "No students found." ++ nl); Call (Release true)]
       /\ store w' = store (mkWorld (mkDatabase [] 1) None [] [] []).
Proof.
  split; [reflexivity|]. split; [reflexivity|].
  apply (list_of_an_empty_table store_date (mkWorld (mkDatabase [] 1) None [] [] []));
    reflexivity.
Defined.

Lemma list_prints_rows_in_key_order_witness :
  rows (store (mkWorld (mkDatabase [alan; ada] 3) None [] [] [])) <> []
  /\ calm 3 (faults (mkWorld (mkDatabase [alan; ada] 3) None [] [] [])) = true
  /\ exists found w',
       Permutation found (rows (store (mkWorld (mkDatabase [alan; ada] 3) None [] [] [])))
       /\ Sorted by_id found
       /\ getAllStudents store_date (mkWorld (mkDatabase [alan; ada] 3) None [] [] [])
          = (Return tt, w')
       /\ extends (mkWorld (mkDatabase [alan; ada] 3) None [] [] []) w'
            ([Call Connect; Call (Execute SelectAll);
              Out (nl ++ "All Students:");
              Out "ID | First Name | Last Name | Email | Enrollment Date";
              Out (dashes 70)]
             ++ map (fun r => Out (row_line r)) found
             ++ [Out EmptyString; Call (Release true)])%list
       /\ store w' = store (mkWorld (mkDatabase [alan; ada] 3) None [] [] []).
Proof.
  split; [discriminate|]. split; [reflexivity|].
  apply (list_prints_rows_in_key_order store_date
           (mkWorld (mkDatabase [alan; ada] 3) None [] [] []));
    [discriminate | reflexivity].
Defined.

Lemma delete_removes_only_that_row_witness :
  deleteStudent limit store_date "1" quiet
  = (Return tt,
     mkWorld (mkDatabase [alan] 3) None [] []
       [Call Connect; Call (Execute (DeleteStudent 1)); Call Commit;
        Out msg_deleted; Call (Release true)])
  /\ In (Out msg_deleted)
        [Call Connect; Call (Execute (DeleteStudent 1)); Call Commit;
         Out msg_deleted; Call (Release true)]
  /\ exists n,
       py_int limit "1" = Some n
       /\ (exists r, In r (rows (store quiet)) /\ student_id r = n)
       /\ [alan] = filter (fun r => negb (has_id n r)) (rows (store quiet))
       /\ (forall r, In r [alan] <-> In r (rows (store quiet)) /\ student_id r <> n)
       /\ 3 = next_id (store quiet).
Proof.
  split; [reflexivity|]. split; [cbn; auto 6|].
  apply (delete_removes_only_that_row limit store_date "1" quiet
           (mkWorld (mkDatabase [alan] 3) None [] []
              [Call Connect; Call (Execute (DeleteStudent 1)); Call Commit;
               Out msg_deleted; Call (Release true)])
           [Call Connect; Call (Execute (DeleteStudent 1)); Call Commit;
            Out msg_deleted; Call (Release true)]);
    [reflexivity | reflexivity | cbn; auto 6].
Defined.

Lemma failed_change_leaves_the_store_witness :
  updateStudentEmail limit store_date "2" "ada@x.com" quiet
  = (Return tt,
     mkWorld table None [] []
       [Call Connect; Call (Execute (UpdateEmail "ada@x.com" 2));
        Call (Release false); Out msg_duplicate_email])
  /\ ~ In (Out msg_updated)
          [Call Connect; Call (Execute (UpdateEmail "ada@x.com" 2));
           Call (Release false); Out msg_duplicate_email]
  /\ store (mkWorld table None [] []
              [Call Connect; Call (Execute (UpdateEmail "ada@x.com" 2));
               Call (Release false); Out msg_duplicate_email])
     = store quiet.
Proof.
  assert (Hno : ~ In (Out msg_updated)
                    [Call Connect; Call (Execute (UpdateEmail "ada@x.com" 2));
                     Call (Release false); Out msg_duplicate_email]).
  { intros H. not_printed H. }
  split; [reflexivity|]. split; [exact Hno|].
  apply (proj1 (failed_change_leaves_the_store limit store_date "2" "ada@x.com" quiet
           (mkWorld table None [] []
              [Call Connect; Call (Execute (UpdateEmail "ada@x.com" 2));
               Call (Release false); Out msg_duplicate_email])
           [Call Connect; Call (Execute (UpdateEmail "ada@x.com" 2));
            Call (Release false); Out msg_duplicate_email]));
    [reflexivity | reflexivity | exact Hno].
Defined.

Lemma operations_keep_the_table_well_formed_witness :
  well_formed (store quiet)
  /\ well_formed (store (snd (getAllStudents store_date quiet)))
  /\ well_formed
       (store (snd (addStudent limit store_date "Grace" "Hopper" "grace@x.com"
                      "1906-12-09" quiet)))
  /\ well_formed (store (snd (updateStudentEmail limit store_date "2" "alan@x.org" quiet)))
  /\ well_formed (store (snd (deleteStudent limit store_date "2" quiet))).
Proof.
  split; [exact table_well_formed|].
  apply (operations_keep_the_table_well_formed limit store_date "Grace" "Hopper"
           "grace@x.com" "1906-12-09" "2" "alan@x.org" quiet).
  exact table_well_formed.
Defined.

Lemma program_keeps_the_table_well_formed_witness :
  well_formed (store (at_rest ["4"; "1"; "0"] []))
  /\ exists r w',
       main limit store_date (at_rest ["4"; "1"; "0"] []) = Some (r, w')
       /\ rows (store w') = [alan]
       /\ well_formed (store w').
Proof.
  split; [exact table_well_formed|].
  eexists. eexists. split; [vm_compute; reflexivity|]. split; [reflexivity|].
  apply (program_keeps_the_table_well_formed limit store_date
           (at_rest ["4"; "1"; "0"] [])) with (r := Return tt);
    [exact table_well_formed | vm_compute; reflexivity].
Defined.

Lemma created_row_is_listed_last_witness :
  well_formed (store quiet)
  /\ strptime limit "1906-12-09" = Some (mkDate 1906 12 9)
  /\ store_date "1906-12-09" = Some (mkDate 1906 12 9)
  /\ has_nul "Grace" = false /\ has_nul "Hopper" = false
  /\ has_nul "grace@x.com" = false
  /\ existsb (has_email "grace@x.com") (rows (store quiet)) = false
  /\ calm 7 (faults quiet) = true
  /\ exists w1 w2,
       addStudent limit store_date "Grace" "Hopper" "grace@x.com" "1906-12-09" quiet
       = (Return tt, w1)
       /\ (forall x, In x (rows (store quiet)) -> student_id x <> 3)
       /\ rows (store w1)
          = [ada; alan; mkStudent 3 "Grace" "Hopper" "grace@x.com" (mkDate 1906 12 9)]
       /\ getAllStudents store_date w1 = (Return tt, w2)
       /\ extends w1 w2
            [Call Connect; Call (Execute SelectAll);
             Out (nl ++ "All Students:");
             Out "ID | First Name | Last Name | Email | Enrollment Date";
             Out (dashes 70);
             Out "1 | Ada | Lovelace | ada@x.com | 1843-12-10";
             Out "2 | Alan | Turing | alan@x.com | 1912-06-23";
             Out "3 | Grace | Hopper | grace@x.com | 1906-12-09";
             Out EmptyString; Call (Release true)]
       /\ store w2 = store w1.
Proof.
  split; [exact table_well_formed|]. do 7 (split; [reflexivity|]).
  apply (created_row_is_listed_last limit store_date "Grace" "Hopper" "grace@x.com"
           "1906-12-09" (mkDate 1906 12 9) (mkDate 1906 12 9) quiet);
    [exact table_well_formed | reflexivity ..].
Defined.

Lemma update_is_idempotent_witness :
  updateStudentEmail limit store_date "2" "alan@bletchley.uk" quiet
  = (Return tt,
     mkWorld (mkDatabase [ada; set_email "alan@bletchley.uk" alan] 3) None [] []
       [Call Connect; Call (Execute (UpdateEmail "alan@bletchley.uk" 2));
        Call Commit; Out msg_updated; Call (Release true)])
  /\ In (Out msg_updated)
        [Call Connect; Call (Execute (UpdateEmail "alan@bletchley.uk" 2));
         Call Commit; Out msg_updated; Call (Release true)]
  /\ exists n w2,
       py_int limit "2" = Some n
       /\ updateStudentEmail limit store_date "2" "alan@bletchley.uk"
            (mkWorld (mkDatabase [ada; set_email "alan@bletchley.uk" alan] 3) None [] []
               [Call Connect; Call (Execute (UpdateEmail "alan@bletchley.uk" 2));
                Call Commit; Out msg_updated; Call (Release true)])
          = (Return tt, w2)
       /\ extends
            (mkWorld (mkDatabase [ada; set_email "alan@bletchley.uk" alan] 3) None [] []
               [Call Connect; Call (Execute (UpdateEmail "alan@bletchley.uk" 2));
                Call Commit; Out msg_updated; Call (Release true)])
            w2
            [Call Connect; Call (Execute (UpdateEmail "alan@bletchley.uk" n));
             Call Commit; Out msg_updated; Call (Release true)]
       /\ store w2 = mkDatabase [ada; set_email "alan@bletchley.uk" alan] 3.
Proof.
  split; [reflexivity|]. split; [cbn; auto 6|].
  apply (update_is_idempotent limit store_date "2" "alan@bletchley.uk" quiet
           (mkWorld (mkDatabase [ada; set_email "alan@bletchley.uk" alan] 3) None [] []
              [Call Connect; Call (Execute (UpdateEmail "alan@bletchley.uk" 2));
               Call Commit; Out msg_updated; Call (Release true)])
           [Call Connect; Call (Execute (UpdateEmail "alan@bletchley.uk" 2));
            Call Commit; Out msg_updated; Call (Release true)]);
    [reflexivity | reflexivity | cbn; auto 6 | reflexivity].
Defined.

Lemma end_of_input_abandons_the_operation_witness :
  stdin (at_rest [" 2 "; "Grace"; "Hopper"] []) = [" 2 "; "Grace"; "Hopper"]
  /\ strip " 2 " = "2"
  /\ (length ["Grace"; "Hopper"] < 4)%nat
  /\ exists prompts,
       menu limit store_date (at_rest [" 2 "; "Grace"; "Hopper"] [])
       = Some (Raise EOFError,
               prompted (at_rest [" 2 "; "Grace"; "Hopper"] []) prompts []).
Proof.
  split; [reflexivity|]. split; [reflexivity|]. split; [cbn; lia|].
  apply (end_of_input_abandons_the_operation limit store_date
           (at_rest [" 2 "; "Grace"; "Hopper"] [])).
  right. exists " 2 ", ["Grace"; "Hopper"]. split; [reflexivity|].
  left. split; [reflexivity | cbn; lia].
Defined.

Lemma create_then_delete_restores_the_rows_witness :
  well_formed (store quiet)
  /\ Z.abs (next_id (store quiet)) < 10 ^ 640
  /\ strptime limit "1906-12-09" = Some (mkDate 1906 12 9)
  /\ store_date "1906-12-09" = Some (mkDate 1906 12 9)
  /\ has_nul "Grace" = false /\ has_nul "Hopper" = false
  /\ has_nul "grace@x.com" = false
  /\ existsb (has_email "grace@x.com") (rows (store quiet)) = false
  /\ calm 8 (faults quiet) = true
  /\ exists w1 w2,
       addStudent limit store_date "Grace" "Hopper" "grace@x.com" "1906-12-09" quiet
       = (Return tt, w1)
       /\ extends quiet w1
            [Call Connect;
             Call (Execute (InsertStudent "Grace" "Hopper" "grace@x.com" "1906-12-09"));
             Call Commit; Out (msg_added (PInt 3)); Call (Release true)]
       /\ deleteStudent limit store_date "3" w1 = (Return tt, w2)
       /\ extends w1 w2 [Call Connect; Call (Execute (DeleteStudent 3));
                         Call Commit; Out msg_deleted; Call (Release true)]
       /\ rows (store w2) = [ada; alan].
Proof.
  split; [exact table_well_formed|]. split; [vm_compute; reflexivity|].
  do 7 (split; [reflexivity|]).
  apply (create_then_delete_restores_the_rows limit store_date "Grace" "Hopper"
           "grace@x.com" "1906-12-09" (mkDate 1906 12 9) (mkDate 1906 12 9) quiet);
    [exact table_well_formed | vm_compute; reflexivity | reflexivity ..].
Defined.

Lemma changes_succeed_exactly_when_witness :
  well_formed (store quiet)
  /\ calm 4 (faults quiet) = true
  /\ deleteStudent limit store_date "7" quiet
     = (Return tt,
        mkWorld table None [] []
          [Call Connect; Call (Execute (DeleteStudent 7)); Out msg_not_found;
           Call (Release true)])
  /\ (In (Out msg_deleted)
         [Call Connect; Call (Execute (DeleteStudent 7)); Out msg_not_found;
          Call (Release true)]
      <-> exists n, py_int limit "7" = Some n
            /\ exists r, In r (rows (store quiet)) /\ student_id r = n)
  /\ updateStudentEmail limit store_date "1" "ada@maths.uk" quiet
     = (Return tt,
        mkWorld (mkDatabase [set_email "ada@maths.uk" ada; alan] 3) None [] []
          [Call Connect; Call (Execute (UpdateEmail "ada@maths.uk" 1)); Call Commit;
           Out msg_updated; Call (Release true)])
  /\ (In (Out msg_updated)
         [Call Connect; Call (Execute (UpdateEmail "ada@maths.uk" 1)); Call Commit;
          Out msg_updated; Call (Release true)]
      <-> exists n, py_int limit "1" = Some n
            /\ (exists r, In r (rows (store quiet)) /\ student_id r = n)
            /\ (forall r, In r (rows (store quiet)) -> email r = "ada@maths.uk" ->
                          student_id r = n)).
Proof.
  split; [exact table_well_formed|]. split; [reflexivity|]. split; [reflexivity|].
  split.
  - apply (proj2 (proj2 (changes_succeed_exactly_when limit store_date "Grace" "Hopper"
                           "grace@x.com" "1906-12-09" "7" "new@x.com" quiet
                           table_well_formed eq_refl)))
      with (w' := mkWorld table None [] []
                    [Call Connect; Call (Execute (DeleteStudent 7)); Out msg_not_found;
                     Call (Release true)]);
      reflexivity.
  - split; [reflexivity|].
    apply (proj1 (proj2 (changes_succeed_exactly_when limit store_date "Grace" "Hopper"
                           "grace@x.com" "1906-12-09" "1" "ada@maths.uk" quiet
                           table_well_formed eq_refl)))
      with (w' := mkWorld (mkDatabase [set_email "ada@maths.uk" ada; alan] 3) None [] []
                    [Call Connect; Call (Execute (UpdateEmail "ada@maths.uk" 1));
                     Call Commit; Out msg_updated; Call (Release true)]);
      reflexivity.
Defined.

Lemma list_and_delete_report_store_errors_witness :
  faults (at_rest [] [None; Some refused; Some no_connection])
  = [None; Some refused; Some no_connection]
  /\ (exists w',
        getAllStudents store_date (at_rest [] [None; Some refused; Some no_connection])
        = (Return tt, w')
        /\ extends (at_rest [] [None; Some refused; Some no_connection]) w'
             [Call Connect; Call (Execute SelectAll); Call (Release false);
              Out (msg_fetch_failed no_connection)]
        /\ store w' = store (at_rest [] [None; Some refused; Some no_connection])
        /\ faults w' = [])
  /\ py_int limit "1" = Some 1
  /\ faults (at_rest [] [None; None; Some refused; None])
     = [None; None; Some refused; None]
  /\ (exists r, In r (rows (store (at_rest [] [None; None; Some refused; None])))
                /\ student_id r = 1)
  /\ exists w',
       deleteStudent limit store_date "1" (at_rest [] [None; None; Some refused; None])
       = (Return tt, w')
       /\ extends (at_rest [] [None; None; Some refused; None]) w'
            [Call Connect; Call (Execute (DeleteStudent 1)); Call Commit;
             Call (Release false); Out (msg_delete_failed refused)]
       /\ store w' = store (at_rest [] [None; None; Some refused; None])
       /\ faults w' = [].
Proof.
  assert (Hrow : exists r,
             In r (rows (store (at_rest [] [None; None; Some refused; None])))
             /\ student_id r = 1).
  { exists ada. split; [now left | reflexivity]. }
  split; [reflexivity|]. split.
  - apply (proj1 (proj2 (proj2
             (list_and_delete_report_store_errors limit store_date "1" 1 refused
                no_connection []
                (at_rest [] [None; Some refused; Some no_connection]))))).
    reflexivity.
  - split; [reflexivity|]. split; [reflexivity|]. split; [exact Hrow|].
    apply (proj1 (proj2 (proj2 (proj2
             (proj2 (proj2 (proj2
                (list_and_delete_report_store_errors limit store_date "1" 1 refused
                   no_connection []
                   (at_rest [] [None; None; Some refused; None]))))
                eq_refl))) Hrow)).
    reflexivity.
Defined.

Lemma listed_date_is_accepted_witness :
  real_date 1912 6 23
  /\ py_str (PDate (mkDate 1912 6 23)) = "1912-06-23"
  /\ strict_date (list_ascii_of_string (py_str (PDate (mkDate 1912 6 23))))
  /\ strptime limit (py_str (PDate (mkDate 1912 6 23))) = Some (mkDate 1912 6 23).
Proof.
  assert (Hr : real_date 1912 6 23).
  { unfold real_date. vm_compute. intuition discriminate. }
  split; [exact Hr|]. split; [reflexivity|].
  apply (listed_date_is_accepted limit 1912 6 23 Hr).
Defined.

Lemma printed_key_reads_back_witness :
  Z.abs 2147483647 < 10 ^ 640
  /\ py_str (PInt 2147483647) = "2147483647"
  /\ py_int limit (py_str (PInt 2147483647)) = Some 2147483647
  /\ (forall k, Z.abs k < 10 ^ 640 ->
                py_str (PInt k) = py_str (PInt 2147483647) -> k = 2147483647).
Proof.
  split; [vm_compute; reflexivity|]. split; [reflexivity|].
  apply (printed_key_reads_back limit 2147483647). vm_compute. reflexivity.
Defined.

